(** * propertyPandit: the housing price estimator and its currency formatter

    A shallow embedding of [app.py]: the Python numbers it computes with
    (unbounded integers and IEEE 754 binary64 floats), the exceptions its
    arithmetic can raise, the coefficient table, [format_indian_currency],
    [HousingPricePredictor.calculate_ols_price] and the two request handlers
    [predict] and [retrain_model]. *)

From Stdlib Require Import ZArith QArith Qabs Qround Qpower Lia Lqa.
From Stdlib Require Import Bool List String Ascii.
From Stdlib Require Import SpecFloat.
From Stdlib Require DecimalString.
Import ListNotations.

Local Open Scope string_scope.
Local Open Scope Z_scope.

(** ** Binary64 arithmetic

    A Python [float] is an IEEE 754 binary64 number.  The carrier is the
    standard library's [spec_float]; addition, multiplication and division
    are the exact rational operation followed by rounding to nearest, ties
    to even, which is how IEEE 754 defines them.  The power function of the
    C library is not correctly rounded; [faithful] gives the two results it
    can return. *)

Module F64.

Definition float := spec_float.

Definition prec : Z := 53.
Definition emax : Z := 1024.
Definition emin : Z := -1074.

Definition pow2 (e : Z) : Q := (2 ^ e)%Q.

(** Nearest integer, ties to the even one. *)
Definition rne (q : Q) : Z :=
  let f := Qfloor q in
  match Qcompare (q - inject_Z f) (1 # 2) with
  | Lt => f
  | Gt => f + 1
  | Eq => if Z.even f then f else f + 1
  end.

(** [ilog2 q] is the integer [k] with [2^k <= q < 2^(k+1)], for [0 < q]. *)
Definition ilog2 (q : Q) : Z :=
  let a := Z.log2 (Qnum q) - Z.log2 (Zpos (Qden q)) in
  if Qle_bool (pow2 a) q then a else a - 1.

(** Exponent of the unit in the last place of the binade of [q]. *)
Definition qexp (q : Q) : Z := Z.max (ilog2 q - (prec - 1)) emin.

(** The rounded magnitude of a positive rational, as an integer number of
    units in the last place. *)
Definition round_mag (q : Q) : Z * Z :=
  let e := qexp q in (rne (q / pow2 e), e).

Definition normalize (me : Z * Z) : Z * Z :=
  let (m, e) := me in if m =? 2 ^ prec then (2 ^ (prec - 1), e + 1) else (m, e).

Definition build (s : bool) (me : Z * Z) : float :=
  let (m, e) := me in
  match m with
  | Zpos p => if e >? emax - prec then S754_infinity s else S754_finite s p e
  | _ => S754_zero s
  end.

(** Rounding of an exact result to binary64; [zs] is the sign given to an
    exact zero. *)
Definition of_Q (zs : bool) (q : Q) : float :=
  match Qcompare q 0 with
  | Eq => S754_zero zs
  | Lt => build true (normalize (round_mag (Qabs q)))
  | Gt => build false (normalize (round_mag (Qabs q)))
  end.

(** A positive rational rounded to one of the two floats next to it: the
    one below, or the one above when [up]; a rational that is a float is
    returned as it is, whatever [up]. *)
Definition faithful (up : bool) (q : Q) : float :=
  let e := qexp q in
  let t := (q / pow2 e)%Q in
  let m := if (Qfloor t <? Qceiling t) && up then Qceiling t else Qfloor t in
  build false (normalize (m, e)).

Definition abs (x : float) : float :=
  match x with
  | S754_zero _ => S754_zero false
  | S754_infinity _ => S754_infinity false
  | S754_nan => S754_nan
  | S754_finite _ m e => S754_finite false m e
  end.

Definition sgn (s : bool) : Q := if s then -1 else 1.

Definition to_Q (x : float) : Q :=
  match x with
  | S754_finite s m e => sgn s * inject_Z (Zpos m) * pow2 e
  | _ => 0
  end.

Definition sign (x : float) : bool :=
  match x with
  | S754_zero s | S754_infinity s | S754_finite s _ _ => s
  | S754_nan => false
  end.

Definition is_nan (x : float) : bool :=
  match x with S754_nan => true | _ => false end.

Definition is_finite (x : float) : bool :=
  match x with S754_zero _ | S754_finite _ _ _ => true | _ => false end.

Definition of_Z (n : Z) : float := of_Q false (inject_Z n).

Definition add (x y : float) : float :=
  match x, y with
  | S754_nan, _ | _, S754_nan => S754_nan
  | S754_infinity sx, S754_infinity sy =>
      if Bool.eqb sx sy then x else S754_nan
  | S754_infinity _, _ => x
  | _, S754_infinity _ => y
  | _, _ => of_Q (sign x && sign y) (to_Q x + to_Q y)
  end.

Definition mul (x y : float) : float :=
  match x, y with
  | S754_nan, _ | _, S754_nan => S754_nan
  | S754_infinity _, S754_zero _ | S754_zero _, S754_infinity _ => S754_nan
  | S754_infinity _, _ | _, S754_infinity _ =>
      S754_infinity (xorb (sign x) (sign y))
  | _, _ => of_Q (xorb (sign x) (sign y)) (to_Q x * to_Q y)
  end.

Definition div (x y : float) : float :=
  match x, y with
  | S754_nan, _ | _, S754_nan => S754_nan
  | S754_infinity _, S754_infinity _ => S754_nan
  | S754_zero _, S754_zero _ => S754_nan
  | S754_infinity _, _ | _, S754_zero _ =>
      S754_infinity (xorb (sign x) (sign y))
  | _, S754_infinity _ => S754_zero (xorb (sign x) (sign y))
  | _, _ => of_Q (xorb (sign x) (sign y)) (to_Q x / to_Q y)
  end.

(** Comparison: [None] when an operand is NaN. *)
Definition compare (x y : float) : option comparison :=
  match x, y with
  | S754_nan, _ | _, S754_nan => None
  | S754_infinity sx, S754_infinity sy =>
      Some (if sx then (if sy then Eq else Lt) else (if sy then Gt else Eq))
  | S754_infinity sx, _ => Some (if sx then Lt else Gt)
  | _, S754_infinity sy => Some (if sy then Gt else Lt)
  | _, _ => Some (Qcompare (to_Q x) (to_Q y))
  end.

(** The exact value rounding produces, before the overflow test: for a
    positive rational, and for any rational. *)
Definition round_pos (q : Q) : Q :=
  inject_Z (rne (q / pow2 (qexp q))) * pow2 (qexp q).

Definition round_Q (q : Q) : Q :=
  match Qcompare q 0 with
  | Eq => 0
  | Lt => - round_pos (- q)
  | Gt => round_pos q
  end.

Definition ltb (x y : float) : bool :=
  match compare x y with Some Lt => true | _ => false end.
Definition leb (x y : float) : bool :=
  match compare x y with Some Lt | Some Eq => true | _ => false end.
Definition eqb (x y : float) : bool :=
  match compare x y with Some Eq => true | _ => false end.

(** [x <= y] and [x < y] as propositions. *)
Definition le (x y : float) : Prop := leb x y = true.
Definition lt (x y : float) : Prop := ltb x y = true.

End F64.

(** ** Python values, exceptions and arithmetic *)

Inductive exn : Type :=
| KeyError (key : string)
| BadRequestKeyError (key : string)
| ValueError (msg : string)
| OverflowError (msg : string)
| ZeroDivisionError (msg : string).

(** [str(e)] *)
Definition str_exn (e : exn) : string :=
  match e with
  | KeyError key => "'" ++ key ++ "'"
  | BadRequestKeyError _ =>
      "400 Bad Request: The browser (or proxy) sent a request that this server could not understand."
  | ValueError msg | OverflowError msg | ZeroDivisionError msg => msg
  end.

Inductive result (A : Type) : Type :=
| Ok (a : A)
| Raise (e : exn).
Arguments Ok {A} a.
Arguments Raise {A} e.

Definition bind {A B : Type} (r : result A) (k : A -> result B) : result B :=
  match r with
  | Ok a => k a
  | Raise e => Raise e
  end.

Declare Scope py_scope.
Delimit Scope py_scope with py.
Notation "x <- r ;; k" := (bind r (fun x => k))
  (at level 61, r at next level, right associativity) : py_scope.
Local Open Scope py_scope.

(** A Python number is an [int] or a [float]. *)
Inductive num : Type :=
| PInt (n : Z)
| PFloat (x : F64.float).

(** The values a form field or a feature can hold. *)
Inductive value : Type :=
| VNum (a : num)
| VStr (s : string).

(** The power function [pow] of the C library, which CPython calls for
    [x ** y] on floats.  It is accurate to less than one unit in the last
    place but not correctly rounded: on an argument whose power is not a
    float it returns one of the two floats next to the exact power, and
    which of the two depends on the library.  That choice is the parameter
    of the model: [pow_rounds_up x] tells whether [pow(x, 2.0)] is the float
    above the exact square. *)
Class Libm := pow_rounds_up : F64.float -> bool.

Module Py.

(** [float(n)] for an [int]: correctly rounded, and an error when the
    rounded value is not finite. *)
Definition int_to_float (n : Z) : result F64.float :=
  let x := F64.of_Z n in
  if F64.is_finite x then Ok x
  else Raise (OverflowError "int too large to convert to float").

Definition to_float (a : num) : result F64.float :=
  match a with
  | PInt n => int_to_float n
  | PFloat x => Ok x
  end.

(** [a + b] *)
Definition add (a b : num) : result num :=
  match a, b with
  | PInt m, PInt n => Ok (PInt (m + n))
  | _, _ => x <- to_float a ;; y <- to_float b ;; Ok (PFloat (F64.add x y))
  end.

(** [a * b] *)
Definition mul (a b : num) : result num :=
  match a, b with
  | PInt m, PInt n => Ok (PInt (m * n))
  | _, _ => x <- to_float a ;; y <- to_float b ;; Ok (PFloat (F64.mul x y))
  end.

(** [a / b]: true division.  Two ints give the correctly rounded quotient. *)
Definition truediv (a b : num) : result num :=
  match a, b with
  | PInt m, PInt n =>
      if n =? 0 then Raise (ZeroDivisionError "division by zero")
      else
        let x := F64.of_Q (xorb (m <? 0) (n <? 0)) (inject_Z m / inject_Z n) in
        if F64.is_finite x then Ok (PFloat x)
        else Raise (OverflowError "integer division result too large for a float")
  | _, _ =>
      x <- to_float a ;; y <- to_float b ;;
      match y with
      | S754_zero _ => Raise (ZeroDivisionError "float division by zero")
      | _ => Ok (PFloat (F64.div x y))
      end
  end.

(** [pow(x, 2.0)] of the C library, for a finite positive [x]. *)
Definition libm_pow2 {L : Libm} (x : F64.float) : F64.float :=
  F64.faithful (pow_rounds_up x) (F64.to_Q x * F64.to_Q x).

(** [float_pow] of CPython at the exponent 2.0, on a base for which it
    raises nothing: NaN, the infinities, the zeros and a base of magnitude
    1.0 are answered without [pow]; any other base is replaced by its
    magnitude, the exponent being even, and passed on to [pow]. *)
Definition float_pow2 {L : Libm} (x : F64.float) : F64.float :=
  match x with
  | S754_nan => S754_nan
  | S754_infinity _ => S754_infinity false
  | S754_zero _ => S754_zero false
  | S754_finite _ _ _ =>
      if F64.eqb (F64.abs x) (F64.of_Z 1) then F64.of_Z 1
      else libm_pow2 (F64.abs x)
  end.

(** [a ** 2].  On a finite float whose square overflows [pow] sets [ERANGE]
    and [float_pow] raises. *)
Definition pow2 {L : Libm} (a : num) : result num :=
  match a with
  | PInt m => Ok (PInt (m * m))
  | PFloat x =>
      let r := float_pow2 x in
      if F64.is_finite x && negb (F64.is_finite r)
      then Raise (OverflowError "(34, 'Numerical result out of range')")
      else Ok (PFloat r)
  end.

(** Comparison of two numbers is exact, also between an int and a float. *)
Definition compare (a b : num) : option comparison :=
  match a, b with
  | PInt m, PInt n => Some (Z.compare m n)
  | PFloat x, PFloat y => F64.compare x y
  | PInt m, PFloat y =>
      match y with
      | S754_nan => None
      | S754_infinity s => Some (if s then Gt else Lt)
      | _ => Some (Qcompare (inject_Z m) (F64.to_Q y))
      end
  | PFloat x, PInt n =>
      match x with
      | S754_nan => None
      | S754_infinity s => Some (if s then Lt else Gt)
      | _ => Some (Qcompare (F64.to_Q x) (inject_Z n))
      end
  end.

(** [a >= b], [a > b], [a == b] *)
Definition ge (a b : num) : bool :=
  match compare a b with Some Gt | Some Eq => true | _ => false end.
Definition gt (a b : num) : bool :=
  match compare a b with Some Gt => true | _ => false end.
Definition eq (a b : num) : bool :=
  match compare a b with Some Eq => true | _ => false end.

Definition is_nan (a : num) : bool :=
  match a with
  | PInt _ => false
  | PFloat x => F64.is_nan x
  end.

(** [max(a, b)]: the second argument only when it is greater than the first. *)
Definition max (a b : num) : num := if gt b a then b else a.

(** [v == n] for an int literal [n], and [v == s] for a string literal. *)
Definition eq_int (v : value) (n : Z) : bool :=
  match v with
  | VNum a => eq a (PInt n)
  | VStr _ => false
  end.
Definition eq_str (v : value) (s : string) : bool :=
  match v with
  | VNum _ => false
  | VStr t => String.eqb t s
  end.

(** [round(a, ndigits)] for [0 <= ndigits]: an int is returned as it is, a
    float is rounded to the nearest multiple of [10^-ndigits] (ties to even,
    on the exact value) and converted back. *)
Definition round (a : num) (ndigits : Z) : result num :=
  match a with
  | PInt n => Ok (PInt n)
  | PFloat x =>
      if F64.is_finite x then
        let s := (10 ^ ndigits)%Z in
        let r := F64.of_Q (F64.sign x)
                   (inject_Z (F64.rne (F64.to_Q x * inject_Z s)) / inject_Z s) in
        if F64.is_finite r then Ok (PFloat r)
        else Raise (OverflowError "rounded value too large to represent")
      else Ok (PFloat x)
  end.

(** *** Fixed-point formatting: the format specs [.Nf] and [,.Nf] *)

Definition digits (n : Z) : string :=
  DecimalString.NilZero.string_of_uint (N.to_uint (Z.to_N n)).

Fixpoint zeros (k : nat) : string :=
  match k with
  | O => ""
  | S k => String "0" (zeros k)
  end.

Definition pad_left (width : nat) (s : string) : string :=
  zeros (width - String.length s) ++ s.

Fixpoint rev_string (s acc : string) : string :=
  match s with
  | EmptyString => acc
  | String c s => rev_string s (String c acc)
  end.

(** Commas between groups of three characters, counted from the left of a
    reversed digit string. *)
Fixpoint group_rev (s : string) (k : nat) : string :=
  match s with
  | EmptyString => ""
  | String c s' =>
      match k with
      | O => String "," (String c (group_rev s' 2))
      | S k' => String c (group_rev s' k')
      end
  end.

Definition group_thousands (s : string) : string :=
  rev_string (group_rev (rev_string s "") 3) "".

Definition format_finite (grouped : bool) (ndigits : nat) (neg : bool) (q : Q)
  : string :=
  let s := (10 ^ Z.of_nat ndigits)%Z in
  let n := F64.rne (Qabs q * inject_Z s) in
  let ipart := digits (n / s) in
  let ipart := if grouped then group_thousands ipart else ipart in
  let fpart :=
    match ndigits with
    | O => ""
    | _ => "." ++ pad_left ndigits (digits (n mod s))
    end in
  (if neg then "-" else "") ++ ipart ++ fpart.

Definition format_float (grouped : bool) (ndigits : nat) (x : F64.float)
  : string :=
  match x with
  | S754_nan => "nan"
  | S754_infinity s => if s then "-inf" else "inf"
  | _ => format_finite grouped ndigits (F64.sign x) (F64.to_Q x)
  end.

(** [format(a, '.Nf')] and [format(a, ',.Nf')]; an int is converted to a
    float first. *)
Definition format_f (grouped : bool) (ndigits : nat) (a : num) : result string :=
  x <- to_float a ;; Ok (format_float grouped ndigits x).

(** [d[key]] on a dict kept as an association list. *)
Fixpoint getitem {A : Type} (d : list (string * A)) (key : string) : result A :=
  match d with
  | [] => Raise (KeyError key)
  | (k, v) :: d' => if String.eqb k key then Ok v else getitem d' key
  end.

End Py.

(** ** [format_indian_currency] *)

Definition rupee : string := "₹".

Definition format_indian_currency (amount : num) : result string :=
  if Py.ge amount (PInt 10000000) then
    crores <- Py.truediv amount (PInt 10000000) ;;
    if Py.ge crores (PInt 100) then
      s <- Py.format_f false 0 crores ;; Ok (rupee ++ s ++ " Cr")
    else
      s <- Py.format_f false 1 crores ;; Ok (rupee ++ s ++ " Cr")
  else if Py.ge amount (PInt 100000) then
    lakhs <- Py.truediv amount (PInt 100000) ;;
    if Py.ge lakhs (PInt 100) then
      s <- Py.format_f false 0 lakhs ;; Ok (rupee ++ s ++ " L")
    else
      s <- Py.format_f false 1 lakhs ;; Ok (rupee ++ s ++ " L")
  else
    s <- Py.format_f true 0 amount ;; Ok (rupee ++ s).

(** ** [HousingPricePredictor] *)

Record HousingPricePredictor : Type := {
  coefficients : list (string * num);
  feature_columns : list string
}.

(** A float literal of the source: the decimal numeral, correctly rounded. *)
Definition lit (q : Q) : num := PFloat (F64.of_Q false q).

(** [HousingPricePredictor.__init__] *)
Definition init : HousingPricePredictor := {|
  coefficients := [
    ("intercept", PInt 3000000);
    ("size", PInt 2500);
    ("beds", PInt 800000);
    ("baths", PInt 400000);
    ("average_rent", PInt 15);
    ("growth_rate", PInt 8000000);
    ("size_squared", lit (5 # 10));
    ("nearby_rent_squared", lit (- 1 # 1000));
    ("tier_beds", PInt (-200000));
    ("tier_growth", PInt 5000000);
    ("tier_2", PInt (-800000));
    ("property_type_house", PInt (-500000));
    ("property_type_other", PInt (-1000000));
    ("rera_id_1", PInt 300000);
    ("furnishing_4", PInt 500000);
    ("furnishing_other", PInt 800000);
    ("move_in_1", PInt 200000)
  ];
  feature_columns := [
    "size"; "bedrooms"; "bathrooms"; "avg_local_rent";
    "growth_rate"; "city_tier"; "property_type"; "furnishing";
    "rera_registered"; "move_in_ready"
  ]
|}.

(** The feature record [predict] builds: floats for the real-valued fields,
    ints for the counts and flags, a string for the property type; the
    furnishing field is compared with an int and with a string, so it is a
    [value]. *)
Record features : Type := {
  size : F64.float;
  bedrooms : Z;
  bathrooms : Z;
  avg_local_rent : F64.float;
  growth_rate : F64.float;
  city_tier : Z;
  property_type : string;
  furnishing : value;
  rera_registered : Z;
  move_in_ready : Z
}.

Section Predictor.

Context {L : Libm}.
Variable self : HousingPricePredictor.

Definition coef (name : string) : result num :=
  Py.getitem (coefficients self) name.

(** [price += coefficients[name] * x] *)
Definition add_term (price : num) (name : string) (x : num) : result num :=
  c <- coef name ;; t <- Py.mul c x ;; Py.add price t.

(** [price += coefficients[name] * x / 1000] *)
Definition add_term_per_1000 (price : num) (name : string) (x : num)
  : result num :=
  c <- coef name ;; t <- Py.mul c x ;; t <- Py.truediv t (PInt 1000) ;;
  Py.add price t.

(** [price += coefficients[name]] *)
Definition add_coef (price : num) (name : string) : result num :=
  c <- coef name ;; Py.add price c.

(** Lines 62 to 77: intercept, linear, polynomial and interaction terms. *)
Definition numeric_terms (f : features) : result num :=
  price <- coef "intercept" ;;
  price <- add_term price "size" (PFloat (size f)) ;;
  price <- add_term price "beds" (PInt (bedrooms f)) ;;
  price <- add_term price "baths" (PInt (bathrooms f)) ;;
  price <- add_term price "average_rent" (PFloat (avg_local_rent f)) ;;
  price <- add_term price "growth_rate" (PFloat (growth_rate f)) ;;
  sq <- Py.pow2 (PFloat (size f)) ;;
  price <- add_term_per_1000 price "size_squared" sq ;;
  sq <- Py.pow2 (PFloat (avg_local_rent f)) ;;
  price <- add_term_per_1000 price "nearby_rent_squared" sq ;;
  price <- add_term price "tier_beds" (PInt (city_tier f * bedrooms f)) ;;
  tg <- Py.mul (PInt (city_tier f)) (PFloat (growth_rate f)) ;;
  add_term price "tier_growth" tg.

(** Lines 80 and 81. *)
Definition tier_2_term (f : features) (price : num) : result num :=
  if city_tier f =? 2 then add_coef price "tier_2" else Ok price.

(** Lines 83 to 97. *)
Definition other_categorical_terms (f : features) (price : num) : result num :=
  price <-
    (if String.eqb (property_type f) "house" then
       add_coef price "property_type_house"
     else if String.eqb (property_type f) "other" then
       add_coef price "property_type_other"
     else Ok price) ;;
  price <-
    (if rera_registered f =? 1 then add_coef price "rera_id_1" else Ok price) ;;
  price <-
    (if Py.eq_int (furnishing f) 4 then add_coef price "furnishing_4"
     else if Py.eq_str (furnishing f) "other" then
       add_coef price "furnishing_other"
     else Ok price) ;;
  if move_in_ready f =? 1 then add_coef price "move_in_1" else Ok price.

(** Lines 62 to 97: the price accumulated before the tier multiplier. *)
Definition accumulated_price (f : features) : result num :=
  price <- numeric_terms f ;;
  price <- tier_2_term f price ;;
  other_categorical_terms f price.

(** Lines 100 to 103. *)
Definition tier_multiplier (f : features) (price : num) : result num :=
  if city_tier f =? 1 then Py.mul price (lit (12 # 10))
  else if city_tier f =? 3 then Py.mul price (lit (6 # 10))
  else Ok price.

(** The price before the clamp of line 105. *)
Definition pre_clamp_price (f : features) : result num :=
  price <- accumulated_price f ;; tier_multiplier f price.

Definition calculate_ols_price (f : features) : result num :=
  price <- pre_clamp_price f ;; Ok (Py.max price (PInt 1000000)).

Definition predict_price (f : features) : result num :=
  calculate_ols_price f.

End Predictor.

(** The module-level [predictor]. *)
Definition predictor : HousingPricePredictor := init.

(** ** The request handlers *)

(** The process-wide state the handlers can reach. *)
Record app_state : Type := { the_predictor : HousingPricePredictor }.

Definition initial_state : app_state := {| the_predictor := predictor |}.

Definition form : Type := list (string * string).

(** [request.form[key]] *)
Fixpoint form_getitem (fm : form) (key : string) : result string :=
  match fm with
  | [] => Raise (BadRequestKeyError key)
  | (k, v) :: fm' => if String.eqb k key then Ok v else form_getitem fm' key
  end.

Inductive predict_response : Type :=
| PredictSuccess (predicted_price : num)
    (formatted_price price_in_lakhs : string)
| PredictFailure (error : string).

Record model_info : Type := {
  model_type : string;
  r_squared : string;
  info_coefficients : list (string * num);
  info_features : list string;
  price_range : string;
  currency_format : string
}.

Inductive retrain_response : Type :=
| RetrainSuccess (message : string) (info : model_info)
| RetrainFailure (error : string).

Section Handlers.

(** The builtins [float(s)] and [int(s)] on a form string. *)
Context {L : Libm}.
Variable py_float : string -> result F64.float.
Variable py_int : string -> result Z.

(** The dict literal of lines 122 to 133, evaluated field by field. *)
Definition read_features (fm : form) : result features :=
  size <- (s <- form_getitem fm "size" ;; py_float s) ;;
  bedrooms <- (s <- form_getitem fm "bedrooms" ;; py_int s) ;;
  bathrooms <- (s <- form_getitem fm "bathrooms" ;; py_int s) ;;
  avg_local_rent <- (s <- form_getitem fm "avg_local_rent" ;; py_float s) ;;
  growth_rate <- (s <- form_getitem fm "growth_rate" ;; py_float s) ;;
  city_tier <- (s <- form_getitem fm "city_tier" ;; py_int s) ;;
  property_type <- form_getitem fm "property_type" ;;
  furnishing <- form_getitem fm "furnishing" ;;
  rera_registered <- (s <- form_getitem fm "rera_registered" ;; py_int s) ;;
  move_in_ready <- (s <- form_getitem fm "move_in_ready" ;; py_int s) ;;
  Ok {| size := size; bedrooms := bedrooms; bathrooms := bathrooms;
        avg_local_rent := avg_local_rent; growth_rate := growth_rate;
        city_tier := city_tier; property_type := property_type;
        furnishing := VStr furnishing; rera_registered := rera_registered;
        move_in_ready := move_in_ready |}.

(** [f"₹{predicted_price/100000:.1f} Lakhs"] *)
Definition price_in_lakhs_string (predicted_price : num) : result string :=
  q <- Py.truediv predicted_price (PInt 100000) ;;
  s <- Py.format_f false 1 q ;;
  Ok (rupee ++ s ++ " Lakhs").

(** The [try] block of [predict]. *)
Definition predict_try (st : app_state) (fm : form) : result predict_response :=
  f <- read_features fm ;;
  predicted_price <- predict_price (the_predictor st) f ;;
  rounded <- Py.round predicted_price 2 ;;
  formatted <- format_indian_currency predicted_price ;;
  lakhs <- price_in_lakhs_string predicted_price ;;
  Ok (PredictSuccess rounded formatted lakhs).

Definition predict (st : app_state) (fm : form) : predict_response * app_state :=
  match predict_try st fm with
  | Ok r => (r, st)
  | Raise e => (PredictFailure (str_exn e), st)
  end.

Definition retrain_model (st : app_state) : retrain_response * app_state :=
  let equation_info := {|
    model_type := "Adjusted OLS Regression for Indian Real Estate";
    r_squared := "92%";
    info_coefficients := coefficients (the_predictor st);
    info_features := feature_columns (the_predictor st);
    price_range := "Realistic Indian housing prices (10L - 5Cr range)";
    currency_format := "Indian Lakhs/Crores format"
  |} in
  (RetrainSuccess
     "Using adjusted OLS regression for realistic Indian housing prices!"
     equation_info, st).

(** The requests that reach the two handlers, and the states the process can
    be in after any number of them. *)
Inductive request : Type :=
| PredictRequest (fm : form)
| RetrainRequest.

Definition handle (st : app_state) (rq : request) : app_state :=
  match rq with
  | PredictRequest fm => snd (predict st fm)
  | RetrainRequest => snd (retrain_model st)
  end.

Definition run (rqs : list request) : app_state :=
  fold_left handle rqs initial_state.

End Handlers.

(** *** Plain decimal numerals

    [float(s)] and [int(s)] on the numerals a form normally carries: an
    optional sign, digits and, for a float, an optional fraction.  On these
    the two functions below are the builtins.  They answer [ValueError] on
    every other string, which the builtins do not: Python also accepts
    exponents, surrounding blanks, underscores, [inf] and [nan].  The
    theorems take the builtins as parameters; these two instances are used
    in examples only, on plain numerals. *)

Definition split_sign (s : string) : bool * string :=
  match s with
  | String "-" s' => (true, s')
  | String "+" s' => (false, s')
  | _ => (false, s)
  end.

Definition parse_digits (s : string) : option Z :=
  match DecimalString.NilEmpty.uint_of_string s with
  | Some d => Some (Z.of_N (N.of_uint d))
  | None => None
  end.

Definition plain_int (s : string) : result Z :=
  let (neg, body) := split_sign s in
  match body, parse_digits body with
  | String _ _, Some n => Ok (if neg then - n else n)
  | _, _ =>
      Raise (ValueError ("invalid literal for int() with base 10: '" ++ s ++ "'"))
  end.

Fixpoint split_dot (s : string) : string * option string :=
  match s with
  | EmptyString => ("", None)
  | String "." s' => ("", Some s')
  | String c s' => let (i, f) := split_dot s' in (String c i, f)
  end.

Definition plain_float (s : string) : result F64.float :=
  let bad := Raise (ValueError ("could not convert string to float: '" ++ s ++ "'")) in
  let (neg, body) := split_sign s in
  let (ip, fp) := split_dot body in
  let fp := match fp with Some t => t | None => "" end in
  match ip ++ fp, parse_digits ip, parse_digits fp with
  | String _ _, Some i, Some f =>
      let q := (inject_Z i + inject_Z f / inject_Z (10 ^ Z.of_nat (String.length fp)))%Q in
      Ok (F64.of_Q neg (if neg then - q else q)%Q)
  | _, _, _ => bad
  end.

(** ** The three renderings of the formatter and sample inputs *)

(** The crore rendering: [amount / 10000000] with no decimals from 100
    crores on and one decimal below, suffix [" Cr"]. *)
Definition crore_rendering (amount : num) : result string :=
  crores <- Py.truediv amount (PInt 10000000) ;;
  s <- Py.format_f false (if Py.ge crores (PInt 100) then 0 else 1) crores ;;
  Ok (rupee ++ s ++ " Cr").

(** The lakh rendering: [amount / 100000], same rule, suffix [" L"]. *)
Definition lakh_rendering (amount : num) : result string :=
  lakhs <- Py.truediv amount (PInt 100000) ;;
  s <- Py.format_f false (if Py.ge lakhs (PInt 100) then 0 else 1) lakhs ;;
  Ok (rupee ++ s ++ " L").

(** The plain rendering: the grouped integer, no suffix. *)
Definition grouped_rendering (amount : num) : result string :=
  s <- Py.format_f true 0 amount ;; Ok (rupee ++ s).

(** The end-to-end scenario of the specification, as a form. *)
Definition sample_form : form := [
  ("size", "1000"); ("bedrooms", "2"); ("bathrooms", "2");
  ("avg_local_rent", "20000"); ("growth_rate", "5"); ("city_tier", "1");
  ("property_type", "apartment"); ("furnishing", "2");
  ("rera_registered", "1"); ("move_in_ready", "1")
].

(** [fm] with field [key] set to [v]. *)
Definition with_field (key v : string) (fm : form) : form := (key, v) :: fm.


(** The same scenario as a feature record. *)
Definition sample_features : features := {|
  size := F64.of_Z 1000; bedrooms := 2; bathrooms := 2;
  avg_local_rent := F64.of_Z 20000; growth_rate := F64.of_Z 5;
  city_tier := 1; property_type := "apartment"; furnishing := VStr "2";
  rera_registered := 1; move_in_ready := 1
|}.

Definition with_furnishing (v : value) (f : features) : features :=
  {| size := size f; bedrooms := bedrooms f; bathrooms := bathrooms f;
     avg_local_rent := avg_local_rent f; growth_rate := growth_rate f;
     city_tier := city_tier f; property_type := property_type f;
     furnishing := v; rera_registered := rera_registered f;
     move_in_ready := move_in_ready f |}.

Definition with_size (x : F64.float) (f : features) : features :=
  {| size := x; bedrooms := bedrooms f; bathrooms := bathrooms f;
     avg_local_rent := avg_local_rent f; growth_rate := growth_rate f;
     city_tier := city_tier f; property_type := property_type f;
     furnishing := furnishing f; rera_registered := rera_registered f;
     move_in_ready := move_in_ready f |}.

Definition with_bedrooms (n : Z) (f : features) : features :=
  {| size := size f; bedrooms := n; bathrooms := bathrooms f;
     avg_local_rent := avg_local_rent f; growth_rate := growth_rate f;
     city_tier := city_tier f; property_type := property_type f;
     furnishing := furnishing f; rera_registered := rera_registered f;
     move_in_ready := move_in_ready f |}.

Definition with_city_tier (n : Z) (f : features) : features :=
  {| size := size f; bedrooms := bedrooms f; bathrooms := bathrooms f;
     avg_local_rent := avg_local_rent f; growth_rate := growth_rate f;
     city_tier := n; property_type := property_type f;
     furnishing := furnishing f; rera_registered := rera_registered f;
     move_in_ready := move_in_ready f |}.

(** A record within the types of the data model on which the bedroom and
    bathroom terms overflow to [+inf] and the growth term to [-inf]. *)
Definition overflowing_features : features := {|
  size := F64.of_Z 1; bedrooms := 2 * 10 ^ 302; bathrooms := 4 * 10 ^ 302;
  avg_local_rent := F64.of_Z 0;
  growth_rate := F64.of_Q false (- inject_Z (10 ^ 305));
  city_tier := 1; property_type := "apartment"; furnishing := VStr "2";
  rera_registered := 0; move_in_ready := 0
|}.

(** ** The price as a left-to-right sum of float terms

    On the module-level [predictor], whenever no exception is raised, the
    accumulated price is the intercept (as a float) plus the terms below,
    added one by one in this order. *)

Definition f_half : F64.float := F64.of_Q false (5 # 10).
Definition f_minus_milli : F64.float := F64.of_Q false (- 1 # 1000).
Definition f_1_2 : F64.float := F64.of_Q false (12 # 10).
Definition f_0_6 : F64.float := F64.of_Q false (6 # 10).

Section FloatTerms.

Context {L : Libm}.

(** The float [x ** 2] evaluates to when it raises nothing. *)
Definition square (x : F64.float) : F64.float := Py.float_pow2 x.

Definition numeric_float_terms (f : features) : list F64.float := [
  F64.mul (F64.of_Z 2500) (size f);
  F64.of_Z (800000 * bedrooms f);
  F64.of_Z (400000 * bathrooms f);
  F64.mul (F64.of_Z 15) (avg_local_rent f);
  F64.mul (F64.of_Z 8000000) (growth_rate f);
  F64.div (F64.mul f_half (square (size f))) (F64.of_Z 1000);
  F64.div (F64.mul f_minus_milli (square (avg_local_rent f))) (F64.of_Z 1000);
  F64.of_Z (-200000 * (city_tier f * bedrooms f));
  F64.mul (F64.of_Z 5000000) (F64.mul (F64.of_Z (city_tier f)) (growth_rate f))
].

Definition categorical_float_terms (f : features) : list F64.float :=
  ((if city_tier f =? 2 then [F64.of_Z (-800000)] else []) ++
   (if String.eqb (property_type f) "house" then [F64.of_Z (-500000)]
    else if String.eqb (property_type f) "other" then [F64.of_Z (-1000000)]
    else []) ++
   (if rera_registered f =? 1 then [F64.of_Z 300000] else []) ++
   (if Py.eq_int (furnishing f) 4 then [F64.of_Z 500000]
    else if Py.eq_str (furnishing f) "other" then [F64.of_Z 800000]
    else []) ++
   (if move_in_ready f =? 1 then [F64.of_Z 200000] else []))%list.

Definition float_terms (f : features) : list F64.float :=
  (numeric_float_terms f ++ categorical_float_terms f)%list.

Definition float_accumulated (f : features) : F64.float :=
  fold_left F64.add (float_terms f) (F64.of_Z 3000000).

Definition float_pre_clamp (f : features) : F64.float :=
  if city_tier f =? 1 then F64.mul (float_accumulated f) f_1_2
  else if city_tier f =? 3 then F64.mul (float_accumulated f) f_0_6
  else float_accumulated f.

(** The square of a finite float overflows. *)
Definition square_overflows (x : F64.float) : bool :=
  F64.is_finite x && negb (F64.is_finite (square x)).

(** The conditions under which [calculate_ols_price] raises no exception:
    the ints it converts fit a float and no square overflows. *)
Definition no_exception (f : features) : bool :=
  F64.is_finite (F64.of_Z (800000 * bedrooms f)) &&
  F64.is_finite (F64.of_Z (400000 * bathrooms f)) &&
  negb (square_overflows (size f)) &&
  negb (square_overflows (avg_local_rent f)) &&
  F64.is_finite (F64.of_Z (-200000 * (city_tier f * bedrooms f))) &&
  F64.is_finite (F64.of_Z (city_tier f)).

End FloatTerms.

(** Two libraries: one whose [pow] always returns the float below an
    inexact power, one whose [pow] always returns the float above. *)
Definition pow_below : Libm := fun _ => false.
Definition pow_above : Libm := fun _ => true.

(** The float just above 1000.0. *)
Definition size_above_1000 : F64.float :=
  S754_finite false 8796093022208001 (-43).

(** The exact sum of the values of a list of floats. *)
Definition term_sum (ts : list F64.float) : Q :=
  fold_right (fun t a => (F64.to_Q t + a)%Q) 0%Q ts.

(** The number of terms, as a rational. *)
Definition term_count (ts : list F64.float) : Q :=
  inject_Z (Z.of_nat (List.length ts)).

(** Inputs of ordinary magnitude: at most a million square feet, a thousand
    bedrooms and bathrooms, a local rent of ten million, a growth rate and a
    tier of a thousand. *)
Definition within_bounds (f : features) : Prop :=
  F64.le (S754_zero false) (size f) /\
  F64.le (size f) (F64.of_Z 1000000) /\
  0 <= bedrooms f <= 1000 /\
  0 <= bathrooms f <= 1000 /\
  F64.le (S754_zero false) (avg_local_rent f) /\
  F64.le (avg_local_rent f) (F64.of_Z 10000000) /\
  F64.le (F64.of_Z (-1000)) (growth_rate f) /\
  F64.le (growth_rate f) (F64.of_Z 1000) /\
  0 <= city_tier f <= 1000.

(** A finite float of magnitude at most [m]. *)
Definition bounded_by (m : Q) (t : F64.float) : Prop :=
  F64.is_finite t = true /\ (- m <= F64.to_Q t /\ F64.to_Q t <= m)%Q.

(** The form of the scenario with the furnishing field set to ["4"], the
    value the form sends for a fully furnished property. *)
Definition furnished_form : form := with_field "furnishing" "4" sample_form.


Section BadFields.

Variable py_float : string -> result F64.float.
Variable py_int : string -> result Z.



End BadFields.

(** The grouped integer rendering of a finite float: its sign, then the
    digits of its magnitude rounded to an integer (ties to even), with a
    comma between groups of three. *)
Definition grouped_integer (x : F64.float) : string :=
  (if F64.sign x then "-" else "") ++
  Py.group_thousands (Py.digits (F64.rne (Qabs (F64.to_Q x)))).

(** ** Sample operands for comparing the operations above with the
    bit-level ones of the standard library *)

Definition same_float (x y : F64.float) : bool :=
  match x, y with
  | S754_zero s, S754_zero t | S754_infinity s, S754_infinity t => Bool.eqb s t
  | S754_nan, S754_nan => true
  | S754_finite s m e, S754_finite t n k =>
      Bool.eqb s t && Pos.eqb m n && Z.eqb e k
  | _, _ => false
  end.

Definition sample_floats : list F64.float :=
  let q := F64.of_Q false in
  [ S754_zero false; S754_zero true; S754_infinity false; S754_infinity true;
    S754_nan;
    q 1%Q; q (-1)%Q; q (1 # 10)%Q; q (1 # 3)%Q; q (- 2 # 3)%Q;
    q (12 # 10)%Q; q (6 # 10)%Q; q (- 1 # 1000)%Q;
    q (inject_Z 87960120); q (inject_Z 9999999); q (inject_Z (10 ^ 22 + 1));
    q (- inject_Z (10 ^ 305))%Q; q (inject_Z (16 * 10 ^ 307));
    S754_finite false 9007199254740991 971;
    S754_finite true 9007199254740991 971;
    S754_finite false 1 (-1074); S754_finite true 3 (-1074);
    S754_finite false 4503599627370496 (-1074);
    S754_finite false 4503599627370497 (-600);
    S754_finite false 6004799503160661 (-500) ].

Definition agree_on_samples
  (f g : F64.float -> F64.float -> F64.float) : bool :=
  forallb (fun x => forallb (fun y => same_float (f x y) (g x y)) sample_floats)
    sample_floats.

Definition compare_agrees : bool :=
  forallb
    (fun x =>
       forallb
         (fun y =>
            match F64.compare x y, SFcompare x y with
            | Some a, Some b =>
                match a, b with
                | Eq, Eq | Lt, Lt | Gt, Gt => true
                | _, _ => false
                end
            | None, None => true
            | _, _ => false
            end) sample_floats) sample_floats.

(** ** Further records and the exact price *)

Definition with_bathrooms (n : Z) (f : features) : features :=
  {| size := size f; bedrooms := bedrooms f; bathrooms := n;
     avg_local_rent := avg_local_rent f; growth_rate := growth_rate f;
     city_tier := city_tier f; property_type := property_type f;
     furnishing := furnishing f; rera_registered := rera_registered f;
     move_in_ready := move_in_ready f |}.

Definition with_growth_rate (x : F64.float) (f : features) : features :=
  {| size := size f; bedrooms := bedrooms f; bathrooms := bathrooms f;
     avg_local_rent := avg_local_rent f; growth_rate := x;
     city_tier := city_tier f; property_type := property_type f;
     furnishing := furnishing f; rera_registered := rera_registered f;
     move_in_ready := move_in_ready f |}.

(** The categorical adjustments of lines 80 to 97, as an exact integer. *)
Definition exact_categorical (f : features) : Z :=
  (if city_tier f =? 2 then -800000 else 0) +
  (if String.eqb (property_type f) "house" then -500000
   else if String.eqb (property_type f) "other" then -1000000 else 0) +
  (if rera_registered f =? 1 then 300000 else 0) +
  (if Py.eq_int (furnishing f) 4 then 500000
   else if Py.eq_str (furnishing f) "other" then 800000 else 0) +
  (if move_in_ready f =? 1 then 200000 else 0).

(** The formula of lines 62 to 97 in exact rational arithmetic, with the
    decimal weights 0.5 and -0.001 taken as written. *)
Definition exact_accumulated (f : features) : Q :=
  let s := F64.to_Q (size f) in
  let r := F64.to_Q (avg_local_rent f) in
  let g := F64.to_Q (growth_rate f) in
  (3000000
   + 2500 * s
   + inject_Z (800000 * bedrooms f)
   + inject_Z (400000 * bathrooms f)
   + 15 * r
   + 8000000 * g
   + (5 # 10) * (s * s) / 1000
   + (- 1 # 1000) * (r * r) / 1000
   + inject_Z (-200000 * (city_tier f * bedrooms f))
   + 5000000 * (inject_Z (city_tier f) * g)
   + inject_Z (exact_categorical f))%Q.

(** A form whose price before the clamp is below the floor. *)
Definition cheap_form : form :=
  with_field "growth_rate" "-1" sample_form.

(** A size whose square overflows. *)
Definition huge_size_features : features :=
  with_size (F64.of_Q false (inject_Z (10 ^ 200))) sample_features.

(** The multiplier of lines 100 to 103 and the floor of line 105 in exact
    arithmetic, with the decimal factors 1.2 and 0.6 taken as written. *)
Definition exact_multiplier (f : features) : Q :=
  if city_tier f =? 1 then (12 # 10)%Q
  else if city_tier f =? 3 then (6 # 10)%Q
  else 1%Q.

Definition exact_pre_clamp (f : features) : Q :=
  (exact_accumulated f * exact_multiplier f)%Q.

Definition exact_price (f : features) : Q :=
  match Qcompare 1000000%Q (exact_pre_clamp f) with
  | Gt => 1000000%Q
  | _ => exact_pre_clamp f
  end.

(** The value of a number that is not an infinity or NaN. *)
Definition num_value (a : num) : Q :=
  match a with
  | PInt n => inject_Z n
  | PFloat x => F64.to_Q x
  end.

Definition num_is_finite (a : num) : bool :=
  match a with
  | PInt _ => true
  | PFloat x => F64.is_finite x
  end.

(** A size beyond the ordinary magnitudes whose square is still a float. *)
Definition vast_size : F64.float := F64.of_Q false (inject_Z (2 ^ 500)).

(** A growth rate beyond the ordinary magnitudes on which the price is
    still finite. *)
Definition vast_growth : F64.float := F64.of_Q false (inject_Z (2 ^ 1000)).

(** * Properties *)

(** ** Agreement with the bit-level operations of the standard library

    On every pair of the sample operands (zeros, infinities, NaN, subnormal,
    ordinary and extreme values) the operations defined by exact rounding
    return the float [SFadd], [SFmul] and [SFdiv] return at precision 53 and
    maximal exponent 1024, the integer conversion returns what
    [binary_normalize] returns, and the comparisons agree. *)

Example add_agrees :
  agree_on_samples F64.add (SFadd 53 1024) = true.
Proof. vm_compute. reflexivity. Qed.

Example mul_agrees :
  agree_on_samples F64.mul (SFmul 53 1024) = true.
Proof. vm_compute. reflexivity. Qed.

Example div_agrees :
  agree_on_samples F64.div (SFdiv 53 1024) = true.
Proof. vm_compute. reflexivity. Qed.

Example compare_agrees_on_samples : compare_agrees = true.
Proof. vm_compute. reflexivity. Qed.

Example of_Z_agrees :
  forallb
    (fun n => same_float (F64.of_Z n) (binary_normalize 53 1024 n 0 false))
    [0; 1; -1; 3000000; 2 ^ 53 + 1; 2 ^ 53 + 3; - (10 ^ 22 + 1); 10 ^ 305;
     2 ^ 1024 - 2 ^ 970 - 1; 2 ^ 1024 - 2 ^ 970; - 2 ^ 1024] = true.
Proof. vm_compute. reflexivity. Qed.

(** ** Rounding to binary64 *)

Module F64Facts.
Import F64.
Local Open Scope Q_scope.

Lemma pow2_pos e : 0 < pow2 e.
Proof. unfold pow2. apply Qpower_0_lt. reflexivity. Qed.

Lemma pow2_add a b : pow2 (a + b) == pow2 a * pow2 b.
Proof. unfold pow2. apply Qpower_plus. discriminate. Qed.

Lemma pow2_sub a b : pow2 (a - b) == pow2 a / pow2 b.
Proof.
  assert (H := pow2_add (a - b) b). replace (a - b + b)%Z with a in H by ring.
  assert (Hb := pow2_pos b). rewrite H. field. lra.
Qed.

Lemma pow2_le a b : (a <= b)%Z -> pow2 a <= pow2 b.
Proof. intros H. unfold pow2. apply Qpower_le_compat_l; [exact H | discriminate]. Qed.

Lemma pow2_lt a b : (a < b)%Z -> pow2 a < pow2 b.
Proof. intros H. unfold pow2. apply Qpower_lt_compat_l; [exact H | reflexivity]. Qed.

Lemma pow2_lt_inv a b : pow2 a < pow2 b -> (a < b)%Z.
Proof. intros H. apply (Qpower_lt_compat_l_inv 2); [exact H | reflexivity]. Qed.

Lemma pow2_Z n : (0 <= n)%Z -> pow2 n == inject_Z (2 ^ n).
Proof. intros H. unfold pow2. rewrite Zpower_Qpower by exact H. reflexivity. Qed.

Lemma pow2_succ a : pow2 (a + 1) == 2 * pow2 a.
Proof. rewrite pow2_add. unfold pow2 at 2. simpl. lra. Qed.

(** *** Nearest integer *)

Lemma rne_floor q : rne q = Qfloor q \/ rne q = (Qfloor q + 1)%Z.
Proof.
  unfold rne. destruct (Qcompare _ _); [destruct (Z.even _) | |]; auto.
Qed.

Lemma rne_bounds q :
  inject_Z (rne q) - (1 # 2) <= q /\ q <= inject_Z (rne q) + (1 # 2).
Proof.
  assert (Hl := Qfloor_le q). assert (Hu := Qlt_floor q).
  rewrite inject_Z_plus in Hu. unfold rne.
  destruct (Qcompare_spec (q - inject_Z (Qfloor q)) (1 # 2)) as [E | E | E];
    [destruct (Z.even _) | |]; rewrite ?inject_Z_plus;
    change (inject_Z 1) with 1 in *; split; lra.
Qed.

Lemma rne_mono q1 q2 : q1 <= q2 -> (rne q1 <= rne q2)%Z.
Proof.
  intros H. assert (Hf := Qfloor_resp_le _ _ H).
  destruct (Z.eq_dec (Qfloor q1) (Qfloor q2)) as [E | E].
  - unfold rne. rewrite <- E.
    destruct (Qcompare_spec (q1 - inject_Z (Qfloor q1)) (1 # 2));
      destruct (Qcompare_spec (q2 - inject_Z (Qfloor q1)) (1 # 2));
      try destruct (Z.even _); try lia; lra.
  - destruct (rne_floor q1), (rne_floor q2); lia.
Qed.

Lemma rne_Qeq q1 q2 : q1 == q2 -> rne q1 = rne q2.
Proof.
  intros H. apply Z.le_antisymm; apply rne_mono; rewrite H; apply Qle_refl.
Qed.

Lemma rne_Z z : rne (inject_Z z) = z.
Proof.
  unfold rne. rewrite Qfloor_Z.
  destruct (Qcompare_spec (inject_Z z - inject_Z z) (1 # 2)); try lra.
  reflexivity.
Qed.

Lemma rne_nonneg q : 0 <= q -> (0 <= rne q)%Z.
Proof. intros H. rewrite <- (rne_Z 0). apply rne_mono. exact H. Qed.

(** *** The binade of a positive rational *)

Lemma ilog2_spec q : 0 < q -> pow2 (ilog2 q) <= q /\ q < pow2 (ilog2 q + 1).
Proof.
  intros Hq. destruct q as [n d].
  assert (Hn : (0 < n)%Z) by (unfold Qlt in Hq; simpl in Hq; lia).
  destruct (Z.log2_spec n Hn) as [Hn1 Hn2].
  destruct (Z.log2_spec (Zpos d) eq_refl) as [Hd1 Hd2].
  assert (Hln := Z.log2_nonneg n). assert (Hld := Z.log2_nonneg (Zpos d)).
  unfold ilog2. cbn [Qnum Qden].
  set (ln := Z.log2 n) in *. set (ld := Z.log2 (Zpos d)) in *.
  assert (Eq : n # d == inject_Z n / inject_Z (Zpos d)) by apply Qmake_Qdiv.
  assert (Hdq : 0 < inject_Z (Zpos d)) by (unfold Qlt; simpl; lia).
  assert (En : (n # d) * inject_Z (Zpos d) == inject_Z n)
    by (rewrite Eq; field; lra).
  rewrite Zle_Qle in Hn1, Hd1. rewrite Zlt_Qlt in Hn2, Hd2.
  rewrite <- pow2_Z in Hn1, Hn2, Hd1, Hd2 by lia.
  replace (Z.succ ln) with (ln + 1)%Z in Hn2 by lia.
  replace (Z.succ ld) with (ld + 1)%Z in Hd2 by lia.
  assert (Pn := pow2_pos ln). assert (Pd := pow2_pos ld).
  assert (Hlo : pow2 (ln - ld - 1) < n # d).
  { replace (ln - ld - 1)%Z with (ln - (ld + 1))%Z by ring.
    rewrite pow2_sub. assert (P := pow2_pos (ld + 1)).
    apply Qlt_shift_div_r; [exact P |].
    apply Qle_lt_trans with (inject_Z n); [exact Hn1 |].
    rewrite <- En. apply Qmult_lt_l; assumption. }
  assert (Hhi : n # d < pow2 (ln - ld + 1)).
  { replace (ln - ld + 1)%Z with (ln + 1 - ld)%Z by ring.
    rewrite pow2_sub. apply Qlt_shift_div_l; [exact Pd |].
    apply Qle_lt_trans with (inject_Z n); [| exact Hn2].
    rewrite <- En. apply Qmult_le_l; assumption. }
  destruct (Qle_bool (pow2 (ln - ld)) (n # d)) eqn:E.
  - apply Qle_bool_iff in E. split; assumption.
  - assert (E' : ~ pow2 (ln - ld) <= n # d)
      by (intros C; apply Qle_bool_iff in C; congruence).
    replace (ln - ld - 1 + 1)%Z with (ln - ld)%Z by ring.
    split; [apply Qlt_le_weak; exact Hlo | apply Qnot_le_lt; exact E'].
Qed.

Lemma binade_mono q1 q2 k1 k2 :
  pow2 k1 <= q1 -> q2 < pow2 (k2 + 1) -> q1 <= q2 -> (k1 <= k2)%Z.
Proof.
  intros H1 H2 H. assert (L : pow2 k1 < pow2 (k2 + 1)) by lra.
  apply pow2_lt_inv in L. lia.
Qed.

Lemma ilog2_mono q1 q2 : 0 < q1 -> q1 <= q2 -> (ilog2 q1 <= ilog2 q2)%Z.
Proof.
  intros H1 H. destruct (ilog2_spec q1 H1) as [A _].
  destruct (ilog2_spec q2) as [_ B]; [lra |].
  exact (binade_mono _ _ _ _ A B H).
Qed.

Lemma qexp_mono q1 q2 : 0 < q1 -> q1 <= q2 -> (qexp q1 <= qexp q2)%Z.
Proof. intros H1 H. unfold qexp. assert (L := ilog2_mono _ _ H1 H). lia. Qed.

Lemma qexp_upper q : 0 < q -> q < pow2 (qexp q + prec).
Proof.
  intros Hq. destruct (ilog2_spec q Hq) as [_ B].
  apply Qlt_le_trans with (1 := B). apply pow2_le. unfold qexp, prec. lia.
Qed.

Lemma qexp_lower q : 0 < q -> (emin < qexp q)%Z -> pow2 (qexp q + (prec - 1)) <= q.
Proof.
  intros Hq He. destruct (ilog2_spec q Hq) as [A _].
  apply Qle_trans with (2 := A). apply pow2_le. unfold qexp, prec in *. lia.
Qed.

End F64Facts.

(** ** The rounded value *)

Module RoundFacts.
Import F64 F64Facts.
Local Open Scope Q_scope.

Lemma ilog2_Qeq q1 q2 : 0 < q1 -> q1 == q2 -> ilog2 q1 = ilog2 q2.
Proof.
  intros H E. apply Z.le_antisymm; apply ilog2_mono; lra.
Qed.

Lemma qexp_Qeq q1 q2 : 0 < q1 -> q1 == q2 -> qexp q1 = qexp q2.
Proof. intros H E. unfold qexp. rewrite (ilog2_Qeq _ _ H E). reflexivity. Qed.

Lemma round_mag_Qeq q1 q2 : 0 < q1 -> q1 == q2 -> round_mag q1 = round_mag q2.
Proof.
  intros H E. unfold round_mag. rewrite (qexp_Qeq _ _ H E).
  f_equal. apply rne_Qeq. rewrite E. reflexivity.
Qed.

Lemma round_pos_Qeq q1 q2 : 0 < q1 -> q1 == q2 -> round_pos q1 == round_pos q2.
Proof.
  intros H E. unfold round_pos. rewrite (qexp_Qeq _ _ H E).
  rewrite (rne_Qeq (q1 / _) (q2 / pow2 (qexp q2))); [reflexivity |].
  rewrite E. reflexivity.
Qed.

(** The mantissa of a positive rational lies in [[0, 2^53]], and is at least
    [2^52] above the subnormal range. *)
Lemma mantissa_upper q : 0 < q -> (rne (q / pow2 (qexp q)) <= 2 ^ prec)%Z.
Proof.
  intros Hq. rewrite <- (rne_Z (2 ^ prec)). apply rne_mono.
  rewrite <- pow2_Z by (unfold prec; lia).
  assert (P := pow2_pos (qexp q)). apply Qlt_le_weak.
  apply Qlt_shift_div_r; [exact P |].
  rewrite <- pow2_add. rewrite Z.add_comm. apply qexp_upper. exact Hq.
Qed.

Lemma mantissa_lower q :
  0 < q -> (emin < qexp q)%Z -> (2 ^ (prec - 1) <= rne (q / pow2 (qexp q)))%Z.
Proof.
  intros Hq He. rewrite <- (rne_Z (2 ^ (prec - 1))) at 1. apply rne_mono.
  rewrite <- pow2_Z by (unfold prec; lia).
  assert (P := pow2_pos (qexp q)).
  apply Qle_shift_div_l; [exact P |].
  rewrite <- pow2_add. rewrite Z.add_comm. apply qexp_lower; assumption.
Qed.

Lemma mantissa_nonneg q : 0 < q -> (0 <= rne (q / pow2 (qexp q)))%Z.
Proof.
  intros Hq. apply rne_nonneg. assert (P := pow2_pos (qexp q)).
  apply Qle_shift_div_l; [exact P | lra].
Qed.

Lemma round_pos_nonneg q : 0 < q -> 0 <= round_pos q.
Proof.
  intros Hq. unfold round_pos. apply Qmult_le_0_compat.
  - change 0 with (inject_Z 0). rewrite <- Zle_Qle. apply mantissa_nonneg, Hq.
  - apply Qlt_le_weak, pow2_pos.
Qed.

Lemma round_pos_upper q : 0 < q -> round_pos q <= pow2 (qexp q + prec).
Proof.
  intros Hq. unfold round_pos. rewrite Z.add_comm, pow2_add.
  apply Qmult_le_compat_r; [| apply Qlt_le_weak, pow2_pos].
  rewrite (pow2_Z prec) by (unfold prec; lia). rewrite <- Zle_Qle.
  apply mantissa_upper, Hq.
Qed.

Lemma round_pos_lower q :
  0 < q -> (emin < qexp q)%Z -> pow2 (qexp q + (prec - 1)) <= round_pos q.
Proof.
  intros Hq He. unfold round_pos. rewrite Z.add_comm, pow2_add.
  apply Qmult_le_compat_r; [| apply Qlt_le_weak, pow2_pos].
  rewrite (pow2_Z (prec - 1)) by (unfold prec; lia). rewrite <- Zle_Qle.
  apply mantissa_lower; assumption.
Qed.

(** Rounding is monotone. *)
Lemma round_pos_mono q1 q2 : 0 < q1 -> q1 <= q2 -> round_pos q1 <= round_pos q2.
Proof.
  intros H1 H. assert (H2 : 0 < q2) by lra.
  assert (He := qexp_mono _ _ H1 H).
  destruct (Z.eq_dec (qexp q1) (qexp q2)) as [E | E].
  - unfold round_pos. rewrite E. assert (P := pow2_pos (qexp q2)).
    apply Qmult_le_compat_r; [| lra]. rewrite <- Zle_Qle. apply rne_mono.
    apply Qmult_le_compat_r; [exact H |]. apply Qlt_le_weak, Qinv_lt_0_compat, P.
  - apply Qle_trans with (pow2 (qexp q1 + prec)); [apply round_pos_upper, H1 |].
    apply Qle_trans with (pow2 (qexp q2 + (prec - 1)));
      [apply pow2_le; lia |].
    apply round_pos_lower; [exact H2 |]. unfold qexp in *. lia.
Qed.

(** The rounding error is at most half a unit in the last place. *)
Lemma round_pos_error q :
  0 < q -> Qabs (round_pos q - q) <= pow2 (qexp q) * (1 # 2).
Proof.
  intros Hq. unfold round_pos. assert (P := pow2_pos (qexp q)).
  destruct (rne_bounds (q / pow2 (qexp q))) as [A B].
  assert (E : q == q / pow2 (qexp q) * pow2 (qexp q)) by (field; lra).
  revert A B E. generalize (rne (q / pow2 (qexp q))) (q / pow2 (qexp q)).
  revert P. generalize (pow2 (qexp q)). intros p P m t A B E.
  apply Qabs_Qle_condition. split; nra.
Qed.

End RoundFacts.

(** ** What [of_Q] returns *)

Module OfQFacts.
Import F64 F64Facts RoundFacts.
Local Open Scope Q_scope.

Lemma build_round_mag s q :
  0 < q ->
  let x := build s (normalize (round_mag q)) in
  (round_pos q < pow2 emax /\ is_finite x = true /\ sign x = s /\
   to_Q x == sgn s * round_pos q) \/
  (pow2 emax <= round_pos q /\ x = S754_infinity s).
Proof.
  intros Hq. cbv zeta. unfold round_mag, round_pos.
  assert (Hm0 := mantissa_nonneg q Hq). assert (Hm1 := mantissa_upper q Hq).
  assert (Hm2 := mantissa_lower q Hq).
  revert Hm0 Hm1 Hm2.
  generalize (rne (q / pow2 (qexp q))). generalize (qexp q). intros e m Hm0 Hm1 Hm2.
  assert (P := pow2_pos e).
  assert (E53 : pow2 (e + prec) == inject_Z (2 ^ prec) * pow2 e)
    by (rewrite Z.add_comm, pow2_add, (pow2_Z prec) by (unfold prec; lia); reflexivity).
  assert (E52 : pow2 (e + (prec - 1)) == inject_Z (2 ^ (prec - 1)) * pow2 e)
    by (rewrite Z.add_comm, pow2_add, (pow2_Z (prec - 1)) by (unfold prec; lia);
        reflexivity).
  unfold normalize. destruct (Z.eqb_spec m (2 ^ prec)) as [-> | Hne].
  - change (2 ^ (prec - 1))%Z with 4503599627370496%Z. cbn [build].
    destruct (Z.gtb_spec (e + 1) (emax - prec)) as [G | G].
    + right. split; [| reflexivity]. rewrite <- E53. apply pow2_le.
      unfold emax, prec in *. lia.
    + left. split; [| split; [reflexivity | split; [reflexivity |]]].
      * rewrite <- E53. apply pow2_lt. unfold emax, prec in *. lia.
      * cbn [to_Q]. rewrite pow2_succ. unfold prec.
        change (inject_Z (2 ^ 53)) with (9007199254740992 # 1).
        change (inject_Z 4503599627370496) with (4503599627370496 # 1).
        unfold sgn. destruct s; ring.
  - destruct m as [| p | p]; [| | lia].
    + left. cbn [build is_finite sign to_Q]. unfold sgn.
      split; [| split; [reflexivity | split; [reflexivity |]]].
      * rewrite Qmult_0_l. apply pow2_pos.
      * destruct s; ring.
    + cbn [build]. destruct (Z.gtb_spec e (emax - prec)) as [G | G].
      * right. split; [| reflexivity].
        apply Qle_trans with (pow2 (e + (prec - 1)));
          [apply pow2_le; unfold emax, prec in *; lia |].
        rewrite E52. apply Qmult_le_compat_r; [| lra].
        rewrite <- Zle_Qle. apply Hm2. unfold emin, emax, prec in *. lia.
      * left. split; [| split; [reflexivity | split; [reflexivity |]]].
        -- apply Qlt_le_trans with (pow2 (e + prec));
             [| apply pow2_le; unfold emax, prec in *; lia].
           rewrite E53. apply Qmult_lt_compat_r; [exact P |].
           rewrite <- Zlt_Qlt. lia.
        -- cbn [to_Q]. unfold sgn. destruct s; ring.
Qed.

Lemma Qcompare_Gt q : 0 < q -> Qcompare q 0 = Gt.
Proof. intros H. apply Qgt_alt. exact H. Qed.

Lemma Qcompare_Lt q : q < 0 -> Qcompare q 0 = Lt.
Proof. intros H. apply Qlt_alt. exact H. Qed.

Lemma Qcompare_Eq q : q == 0 -> Qcompare q 0 = Eq.
Proof. intros H. apply Qeq_alt. exact H. Qed.

Lemma of_Q_pos zs q :
  0 < q ->
  (round_pos q < pow2 emax /\ is_finite (of_Q zs q) = true /\
   sign (of_Q zs q) = false /\ to_Q (of_Q zs q) == round_pos q) \/
  (pow2 emax <= round_pos q /\ of_Q zs q = S754_infinity false).
Proof.
  intros Hq. unfold of_Q. rewrite (Qcompare_Gt q Hq).
  assert (Ea : Qabs q == q) by (apply Qabs_pos; lra).
  assert (Ha : 0 < Qabs q) by lra.
  rewrite (round_mag_Qeq _ _ Ha Ea).
  destruct (build_round_mag false q Hq) as [(A & B & C & D) | (A & B)].
  - left. split; [exact A | split; [exact B | split; [exact C |]]].
    rewrite D. unfold sgn. ring.
  - right. split; assumption.
Qed.

Lemma of_Q_neg zs q :
  q < 0 ->
  (round_pos (- q) < pow2 emax /\ is_finite (of_Q zs q) = true /\
   sign (of_Q zs q) = true /\ to_Q (of_Q zs q) == - round_pos (- q)) \/
  (pow2 emax <= round_pos (- q) /\ of_Q zs q = S754_infinity true).
Proof.
  intros Hq. unfold of_Q. rewrite (Qcompare_Lt q Hq).
  assert (Ea : Qabs q == - q) by (apply Qabs_neg; lra).
  assert (Ha : 0 < Qabs q) by lra.
  rewrite (round_mag_Qeq _ _ Ha Ea).
  assert (Hq' : 0 < - q) by lra.
  destruct (build_round_mag true (- q) Hq') as [(A & B & C & D) | (A & B)].
  - left. split; [exact A | split; [exact B | split; [exact C |]]].
    rewrite D. unfold sgn. ring.
  - right. split; assumption.
Qed.

Lemma of_Q_zero zs q : q == 0 -> of_Q zs q = S754_zero zs.
Proof. intros H. unfold of_Q. rewrite (Qcompare_Eq q H). reflexivity. Qed.

Lemma round_Q_pos q : 0 < q -> round_Q q = round_pos q.
Proof. intros H. unfold round_Q. rewrite (Qcompare_Gt q H). reflexivity. Qed.

Lemma round_Q_neg q : q < 0 -> round_Q q = - round_pos (- q).
Proof. intros H. unfold round_Q. rewrite (Qcompare_Lt q H). reflexivity. Qed.

Lemma round_Q_zero q : q == 0 -> round_Q q = 0.
Proof. intros H. unfold round_Q. rewrite (Qcompare_Eq q H). reflexivity. Qed.

(** The three outcomes of rounding, by the rounded value. *)
Lemma of_Q_spec zs q :
  (Qabs (round_Q q) < pow2 emax /\ is_finite (of_Q zs q) = true /\
   to_Q (of_Q zs q) == round_Q q) \/
  (pow2 emax <= round_Q q /\ of_Q zs q = S754_infinity false) \/
  (round_Q q <= - pow2 emax /\ of_Q zs q = S754_infinity true).
Proof.
  assert (P := pow2_pos emax).
  destruct (Q_dec q 0) as [[H | H] | H].
  - rewrite (round_Q_neg q H). assert (N := round_pos_nonneg (- q)).
    destruct (of_Q_neg zs q H) as [(A & B & C & D) | (A & B)].
    + left. split; [| split; assumption].
      apply Qabs_case; intros; lra.
    + right. right. split; [lra | assumption].
  - rewrite (round_Q_pos q H). assert (N := round_pos_nonneg q H).
    destruct (of_Q_pos zs q H) as [(A & B & C & D) | (A & B)].
    + left. split; [| split; assumption].
      apply Qabs_case; intros; lra.
    + right. left. split; assumption.
  - rewrite (round_Q_zero q H), (of_Q_zero zs q H). left.
    split; [exact P | split; reflexivity].
Qed.

Lemma round_Q_mono q1 q2 : q1 <= q2 -> round_Q q1 <= round_Q q2.
Proof.
  intros H.
  destruct (Q_dec q1 0) as [[H1 | H1] | H1];
    destruct (Q_dec q2 0) as [[H2 | H2] | H2]; try lra.
  - rewrite (round_Q_neg _ H1), (round_Q_neg _ H2).
    assert (M := round_pos_mono (- q2) (- q1)). lra.
  - rewrite (round_Q_neg _ H1), (round_Q_pos _ H2).
    assert (A := round_pos_nonneg (- q1)). assert (B := round_pos_nonneg q2). lra.
  - rewrite (round_Q_neg _ H1), (round_Q_zero _ H2).
    assert (A := round_pos_nonneg (- q1)). lra.
  - rewrite (round_Q_pos _ H1), (round_Q_pos _ H2).
    apply round_pos_mono; assumption.
  - rewrite (round_Q_zero _ H1), (round_Q_pos _ H2).
    apply round_pos_nonneg; assumption.
  - rewrite (round_Q_zero _ H1), (round_Q_zero _ H2). lra.
Qed.

End OfQFacts.

(** ** Order and monotonicity of the float operations *)

Module OrderFacts.
Import F64 F64Facts RoundFacts OfQFacts.
Local Open Scope Q_scope.

Abbreviation pinf := (S754_infinity false).
Abbreviation ninf := (S754_infinity true).

Lemma compare_finite x y :
  is_finite x = true -> is_finite y = true ->
  compare x y = Some (Qcompare (to_Q x) (to_Q y)).
Proof. destruct x, y; intros; try discriminate; reflexivity. Qed.

Lemma le_finite x y :
  is_finite x = true -> is_finite y = true -> (le x y <-> to_Q x <= to_Q y).
Proof.
  intros Hx Hy. unfold le, leb. rewrite (compare_finite x y Hx Hy).
  destruct (Qcompare_spec (to_Q x) (to_Q y)); split; intros; try lra;
    try reflexivity; discriminate.
Qed.

Lemma lt_finite x y :
  is_finite x = true -> is_finite y = true -> (lt x y <-> to_Q x < to_Q y).
Proof.
  intros Hx Hy. unfold lt, ltb. rewrite (compare_finite x y Hx Hy).
  destruct (Qcompare_spec (to_Q x) (to_Q y)); split; intros; try lra;
    try reflexivity; discriminate.
Qed.

Lemma le_ninf x : is_nan x = false -> le ninf x.
Proof. destruct x as [| [|] | |]; intros; try discriminate; reflexivity. Qed.

Lemma le_pinf x : is_nan x = false -> le x pinf.
Proof. destruct x as [| [|] | |]; intros; try discriminate; reflexivity. Qed.

Lemma le_not_nan x y : le x y -> is_nan x = false /\ is_nan y = false.
Proof. destruct x, y; intros H; try discriminate H; split; reflexivity. Qed.

Lemma le_cases x y :
  le x y ->
  x = ninf \/ y = pinf \/
  (is_finite x = true /\ is_finite y = true /\ to_Q x <= to_Q y).
Proof.
  intros H.
  destruct x as [sx | [|] | | sx mx ex]; try discriminate H; auto;
    destruct y as [sy | [|] | | sy my ey]; try discriminate H; auto;
    right; right; (split; [reflexivity | split; [reflexivity |]]);
    apply le_finite; auto.
Qed.

Lemma not_nan_cases x :
  is_nan x = false -> x = ninf \/ x = pinf \/ is_finite x = true.
Proof. destruct x as [| [|] | |]; intros; try discriminate; auto. Qed.

Lemma le_refl x : is_nan x = false -> le x x.
Proof.
  intros H. destruct (not_nan_cases x H) as [-> | [-> | F]]; try reflexivity.
  apply le_finite; auto. lra.
Qed.

Lemma le_trans x y z : le x y -> le y z -> le x z.
Proof.
  intros A B. destruct (le_not_nan _ _ A) as [Nx _].
  destruct (le_not_nan _ _ B) as [_ Nz].
  destruct (le_cases _ _ A) as [-> | [-> | (Fx & Fy & Hxy)]];
    [apply le_ninf, Nz | |].
  - destruct (le_cases _ _ B) as [E | [-> | (F & _)]];
      [discriminate E | apply le_pinf, Nx | discriminate F].
  - destruct (le_cases _ _ B) as [-> | [-> | (_ & Fz & Hyz)]];
      [discriminate Fy | apply le_pinf, Nx |].
    apply le_finite; auto. lra.
Qed.

Lemma of_Q_not_nan zs q : is_nan (of_Q zs q) = false.
Proof.
  destruct (of_Q_spec zs q) as [(_ & F & _) | [(_ & ->) | (_ & ->)]];
    try reflexivity.
  destruct (of_Q zs q); try discriminate F; reflexivity.
Qed.

(** Rounding is monotone on the floats it produces. *)
Lemma of_Q_mono z1 z2 q1 q2 : q1 <= q2 -> le (of_Q z1 q1) (of_Q z2 q2).
Proof.
  intros H. assert (M := round_Q_mono _ _ H). assert (P := pow2_pos emax).
  destruct (of_Q_spec z1 q1) as [(A1 & F1 & E1) | [(A1 & ->) | (A1 & ->)]];
    destruct (of_Q_spec z2 q2) as [(A2 & F2 & E2) | [(A2 & ->) | (A2 & ->)]];
    try reflexivity;
    try (apply le_pinf, of_Q_not_nan); try (apply le_ninf, of_Q_not_nan).
  - apply le_finite; auto. lra.
  - exfalso. revert A1. apply Qabs_case; intros; lra.
  - exfalso. revert A2. apply Qabs_case; intros; lra.
  - exfalso. lra.
Qed.

Lemma add_finite x y :
  is_finite x = true -> is_finite y = true ->
  add x y = of_Q (sign x && sign y) (to_Q x + to_Q y).
Proof. destruct x, y; intros; try discriminate; reflexivity. Qed.

Lemma mul_finite x y :
  is_finite x = true -> is_finite y = true ->
  mul x y = of_Q (xorb (sign x) (sign y)) (to_Q x * to_Q y).
Proof. destruct x, y; intros; try discriminate; reflexivity. Qed.

Lemma add_ninf_l y : is_nan (add ninf y) = false -> add ninf y = ninf.
Proof. destruct y as [| [|] | |]; intros; try discriminate; reflexivity. Qed.

Lemma add_ninf_r x : is_nan (add x ninf) = false -> add x ninf = ninf.
Proof. destruct x as [| [|] | |]; intros; try discriminate; reflexivity. Qed.

Lemma add_pinf_l y : is_nan (add pinf y) = false -> add pinf y = pinf.
Proof. destruct y as [| [|] | |]; intros; try discriminate; reflexivity. Qed.

Lemma add_pinf_r x : is_nan (add x pinf) = false -> add x pinf = pinf.
Proof. destruct x as [| [|] | |]; intros; try discriminate; reflexivity. Qed.

(** Addition is monotone in both arguments, whenever neither sum is NaN. *)
Lemma add_mono x x' y y' :
  le x x' -> le y y' ->
  is_nan (add x y) = false -> is_nan (add x' y') = false ->
  le (add x y) (add x' y').
Proof.
  intros Hx Hy N N'.
  destruct (le_cases _ _ Hx) as [-> | [-> | (Fx & Fx' & Lx)]].
  - rewrite (add_ninf_l y N). apply le_ninf, N'.
  - rewrite (add_pinf_l y' N'). apply le_pinf, N.
  - destruct (le_cases _ _ Hy) as [-> | [-> | (Fy & Fy' & Ly)]].
    + rewrite (add_ninf_r x N). apply le_ninf, N'.
    + rewrite (add_pinf_r x' N'). apply le_pinf, N.
    + rewrite (add_finite x y Fx Fy), (add_finite x' y' Fx' Fy').
      apply of_Q_mono. lra.
Qed.

End OrderFacts.

(** ** The Python operations on the shapes the price computation meets *)

Module PyFacts.

Lemma int_to_float_finite n :
  F64.is_finite (F64.of_Z n) = true -> Py.int_to_float n = Ok (F64.of_Z n).
Proof. intros H. unfold Py.int_to_float. rewrite H. reflexivity. Qed.

Lemma int_to_float_Ok n x :
  Py.int_to_float n = Ok x ->
  x = F64.of_Z n /\ F64.is_finite (F64.of_Z n) = true.
Proof.
  unfold Py.int_to_float.
  destruct (F64.is_finite (F64.of_Z n)); intros H; inversion H; auto.
Qed.

Lemma int_to_float_infinite n :
  F64.is_finite (F64.of_Z n) = false ->
  Py.int_to_float n = Raise (OverflowError "int too large to convert to float").
Proof. intros H. unfold Py.int_to_float. rewrite H. reflexivity. Qed.

Lemma mul_int_float c x :
  F64.is_finite (F64.of_Z c) = true ->
  Py.mul (PInt c) (PFloat x) = Ok (PFloat (F64.mul (F64.of_Z c) x)).
Proof.
  intros H. unfold Py.mul, Py.to_float. rewrite (int_to_float_finite c H).
  reflexivity.
Qed.

Lemma add_int_float c x :
  F64.is_finite (F64.of_Z c) = true ->
  Py.add (PInt c) (PFloat x) = Ok (PFloat (F64.add (F64.of_Z c) x)).
Proof.
  intros H. unfold Py.add, Py.to_float. rewrite (int_to_float_finite c H).
  reflexivity.
Qed.

Lemma add_float_int x c :
  F64.is_finite (F64.of_Z c) = true ->
  Py.add (PFloat x) (PInt c) = Ok (PFloat (F64.add x (F64.of_Z c))).
Proof.
  intros H. unfold Py.add, Py.to_float. rewrite (int_to_float_finite c H).
  reflexivity.
Qed.

Lemma add_float_float x y :
  Py.add (PFloat x) (PFloat y) = Ok (PFloat (F64.add x y)).
Proof. reflexivity. Qed.

Lemma mul_float_float x y :
  Py.mul (PFloat x) (PFloat y) = Ok (PFloat (F64.mul x y)).
Proof. reflexivity. Qed.

Lemma mul_int_int m n : Py.mul (PInt m) (PInt n) = Ok (PInt (m * n)).
Proof. reflexivity. Qed.

Lemma pow2_float {lm : Libm} x :
  square_overflows x = false -> Py.pow2 (PFloat x) = Ok (PFloat (square x)).
Proof. intros H. unfold Py.pow2. fold (square x). fold (square_overflows x).
  rewrite H. reflexivity. Qed.

Lemma truediv_float_int x c y :
  Py.int_to_float c = Ok y -> (forall s, y <> S754_zero s) ->
  Py.truediv (PFloat x) (PInt c) = Ok (PFloat (F64.div x y)).
Proof.
  intros H Z. unfold Py.truediv, Py.to_float. rewrite H. cbn [bind].
  destruct y; try reflexivity. elim (Z s). reflexivity.
Qed.

Lemma truediv_float_1000 x :
  Py.truediv (PFloat x) (PInt 1000) = Ok (PFloat (F64.div x (F64.of_Z 1000))).
Proof.
  apply truediv_float_int; [vm_compute; reflexivity |].
  intros s. vm_compute. discriminate.
Qed.

Lemma add_float_int_raises x c :
  F64.is_finite (F64.of_Z c) = false ->
  Py.add (PFloat x) (PInt c) =
    Raise (OverflowError "int too large to convert to float").
Proof.
  intros H. unfold Py.add, Py.to_float. rewrite (int_to_float_infinite c H).
  reflexivity.
Qed.

Lemma mul_int_float_raises c x :
  F64.is_finite (F64.of_Z c) = false ->
  Py.mul (PInt c) (PFloat x) =
    Raise (OverflowError "int too large to convert to float").
Proof.
  intros H. unfold Py.mul, Py.to_float. rewrite (int_to_float_infinite c H).
  reflexivity.
Qed.

Lemma pow2_float_raises {lm : Libm} x :
  square_overflows x = true ->
  Py.pow2 (PFloat x) =
    Raise (OverflowError "(34, 'Numerical result out of range')").
Proof.
  intros H. unfold Py.pow2. fold (square x). fold (square_overflows x).
  rewrite H. reflexivity.
Qed.

End PyFacts.

(** ** The closed form of the price *)

Module ClosedForm.
Import PyFacts.

(** Finiteness of the float of an int literal, by evaluation. *)
Ltac const_finite :=
  match goal with
  | |- F64.is_finite (F64.of_Z ?c) = true =>
      match c with
      | Z0 => idtac
      | Zpos _ => idtac
      | Zneg _ => idtac
      end;
      vm_compute; reflexivity
  end.

(** One statement of the price computation, on a float price. *)
Ltac price_step :=
  first
    [ rewrite mul_int_float by (assumption || const_finite)
    | rewrite add_int_float by (assumption || const_finite)
    | rewrite add_float_int by (assumption || const_finite)
    | rewrite pow2_float by assumption
    | rewrite truediv_float_1000
    | rewrite add_float_float
    | rewrite mul_float_float
    | rewrite mul_int_int ];
  cbn [bind].

Ltac raises_now lem :=
  rewrite lem by assumption; cbn [bind]; eexists; reflexivity.

Lemma numeric_terms_closed {lm : Libm} f :
  no_exception f = true ->
  numeric_terms predictor f =
    Ok (PFloat (fold_left F64.add (numeric_float_terms f) (F64.of_Z 3000000))).
Proof.
  intros E. unfold no_exception in E.
  repeat (apply andb_prop in E; destruct E as [E ?]).
  repeat match goal with
         | H : negb _ = true |- _ => apply negb_true_iff in H
         end.
  unfold numeric_terms, add_term, add_term_per_1000, coef.
  cbn [predictor init coefficients Py.getitem String.eqb Ascii.eqb Bool.eqb bind].
  unfold lit. repeat price_step.
  unfold numeric_float_terms, f_half, f_minus_milli. cbn [fold_left].
  reflexivity.
Qed.

Lemma numeric_terms_raises {lm : Libm} f :
  no_exception f = false -> exists e, numeric_terms predictor f = Raise e.
Proof.
  intros E. unfold no_exception in E.
  unfold numeric_terms, add_term, add_term_per_1000, coef.
  cbn [predictor init coefficients Py.getitem String.eqb Ascii.eqb Bool.eqb bind].
  unfold lit.
  destruct (F64.is_finite (F64.of_Z (800000 * bedrooms f))) eqn:E1;
    [| repeat price_step; raises_now add_float_int_raises].
  destruct (F64.is_finite (F64.of_Z (400000 * bathrooms f))) eqn:E2;
    [| repeat price_step; raises_now add_float_int_raises].
  destruct (square_overflows (size f)) eqn:E3;
    [repeat price_step; raises_now pow2_float_raises |].
  destruct (square_overflows (avg_local_rent f)) eqn:E4;
    [repeat price_step; raises_now pow2_float_raises |].
  destruct (F64.is_finite (F64.of_Z (-200000 * (city_tier f * bedrooms f))))
    eqn:E5;
    [| repeat price_step; raises_now add_float_int_raises].
  destruct (F64.is_finite (F64.of_Z (city_tier f))) eqn:E6;
    [discriminate E |].
  repeat price_step. raises_now mul_int_float_raises.
Qed.

Lemma add_coef_closed name c p :
  coef predictor name = Ok (PInt c) ->
  F64.is_finite (F64.of_Z c) = true ->
  add_coef predictor (PFloat p) name = Ok (PFloat (F64.add p (F64.of_Z c))).
Proof.
  intros H F. unfold add_coef. rewrite H. cbn [bind].
  apply add_float_int, F.
Qed.

Ltac coef_step :=
  erewrite add_coef_closed by (vm_compute; reflexivity).

Lemma tier_2_term_closed f p :
  tier_2_term predictor f (PFloat p) =
    Ok (PFloat (fold_left F64.add
                  (if city_tier f =? 2 then [F64.of_Z (-800000)] else []) p)).
Proof.
  unfold tier_2_term. destruct (city_tier f =? 2); [| reflexivity].
  coef_step. reflexivity.
Qed.

Lemma other_categorical_terms_closed f p :
  other_categorical_terms predictor f (PFloat p) =
    Ok (PFloat (fold_left F64.add
      ((if String.eqb (property_type f) "house" then [F64.of_Z (-500000)]
        else if String.eqb (property_type f) "other" then [F64.of_Z (-1000000)]
        else []) ++
       (if rera_registered f =? 1 then [F64.of_Z 300000] else []) ++
       (if Py.eq_int (furnishing f) 4 then [F64.of_Z 500000]
        else if Py.eq_str (furnishing f) "other" then [F64.of_Z 800000]
        else []) ++
       (if move_in_ready f =? 1 then [F64.of_Z 200000] else []))%list p)).
Proof.
  unfold other_categorical_terms.
  destruct (String.eqb (property_type f) "house");
    [| destruct (String.eqb (property_type f) "other")];
    try coef_step; cbn [bind];
    (destruct (rera_registered f =? 1); try coef_step; cbn [bind]);
    (destruct (Py.eq_int (furnishing f) 4);
       [| destruct (Py.eq_str (furnishing f) "other")];
       try coef_step; cbn [bind]);
    (destruct (move_in_ready f =? 1); try coef_step; reflexivity).
Qed.

(** Without an exception the accumulated price is the float sum of the
    terms, and the price before the clamp is that sum times the tier
    factor. *)
Lemma accumulated_price_closed {lm : Libm} f :
  no_exception f = true ->
  accumulated_price predictor f = Ok (PFloat (float_accumulated f)).
Proof.
  intros E. unfold accumulated_price.
  rewrite (numeric_terms_closed f E). cbn [bind].
  rewrite tier_2_term_closed. cbn [bind].
  rewrite other_categorical_terms_closed.
  unfold float_accumulated, float_terms, categorical_float_terms.
  rewrite !fold_left_app. reflexivity.
Qed.

Lemma accumulated_price_raises {lm : Libm} f :
  no_exception f = false -> exists e, accumulated_price predictor f = Raise e.
Proof.
  intros E. destruct (numeric_terms_raises f E) as [e H].
  exists e. unfold accumulated_price. rewrite H. reflexivity.
Qed.

Lemma tier_multiplier_closed f p :
  tier_multiplier f (PFloat p) =
    Ok (PFloat (if city_tier f =? 1 then F64.mul p f_1_2
                else if city_tier f =? 3 then F64.mul p f_0_6
                else p)).
Proof.
  unfold tier_multiplier.
  destruct (city_tier f =? 1); [reflexivity |].
  destruct (city_tier f =? 3); reflexivity.
Qed.

Lemma pre_clamp_price_closed {lm : Libm} f :
  no_exception f = true ->
  pre_clamp_price predictor f = Ok (PFloat (float_pre_clamp f)).
Proof.
  intros E. unfold pre_clamp_price.
  rewrite (accumulated_price_closed f E). cbn [bind].
  rewrite tier_multiplier_closed. reflexivity.
Qed.

Lemma pre_clamp_price_Ok {lm : Libm} f p :
  pre_clamp_price predictor f = Ok p ->
  no_exception f = true /\ p = PFloat (float_pre_clamp f).
Proof.
  intros H. destruct (no_exception f) eqn:E.
  - rewrite (pre_clamp_price_closed f E) in H. inversion H. auto.
  - destruct (accumulated_price_raises f E) as [e R].
    unfold pre_clamp_price in H. rewrite R in H. discriminate H.
Qed.

Lemma accumulated_price_Ok {lm : Libm} f p :
  accumulated_price predictor f = Ok p ->
  no_exception f = true /\ p = PFloat (float_accumulated f).
Proof.
  intros H. destruct (no_exception f) eqn:E.
  - rewrite (accumulated_price_closed f E) in H. inversion H. auto.
  - destruct (accumulated_price_raises f E) as [e R].
    rewrite R in H. discriminate H.
Qed.

End ClosedForm.

(** ** Monotonicity of multiplication, division and sums *)

Module MonoFacts.
Import F64 F64Facts RoundFacts OfQFacts OrderFacts.
Local Open Scope Q_scope.

Abbreviation zero := (S754_zero false).

Lemma finite_value_pos m e : 0 < inject_Z (Zpos m) * pow2 e.
Proof.
  apply Qmult_lt_0_compat; [| apply pow2_pos].
  unfold Qlt. simpl. lia.
Qed.

Lemma finite_nonneg_sign s m e : 0 <= to_Q (S754_finite s m e) -> s = false.
Proof.
  destruct s; [| reflexivity]. intros H. exfalso.
  assert (P := finite_value_pos m e). cbn [to_Q sgn] in H. lra.
Qed.

Lemma compare_antisym x y :
  compare y x = option_map CompOpp (compare x y).
Proof.
  destruct x as [sx | [|] | | sx mx ex], y as [sy | [|] | | sy my ey];
    try reflexivity; cbn [compare option_map];
    rewrite <- Qcompare_antisym; reflexivity.
Qed.

Lemma le_zero_cases x :
  le zero x -> x = pinf \/ (is_finite x = true /\ 0 <= to_Q x).
Proof.
  intros H. destruct (le_cases _ _ H) as [E | [E | (_ & F & L)]];
    [discriminate E | auto | right; split; assumption].
Qed.

Lemma mul_pinf_l y :
  le zero y -> is_nan (mul pinf y) = false -> mul pinf y = pinf.
Proof.
  intros H N. destruct y as [s | [|] | | s m e]; try discriminate; try reflexivity.
  destruct (le_zero_cases _ H) as [E | [_ L]]; [discriminate E |].
  rewrite (finite_nonneg_sign _ _ _ L). reflexivity.
Qed.

Lemma mul_pinf_r x :
  le zero x -> is_nan (mul x pinf) = false -> mul x pinf = pinf.
Proof.
  intros H N. destruct x as [s | [|] | | s m e]; try discriminate; try reflexivity.
  destruct (le_zero_cases _ H) as [E | [_ L]]; [discriminate E |].
  rewrite (finite_nonneg_sign _ _ _ L). reflexivity.
Qed.

(** Multiplication is monotone on non-negative operands. *)
Lemma mul_mono_nonneg x x' y y' :
  le zero x -> le x x' -> le zero y -> le y y' ->
  is_nan (mul x y) = false -> is_nan (mul x' y') = false ->
  le (mul x y) (mul x' y').
Proof.
  intros Zx Hx Zy Hy N N'.
  assert (Zx' := le_trans _ _ _ Zx Hx). assert (Zy' := le_trans _ _ _ Zy Hy).
  destruct (le_cases _ _ Hx) as [-> | [-> | (Fx & Fx' & Lx)]];
    [discriminate Zx | rewrite (mul_pinf_l y' Zy' N'); apply le_pinf, N |].
  destruct (le_cases _ _ Hy) as [-> | [-> | (Fy & Fy' & Ly)]];
    [discriminate Zy | rewrite (mul_pinf_r x' Zx' N'); apply le_pinf, N |].
  destruct (le_zero_cases _ Zx) as [-> | [_ Px]]; [discriminate Fx |].
  destruct (le_zero_cases _ Zy) as [-> | [_ Py]]; [discriminate Fy |].
  rewrite (mul_finite x y Fx Fy), (mul_finite x' y' Fx' Fy').
  apply of_Q_mono. nra.
Qed.

Lemma positive_finite c :
  is_finite c = true -> 0 < to_Q c -> exists m e, c = S754_finite false m e.
Proof.
  intros F P. destruct c as [s | | | s m e]; try discriminate F.
  - cbn in P. lra.
  - rewrite (finite_nonneg_sign s m e) by lra. eauto.
Qed.

(** Multiplication and division by a positive constant are monotone. *)
Lemma mul_pos_const_mono x x' c :
  is_finite c = true -> 0 < to_Q c -> le x x' -> le (mul x c) (mul x' c).
Proof.
  intros F P H. destruct (positive_finite c F P) as (m & e & ->).
  destruct (le_not_nan _ _ H) as [Nx Nx'].
  destruct (le_cases _ _ H) as [-> | [-> | (Fx & Fx' & Lx)]].
  - destruct x' as [| [|] | |]; try discriminate Nx'; cbn [mul sign xorb];
      try reflexivity; apply le_ninf, of_Q_not_nan.
  - destruct x as [| [|] | |]; try discriminate Nx; cbn [mul sign xorb];
      try reflexivity; apply le_pinf, of_Q_not_nan.
  - rewrite (mul_finite x _ Fx F), (mul_finite x' _ Fx' F).
    apply of_Q_mono. nra.
Qed.

Lemma div_finite x m e :
  is_finite x = true ->
  div x (S754_finite false m e) =
    of_Q (xorb (sign x) false) (to_Q x / to_Q (S754_finite false m e)).
Proof. destruct x; intros; try discriminate; reflexivity. Qed.

Lemma div_pos_const_mono x x' c :
  is_finite c = true -> 0 < to_Q c -> le x x' -> le (div x c) (div x' c).
Proof.
  intros F P H. destruct (positive_finite c F P) as (m & e & ->).
  destruct (le_not_nan _ _ H) as [Nx Nx'].
  destruct (le_cases _ _ H) as [-> | [-> | (Fx & Fx' & Lx)]].
  - destruct x' as [| [|] | |]; try discriminate Nx'; cbn [div sign xorb];
      try reflexivity; apply le_ninf, of_Q_not_nan.
  - destruct x as [| [|] | |]; try discriminate Nx; cbn [div sign xorb];
      try reflexivity; apply le_pinf, of_Q_not_nan.
  - rewrite (div_finite x m e Fx), (div_finite x' m e Fx').
    apply of_Q_mono. apply Qmult_le_compat_r; [exact Lx |].
    apply Qlt_le_weak, Qinv_lt_0_compat, P.
Qed.

(** *** NaN only comes from NaN operands or an undefined operation *)

Lemma add_not_nan x y :
  is_nan (add x y) = false -> is_nan x = false /\ is_nan y = false.
Proof. destruct x, y; intros H; try discriminate H; split; reflexivity. Qed.

Lemma mul_not_nan x y :
  is_nan (mul x y) = false -> is_nan x = false /\ is_nan y = false.
Proof. destruct x, y; intros H; try discriminate H; split; reflexivity. Qed.

Lemma div_not_nan x y :
  is_nan (div x y) = false -> is_nan x = false /\ is_nan y = false.
Proof. destruct x, y; intros H; try discriminate H; split; reflexivity. Qed.

Lemma fold_add_not_nan ts p :
  is_nan (fold_left add ts p) = false ->
  is_nan p = false /\ Forall (fun t => is_nan t = false) ts.
Proof.
  revert p. induction ts as [| t ts IH]; intros p H; cbn [fold_left] in H.
  - split; [exact H | constructor].
  - destruct (IH _ H) as [A B]. destruct (add_not_nan _ _ A) as [C D].
    split; [exact C | constructor; assumption].
Qed.

(** A left-to-right float sum is monotone in its terms. *)
Lemma fold_add_mono ts ts' :
  Forall2 le ts ts' ->
  forall p p', le p p' ->
  is_nan (fold_left add ts p) = false ->
  is_nan (fold_left add ts' p') = false ->
  le (fold_left add ts p) (fold_left add ts' p').
Proof.
  induction 1 as [| t t' ts ts' Ht Hts IH]; intros p p' Hp N N';
    cbn [fold_left] in *; [exact Hp |].
  apply IH; try assumption.
  apply add_mono; try assumption.
  - apply (fold_add_not_nan ts _ N).
  - apply (fold_add_not_nan ts' _ N').
Qed.

Lemma Forall2_le_refl ts :
  Forall (fun t => is_nan t = false) ts -> Forall2 le ts ts.
Proof.
  induction 1; constructor; [apply le_refl |]; assumption.
Qed.

Lemma lt_le x y : lt x y -> le x y.
Proof.
  unfold lt, le, ltb, leb. destruct (compare x y) as [[| |] |]; intros H;
    try discriminate H; reflexivity.
Qed.

End MonoFacts.

(** ** Rounding below [2^53]: integers are exact, the error is at most 1/2 *)

Module SmallFacts.
Import F64 F64Facts RoundFacts OfQFacts OrderFacts MonoFacts.
Local Open Scope Q_scope.

Lemma qexp_small q : 0 < q -> q < pow2 prec -> (qexp q <= 0)%Z.
Proof.
  intros Hq H. destruct (ilog2_spec q Hq) as [A _].
  assert (L : pow2 (ilog2 q) < pow2 prec) by lra.
  apply pow2_lt_inv in L. unfold qexp, prec, emin in *. lia.
Qed.

Lemma pow2_nonpos_inv e : (e <= 0)%Z -> pow2 e * inject_Z (2 ^ (- e)) == 1.
Proof.
  intros H. rewrite <- (pow2_Z (- e)) by lia. rewrite <- pow2_add.
  replace (e + - e)%Z with 0%Z by ring. reflexivity.
Qed.

Lemma round_pos_Z n :
  (0 < n < 2 ^ prec)%Z -> round_pos (inject_Z n) == inject_Z n.
Proof.
  intros [H0 H1].
  assert (Hq : 0 < inject_Z n) by (change 0 with (inject_Z 0); rewrite <- Zlt_Qlt; exact H0).
  assert (Hs : inject_Z n < pow2 prec)
    by (rewrite (pow2_Z prec) by (unfold prec; lia); rewrite <- Zlt_Qlt; exact H1).
  assert (He := qexp_small _ Hq Hs). unfold round_pos.
  assert (I := pow2_nonpos_inv _ He). assert (P := pow2_pos (qexp (inject_Z n))).
  revert I P. generalize (qexp (inject_Z n)). intros e I P.
  assert (T : inject_Z (2 ^ (- e)) == / pow2 e).
  { apply (Qmult_inj_l _ _ (pow2 e)); [lra |]. rewrite I. field. lra. }
  rewrite (rne_Qeq _ (inject_Z (n * 2 ^ (- e)))).
  - rewrite rne_Z, inject_Z_mult, T. field. lra.
  - rewrite inject_Z_mult, T. reflexivity.
Qed.

Lemma round_Q_Z n :
  (- 2 ^ prec < n < 2 ^ prec)%Z -> round_Q (inject_Z n) == inject_Z n.
Proof.
  intros [H0 H1]. destruct (Z.lt_trichotomy n 0) as [N | [-> | N]].
  - assert (Hq : inject_Z n < 0)
      by (change 0 with (inject_Z 0); rewrite <- Zlt_Qlt; exact N).
    rewrite (round_Q_neg _ Hq).
    assert (E : - inject_Z n == inject_Z (- n)) by (rewrite inject_Z_opp; reflexivity).
    assert (Hp : 0 < - inject_Z n) by lra.
    rewrite (round_pos_Qeq _ _ Hp E), round_pos_Z by lia.
    rewrite inject_Z_opp. ring.
  - reflexivity.
  - assert (Hq : 0 < inject_Z n)
      by (change 0 with (inject_Z 0); rewrite <- Zlt_Qlt; exact N).
    rewrite (round_Q_pos _ Hq). apply round_pos_Z. lia.
Qed.

Lemma round_Q_error q :
  - pow2 prec < q -> q < pow2 prec ->
  - (1 # 2) <= round_Q q - q /\ round_Q q - q <= 1 # 2.
Proof.
  intros L U.
  assert (B : forall p, 0 < p -> p < pow2 prec ->
                - (1 # 2) <= round_pos p - p /\ round_pos p - p <= 1 # 2).
  { intros p Hp Hs. assert (E := round_pos_error p Hp).
    assert (He := qexp_small p Hp Hs).
    assert (P1 : pow2 (qexp p) <= pow2 0) by (apply pow2_le; exact He).
    change (pow2 0) with 1 in P1. assert (P0 := pow2_pos (qexp p)).
    apply Qabs_Qle_condition in E. lra. }
  destruct (Q_dec q 0) as [[H | H] | H].
  - rewrite (round_Q_neg q H). destruct (B (- q)); lra.
  - rewrite (round_Q_pos q H). destruct (B q); lra.
  - rewrite (round_Q_zero q H). lra.
Qed.

(** A rational between two small integers rounds to a finite float between
    them, at most 1/2 away. *)
Lemma of_Q_small zs q lo hi :
  (- 2 ^ prec < lo)%Z -> (hi < 2 ^ prec)%Z ->
  inject_Z lo <= q -> q <= inject_Z hi ->
  is_finite (of_Q zs q) = true /\
  inject_Z lo <= to_Q (of_Q zs q) /\ to_Q (of_Q zs q) <= inject_Z hi /\
  - (1 # 2) <= to_Q (of_Q zs q) - q /\ to_Q (of_Q zs q) - q <= 1 # 2.
Proof.
  intros Hlo Hhi L U.
  assert (Hle : (lo <= hi)%Z) by (rewrite Zle_Qle; lra).
  assert (Rl := round_Q_mono _ _ L). assert (Ru := round_Q_mono _ _ U).
  rewrite round_Q_Z in Rl by lia. rewrite round_Q_Z in Ru by lia.
  assert (P53 : pow2 prec == inject_Z (2 ^ prec)) by (apply pow2_Z; unfold prec; lia).
  assert (Llo : - pow2 prec < inject_Z lo).
  { rewrite P53, <- inject_Z_opp, <- Zlt_Qlt. exact Hlo. }
  assert (Lhi : inject_Z hi < pow2 prec).
  { rewrite P53, <- Zlt_Qlt. exact Hhi. }
  assert (Pm : pow2 prec < pow2 emax) by (apply pow2_lt; unfold prec, emax; lia).
  destruct (round_Q_error q) as [E1 E2]; [lra | lra |].
  destruct (of_Q_spec zs q) as [(A & F & E) | [(A & _) | (A & _)]];
    [| exfalso; lra | exfalso; lra].
  rewrite E. repeat split; try assumption.
Qed.

Lemma of_Z_small n :
  (- 2 ^ prec < n < 2 ^ prec)%Z ->
  is_finite (of_Z n) = true /\ to_Q (of_Z n) == inject_Z n.
Proof.
  intros [H0 H1]. unfold of_Z.
  destruct (of_Q_small false (inject_Z n) n n) as (F & A & B & _);
    try lia; try apply Qle_refl.
  split; [exact F | lra].
Qed.

End SmallFacts.

(** ** Sums of small floats *)

Module SumFacts.
Import F64 F64Facts RoundFacts OfQFacts OrderFacts MonoFacts SmallFacts.
Local Open Scope Q_scope.

Abbreviation big := (9007199254740991 # 1).

Lemma of_Q_below_big zs q :
  - big <= q -> q <= big ->
  is_finite (of_Q zs q) = true /\
  - (1 # 2) <= to_Q (of_Q zs q) - q /\ to_Q (of_Q zs q) - q <= 1 # 2.
Proof.
  intros L U.
  destruct (of_Q_small zs q (- 9007199254740991) 9007199254740991)
    as (F & _ & _ & A & B); try (unfold prec; lia); try assumption.
  repeat split; assumption.
Qed.

Lemma add_small x y :
  is_finite x = true -> is_finite y = true ->
  - big <= to_Q x + to_Q y -> to_Q x + to_Q y <= big ->
  is_finite (add x y) = true /\
  - (1 # 2) <= to_Q (add x y) - (to_Q x + to_Q y) /\
  to_Q (add x y) - (to_Q x + to_Q y) <= 1 # 2.
Proof.
  intros Fx Fy L U. rewrite (add_finite x y Fx Fy).
  apply of_Q_below_big; assumption.
Qed.

Lemma mul_small x y :
  is_finite x = true -> is_finite y = true ->
  - big <= to_Q x * to_Q y -> to_Q x * to_Q y <= big ->
  is_finite (mul x y) = true /\
  - (1 # 2) <= to_Q (mul x y) - to_Q x * to_Q y /\
  to_Q (mul x y) - to_Q x * to_Q y <= 1 # 2.
Proof.
  intros Fx Fy L U. rewrite (mul_finite x y Fx Fy).
  apply of_Q_below_big; assumption.
Qed.

Abbreviation count := term_count.

Lemma count_cons t ts : count (t :: ts) == count ts + 1.
Proof.
  unfold term_count. cbn [List.length]. rewrite Nat2Z.inj_succ, <- Z.add_1_r.
  rewrite inject_Z_plus. reflexivity.
Qed.

Lemma count_nonneg ts : 0 <= count ts.
Proof.
  unfold term_count. change 0 with (inject_Z 0). rewrite <- Zle_Qle. lia.
Qed.

(** A left-to-right float sum of terms of magnitude at most [m] differs
    from the exact sum by at most half the number of terms, as long as the
    partial sums stay below [2^53]. *)
Lemma fold_add_small m ts :
  forall p b,
    Forall (bounded_by m) ts ->
    is_finite p = true -> - b <= to_Q p -> to_Q p <= b ->
    0 <= m -> b + count ts * (m + (1 # 2)) <= big ->
    is_finite (fold_left add ts p) = true /\
    - (count ts * (1 # 2)) <= to_Q (fold_left add ts p) - (to_Q p + term_sum ts) /\
    to_Q (fold_left add ts p) - (to_Q p + term_sum ts) <= count ts * (1 # 2).
Proof.
  induction ts as [| t ts IH]; intros p b Hts Fp Lp Up Hm Hb.
  - cbn [fold_left term_sum fold_right]. unfold term_count. cbn [List.length].
    change (inject_Z (Z.of_nat 0)) with 0. repeat split; try assumption; lra.
  - assert (Ht := Forall_inv Hts). apply Forall_inv_tail in Hts.
    destruct Ht as (Ft & Lt & Ut).
    assert (C := count_cons t ts). assert (N := count_nonneg ts).
    assert (Hb' : b + m + (1 # 2) + count ts * (m + (1 # 2)) <= big).
    { rewrite C in Hb.
      setoid_replace ((count ts + 1) * (m + (1 # 2)))
        with (count ts * (m + (1 # 2)) + m + (1 # 2)) in Hb by ring.
      lra. }
    assert (K : 0 <= count ts * (m + (1 # 2))) by (apply Qmult_le_0_compat; lra).
    destruct (add_small p t Fp Ft) as (Fa & La & Ua); [lra | lra |].
    cbn [fold_left term_sum fold_right].
    destruct (IH (add p t) (b + m + (1 # 2)) Hts Fa) as (F & L & U);
      try lra.
    fold (term_sum ts) in *.
    split; [exact F |]. rewrite C. split; lra.
Qed.

Lemma term_sum_app l1 l2 : term_sum (l1 ++ l2) == term_sum l1 + term_sum l2.
Proof.
  unfold term_sum. induction l1 as [| t l1 IH]; cbn [app fold_right].
  - ring.
  - rewrite IH. ring.
Qed.

End SumFacts.

(** ** The terms of the price on inputs of ordinary magnitude *)

Module BoundFacts.
Import F64 F64Facts RoundFacts OfQFacts OrderFacts MonoFacts SmallFacts SumFacts.
Local Open Scope Q_scope.

Lemma le_bounds x lo hi :
  (- 2 ^ prec < lo < 2 ^ prec)%Z -> (- 2 ^ prec < hi < 2 ^ prec)%Z ->
  le (of_Z lo) x -> le x (of_Z hi) ->
  is_finite x = true /\ inject_Z lo <= to_Q x /\ to_Q x <= inject_Z hi.
Proof.
  intros Hlo Hhi L U.
  destruct (of_Z_small lo Hlo) as [Fl El]. destruct (of_Z_small hi Hhi) as [Fh Eh].
  destruct (le_cases _ _ L) as [E | [-> | (_ & Fx & Lx)]].
  - rewrite E in Fl. discriminate Fl.
  - destruct (le_cases _ _ U) as [E | [E | (F & _)]];
      [discriminate E | rewrite E in Fh; discriminate Fh | discriminate F].
  - destruct (le_cases _ _ U) as [E | [E | (_ & _ & Ux)]];
      [rewrite E in Fx; discriminate Fx | rewrite E in Fh; discriminate Fh |].
    split; [exact Fx | lra].
Qed.

Lemma bounded_by_weaken m m' t : bounded_by m t -> m <= m' -> bounded_by m' t.
Proof. intros (F & L & U) H. split; [exact F | split; lra]. Qed.

Lemma of_Z_bounded n b :
  (- b <= n <= b)%Z -> (b < 2 ^ prec)%Z -> bounded_by (inject_Z b) (of_Z n).
Proof.
  intros [L U] H. destruct (of_Z_small n) as [F E]; [lia |].
  split; [exact F |]. rewrite E, <- inject_Z_opp, <- !Zle_Qle. lia.
Qed.

Lemma mul_bounded x y b :
  is_finite x = true -> is_finite y = true ->
  - b <= to_Q x * to_Q y -> to_Q x * to_Q y <= b -> b <= big ->
  bounded_by (b + (1 # 2)) (mul x y).
Proof.
  intros Fx Fy L U B. destruct (mul_small x y Fx Fy) as (F & A1 & A2); try lra.
  split; [exact F | split; lra].
Qed.

Lemma div_bounded x m e b :
  is_finite x = true ->
  - b <= to_Q x / to_Q (S754_finite false m e) ->
  to_Q x / to_Q (S754_finite false m e) <= b -> b <= big ->
  bounded_by (b + (1 # 2)) (div x (S754_finite false m e)).
Proof.
  intros Fx L U B. rewrite (div_finite x m e Fx).
  destruct (of_Q_below_big (xorb (sign x) false)
              (to_Q x / to_Q (S754_finite false m e))) as (F & A1 & A2);
    try lra.
  split; [exact F | split; lra].
Qed.

Lemma product_bound c q k h :
  - k <= c -> c <= k -> - h <= q -> q <= h ->
  - (k * h) <= c * q /\ c * q <= k * h.
Proof. intros. split; nra. Qed.

Lemma mul_bounded_by k h x y :
  bounded_by k x -> bounded_by h y -> k * h <= big ->
  bounded_by (k * h + (1 # 2)) (mul x y).
Proof.
  intros (Fx & Lx & Ux) (Fy & Ly & Uy) B.
  destruct (product_bound (to_Q x) (to_Q y) k h) as [L U]; try assumption.
  apply mul_bounded; assumption.
Qed.

Lemma div_1000_bounded_by h x :
  bounded_by h x -> h <= big ->
  bounded_by (h * (1 # 1000) + (1 # 2)) (div x (of_Z 1000)).
Proof.
  intros (Fx & Lx & Ux) B.
  change (of_Z 1000) with (S754_finite false 8796093022208000 (-43)).
  assert (E : to_Q (S754_finite false 8796093022208000 (-43)) == 1000)
    by (vm_compute; reflexivity).
  apply div_bounded;
    [assumption
    | rewrite E; unfold Qdiv; change (/ 1000) with (1 # 1000); lra
    | rewrite E; unfold Qdiv; change (/ 1000) with (1 # 1000); lra
    | lra].
Qed.

Lemma of_Z_bounded_by n b :
  (- b <= n <= b)%Z -> (b < 2 ^ prec)%Z -> bounded_by (b # 1) (of_Z n).
Proof. exact (of_Z_bounded n b). Qed.

Lemma le_bounded_by x b :
  (0 <= b < 2 ^ prec)%Z ->
  le (of_Z (- b)) x -> le x (of_Z b) -> bounded_by (b # 1) x.
Proof.
  intros Hb L U. destruct (le_bounds x (- b) b) as (F & A & B); try lia;
    try assumption.
  split; [exact F |]. rewrite inject_Z_opp in A. split; assumption.
Qed.

Lemma nonneg_bounded_by x b :
  (0 <= b < 2 ^ prec)%Z ->
  le zero x -> le x (of_Z b) -> bounded_by (b # 1) x.
Proof.
  intros Hb L U. change zero with (of_Z 0) in L.
  destruct (le_bounds x 0 b) as (F & A & B); try lia; try assumption.
  split; [exact F |]. change (inject_Z 0) with 0 in A.
  assert (0 <= inject_Z b) by lra. split; [| assumption].
  change (b # 1) with (inject_Z b). lra.
Qed.

Abbreviation term_bound := (10000000000000 # 1).

Ltac small := unfold prec; lia.
Ltac weaken := eapply bounded_by_weaken; [| lra].

End BoundFacts.

(** ** Roundings of small magnitude *)

(** Below [2^(53+k)] a rounding is off by at most [2^k / 2]. *)
Module ScaledFacts.
Import F64 F64Facts RoundFacts OfQFacts OrderFacts MonoFacts SmallFacts SumFacts.
Import BoundFacts.
Local Open Scope Q_scope.

Lemma qexp_scaled q k :
  0 < q -> (emin <= k)%Z -> q < pow2 (prec + k) -> (qexp q <= k)%Z.
Proof.
  intros Hq Hk H. destruct (ilog2_spec q Hq) as [A _].
  assert (L : pow2 (ilog2 q) < pow2 (prec + k)) by lra.
  apply pow2_lt_inv in L. unfold qexp, prec in *. lia.
Qed.

Lemma round_Q_error_scaled q k :
  (emin <= k)%Z -> - pow2 (prec + k) < q -> q < pow2 (prec + k) ->
  - (pow2 k * (1 # 2)) <= round_Q q - q /\ round_Q q - q <= pow2 k * (1 # 2).
Proof.
  intros Hk L U. assert (Pk := pow2_pos k).
  assert (B : forall p, 0 < p -> p < pow2 (prec + k) ->
                - (pow2 k * (1 # 2)) <= round_pos p - p /\
                round_pos p - p <= pow2 k * (1 # 2)).
  { intros p Hp Hs. assert (E := round_pos_error p Hp).
    assert (He := qexp_scaled p k Hp Hk Hs).
    assert (P1 : pow2 (qexp p) <= pow2 k) by (apply pow2_le; exact He).
    assert (P0 := pow2_pos (qexp p)).
    apply Qabs_Qle_condition in E. lra. }
  destruct (Q_dec q 0) as [[H | H] | H].
  - rewrite (round_Q_neg q H). destruct (B (- q)); lra.
  - rewrite (round_Q_pos q H). destruct (B q); lra.
  - rewrite (round_Q_zero q H). lra.
Qed.

Lemma of_Q_scaled zs q k b u :
  (emin <= k <= 0)%Z -> b < pow2 (prec + k) -> pow2 k * (1 # 2) <= u ->
  - b <= q -> q <= b ->
  is_finite (of_Q zs q) = true /\
  - u <= to_Q (of_Q zs q) - q /\ to_Q (of_Q zs q) - q <= u.
Proof.
  intros Hk Hb Hu L U.
  destruct (round_Q_error_scaled q k) as [A B]; [lia | lra | lra |].
  assert (P1 : pow2 (prec + k) <= pow2 prec) by (apply pow2_le; lia).
  assert (P2 : pow2 k <= pow2 0) by (apply pow2_le; lia).
  change (pow2 0) with 1 in P2.
  assert (P3 : pow2 0 <= pow2 prec) by (apply pow2_le; unfold prec; lia).
  change (pow2 0) with 1 in P3.
  assert (P4 : pow2 (prec + 1) < pow2 emax)
    by (apply pow2_lt; unfold prec, emax; lia).
  rewrite pow2_succ in P4. assert (Pk := pow2_pos k).
  destruct (of_Q_spec zs q) as [(_ & F & E) | [(C & _) | (C & _)]];
    [| exfalso; lra | exfalso; lra].
  split; [exact F |]. rewrite E. split; lra.
Qed.

Lemma mul_scaled x y k b u :
  is_finite x = true -> is_finite y = true ->
  (emin <= k <= 0)%Z -> b < pow2 (prec + k) -> pow2 k * (1 # 2) <= u ->
  - b <= to_Q x * to_Q y -> to_Q x * to_Q y <= b ->
  is_finite (mul x y) = true /\
  - u <= to_Q (mul x y) - to_Q x * to_Q y /\
  to_Q (mul x y) - to_Q x * to_Q y <= u.
Proof.
  intros Fx Fy. rewrite (mul_finite x y Fx Fy). apply of_Q_scaled.
Qed.

Lemma add_scaled x y k b u :
  is_finite x = true -> is_finite y = true ->
  (emin <= k <= 0)%Z -> b < pow2 (prec + k) -> pow2 k * (1 # 2) <= u ->
  - b <= to_Q x + to_Q y -> to_Q x + to_Q y <= b ->
  is_finite (add x y) = true /\
  - u <= to_Q (add x y) - (to_Q x + to_Q y) /\
  to_Q (add x y) - (to_Q x + to_Q y) <= u.
Proof.
  intros Fx Fy. rewrite (add_finite x y Fx Fy). apply of_Q_scaled.
Qed.

Lemma div_1000_scaled x k b u :
  is_finite x = true ->
  (emin <= k <= 0)%Z -> b < pow2 (prec + k) -> pow2 k * (1 # 2) <= u ->
  - b <= to_Q x * (1 # 1000) -> to_Q x * (1 # 1000) <= b ->
  is_finite (div x (of_Z 1000)) = true /\
  - u <= to_Q (div x (of_Z 1000)) - to_Q x * (1 # 1000) /\
  to_Q (div x (of_Z 1000)) - to_Q x * (1 # 1000) <= u.
Proof.
  intros Fx Hk Hb Hu L U.
  change (of_Z 1000) with (S754_finite false 8796093022208000 (-43)).
  rewrite (div_finite x _ _ Fx).
  assert (E : to_Q x / to_Q (S754_finite false 8796093022208000 (-43)) ==
              to_Q x * (1 # 1000)).
  { assert (T : to_Q (S754_finite false 8796093022208000 (-43)) == 1000)
      by (vm_compute; reflexivity).
    rewrite T. unfold Qdiv. change (/ 1000) with (1 # 1000). reflexivity. }
  destruct (of_Q_scaled (xorb (sign x) false)
              (to_Q x / to_Q (S754_finite false 8796093022208000 (-43)))
              k b u Hk Hb Hu) as (F & A & B).
  - rewrite E. exact L.
  - rewrite E. exact U.
  - split; [exact F |]. rewrite <- E. split; assumption.
Qed.

(** A left-to-right float sum whose partial sums stay below [2^(53+k)]
    differs from the exact sum by at most [u] for each term. *)
Lemma fold_add_scaled k u m ts :
  (emin <= k <= 0)%Z -> pow2 k * (1 # 2) <= u -> 0 <= m ->
  forall p b,
    Forall (bounded_by m) ts ->
    is_finite p = true -> - b <= to_Q p -> to_Q p <= b ->
    b + count ts * (m + u) < pow2 (prec + k) ->
    is_finite (fold_left add ts p) = true /\
    - (count ts * u) <= to_Q (fold_left add ts p) - (to_Q p + term_sum ts) /\
    to_Q (fold_left add ts p) - (to_Q p + term_sum ts) <= count ts * u.
Proof.
  intros Hk Hu Hm. assert (Pk := pow2_pos k). assert (U0 : 0 <= u) by lra.
  induction ts as [| t ts IH]; intros p b Hts Fp Lp Up Hb.
  - cbn [fold_left term_sum fold_right]. unfold term_count. cbn [List.length].
    change (inject_Z (Z.of_nat 0)) with 0. repeat split; try assumption; lra.
  - assert (Ht := Forall_inv Hts). apply Forall_inv_tail in Hts.
    destruct Ht as (Ft & Lt & Ut).
    assert (C := count_cons t ts). assert (N := count_nonneg ts).
    assert (Hb' : b + m + u + count ts * (m + u) < pow2 (prec + k)).
    { rewrite C in Hb.
      setoid_replace ((count ts + 1) * (m + u))
        with (count ts * (m + u) + m + u) in Hb by ring.
      lra. }
    assert (K : 0 <= count ts * (m + u)) by (apply Qmult_le_0_compat; lra).
    destruct (add_scaled p t k (b + m) u Fp Ft Hk) as (Fa & La & Ua);
      [lra | exact Hu | lra | lra |].
    cbn [fold_left term_sum fold_right].
    destruct (IH (add p t) (b + m + u) Hts Fa) as (F & L & U);
      try lra.
    fold (term_sum ts) in *.
    split; [exact F |]. rewrite C. split; lra.
Qed.

End ScaledFacts.

(** ** The square the C library returns *)

Module SquareFacts.
Import F64 F64Facts RoundFacts OfQFacts OrderFacts MonoFacts SmallFacts SumFacts.
Import BoundFacts ScaledFacts.
Local Open Scope Q_scope.

(** A mantissa of at most 53 bits with a small exponent is a finite float
    of that value. *)
Lemma build_small s m e :
  (0 <= m <= 2 ^ prec)%Z -> (e < emax - prec)%Z ->
  is_finite (build s (normalize (m, e))) = true /\
  to_Q (build s (normalize (m, e))) == sgn s * (inject_Z m * pow2 e).
Proof.
  intros [Hm0 Hm1] He. unfold normalize.
  destruct (Z.eqb_spec m (2 ^ prec)) as [-> | Hne].
  - change (2 ^ (prec - 1))%Z with 4503599627370496%Z. cbn [build].
    destruct (Z.gtb_spec (e + 1) (emax - prec)) as [G | G]; [lia |].
    split; [reflexivity |]. cbn [to_Q]. rewrite pow2_succ. unfold prec.
    change (inject_Z (2 ^ 53)) with (9007199254740992 # 1).
    change (inject_Z 4503599627370496) with (4503599627370496 # 1).
    unfold sgn. destruct s; ring.
  - destruct m as [| p | p]; [| | lia].
    + cbn [build is_finite to_Q]. split; [reflexivity |]. ring.
    + cbn [build]. destruct (Z.gtb_spec e (emax - prec)) as [G | G]; [lia |].
      split; [reflexivity |]. cbn [to_Q]. ring.
Qed.

(** Below [2^(53+k)] either neighbour of a positive rational is a finite
    float at most [2^k] away from it, and not negative. *)
Lemma faithful_small up q k :
  0 < q -> (emin <= k <= 0)%Z -> q < pow2 (prec + k) ->
  is_finite (faithful up q) = true /\
  - pow2 k <= to_Q (faithful up q) - q /\
  to_Q (faithful up q) - q <= pow2 k /\
  0 <= to_Q (faithful up q).
Proof.
  intros Hq Hk Hs. unfold faithful. cbv zeta.
  assert (He := qexp_scaled q k Hq ltac:(lia) Hs).
  assert (Hu := qexp_upper q Hq).
  assert (P := pow2_pos (qexp q)).
  assert (Pk : pow2 (qexp q) <= pow2 k) by (apply pow2_le; exact He).
  set (e := qexp q) in *. set (t := q / pow2 e).
  assert (Et : q == t * pow2 e) by (unfold t; field; lra).
  assert (T0 : 0 < t).
  { unfold t. apply Qlt_shift_div_l; [exact P | lra]. }
  assert (T1 : t < inject_Z (2 ^ prec)).
  { unfold t. apply Qlt_shift_div_r; [exact P |].
    rewrite <- (pow2_Z prec) by (unfold prec; lia).
    rewrite <- pow2_add, Z.add_comm. exact Hu. }
  assert (F0 := Qfloor_le t). assert (F1 := Qlt_floor t).
  assert (C0 := Qle_ceiling t). assert (C1 := Qceiling_lt t).
  rewrite inject_Z_plus in F1. change (inject_Z 1) with 1 in F1.
  unfold Z.sub in C1. rewrite inject_Z_plus in C1.
  change (inject_Z (- (1))) with (- (1)) in C1.
  assert (Fn : (0 <= Qfloor t)%Z).
  { change 0%Z with (Qfloor 0). apply Qfloor_resp_le. lra. }
  assert (Cn : (Qceiling t <= 2 ^ prec)%Z).
  { rewrite <- (Qceiling_Z (2 ^ prec)). apply Qceiling_resp_le. lra. }
  assert (FC : (Qfloor t <= Qceiling t)%Z).
  { rewrite Zle_Qle. lra. }
  set (m := if (Qfloor t <? Qceiling t)%Z && up then Qceiling t else Qfloor t).
  assert (Hm : (0 <= m <= 2 ^ prec)%Z /\
               inject_Z (Qfloor t) <= inject_Z m /\
               inject_Z m <= inject_Z (Qceiling t)).
  { unfold m. destruct ((Qfloor t <? Qceiling t)%Z && up).
    - split; [lia |]. split; [rewrite <- Zle_Qle; exact FC | lra].
    - split; [lia |]. split; [lra | rewrite <- Zle_Qle; exact FC]. }
  destruct Hm as (Hm & M0 & M1).
  destruct (build_small false m e Hm) as [F E];
    [unfold emax, prec in *; lia |].
  split; [exact F |]. rewrite E. unfold sgn.
  assert (M2 : 0 <= inject_Z m)
    by (change 0 with (inject_Z 0); rewrite <- Zle_Qle; lia).
  assert (D : - pow2 e <= inject_Z m * pow2 e - q /\
              inject_Z m * pow2 e - q <= pow2 e).
  { rewrite Et. split; nra. }
  destruct D as [D0 D1]. repeat split; try lra.
  apply Qle_trans with (inject_Z m * pow2 e); [| lra].
  apply Qmult_le_0_compat; lra.
Qed.

Section Square.

Context {L : Libm}.

Lemma square_not_nan x : is_nan (square x) = is_nan x.
Proof.
  unfold square, Py.float_pow2. destruct x as [s | s | | s m e];
    try reflexivity.
  destruct (eqb _ _); [reflexivity |].
  unfold Py.libm_pow2, faithful. cbv zeta.
  destruct (normalize _) as [m' e']. unfold build.
  destruct m'; [reflexivity | destruct (_ >? _)%Z; reflexivity | reflexivity].
Qed.

(** The square of a finite float whose exact square is below [2^(53+k)]
    is finite, at most [2^k] away from the exact square, and not
    negative. *)
Lemma square_small x k b u :
  is_finite x = true ->
  (emin <= k <= 0)%Z -> b < pow2 (prec + k) -> pow2 k <= u ->
  to_Q x * to_Q x <= b ->
  is_finite (square x) = true /\
  - u <= to_Q (square x) - to_Q x * to_Q x /\
  to_Q (square x) - to_Q x * to_Q x <= u /\
  0 <= to_Q (square x).
Proof.
  intros F Hk Hb Hu B. assert (Pk := pow2_pos k).
  unfold square, Py.float_pow2.
  destruct x as [s | s | | s m e]; try discriminate F.
  - cbn [is_finite to_Q]. repeat split; try reflexivity; lra.
  - destruct (eqb (abs (S754_finite s m e)) (of_Z 1)) eqn:E1.
    + unfold eqb in E1. cbn [abs] in E1.
      rewrite (compare_finite (S754_finite false m e) (of_Z 1)) in E1
        by reflexivity.
      assert (V : to_Q (S754_finite false m e) == 1).
      { destruct (Qcompare_spec (to_Q (S754_finite false m e)) (to_Q (of_Z 1)))
          as [V | V | V]; try discriminate E1.
        rewrite V. vm_compute. reflexivity. }
      assert (Q : to_Q (S754_finite s m e) * to_Q (S754_finite s m e) == 1).
      { cbn [to_Q] in *. unfold sgn in *. destruct s; nra. }
      assert (O : to_Q (of_Z 1) == 1) by (vm_compute; reflexivity).
      split; [vm_compute; reflexivity |]. rewrite O, Q. repeat split; lra.
    + cbn [abs]. unfold Py.libm_pow2.
      assert (Q : to_Q (S754_finite false m e) * to_Q (S754_finite false m e)
                  == to_Q (S754_finite s m e) * to_Q (S754_finite s m e)).
      { cbn [to_Q]. unfold sgn. destruct s; ring. }
      assert (V := finite_value_pos m e).
      assert (Hq : 0 < to_Q (S754_finite false m e) * to_Q (S754_finite false m e)).
      { cbn [to_Q]. unfold sgn. nra. }
      destruct (faithful_small
                  (pow_rounds_up (S754_finite false m e))
                  (to_Q (S754_finite false m e) * to_Q (S754_finite false m e))
                  k Hq Hk) as (Ff & A & B' & N); [lra |].
      split; [exact Ff |]. rewrite <- Q. repeat split; lra.
Qed.

(** The square of a float of magnitude at most [h]. *)
Lemma square_bounded_by h x k :
  bounded_by h x ->
  (emin <= k <= 0)%Z -> h * h < pow2 (prec + k) ->
  bounded_by (h * h + pow2 k) (square x).
Proof.
  intros (F & Lx & Ux) Hk Hb. assert (Pk := pow2_pos k).
  destruct (square_small x k (h * h) (pow2 k) F Hk Hb) as (Fs & A & B & N);
    [lra | nra |].
  split; [exact Fs |]. split; [| nra].
  assert (0 <= h * h) by nra. lra.
Qed.

(** The square depends on the library only through its choice at the
    magnitude of the argument. *)
Lemma square_choice (L' : Libm) x :
  pow_rounds_up (Libm := L) (abs x) = pow_rounds_up (Libm := L') (abs x) ->
  square (L := L) x = square (L := L') x.
Proof.
  intros H. unfold square, Py.float_pow2, Py.libm_pow2.
  destruct x; try reflexivity. rewrite H. reflexivity.
Qed.

End Square.

End SquareFacts.

(** ** The price as a function of the bedrooms *)

Module BedroomFacts.
Import F64 F64Facts RoundFacts OfQFacts OrderFacts MonoFacts SmallFacts SumFacts.
Import BoundFacts ClosedForm ScaledFacts SquareFacts.
Local Open Scope Q_scope.

Ltac closed_bound :=
  split; [vm_compute; reflexivity | split; vm_compute; discriminate].

Lemma square_size_bounded {lm : Libm} x :
  bounded_by 1000000 x ->
  bounded_by (1000000 * 1000000 + (1 # 2)) (square x).
Proof.
  intros B. eapply bounded_by_weaken.
  - apply (square_bounded_by _ x (-10) B); [unfold emin; lia |].
    vm_compute. reflexivity.
  - assert (E : pow2 (-10) == 1 # 1024) by (vm_compute; reflexivity).
    rewrite E. lra.
Qed.

Lemma square_rent_bounded {lm : Libm} x :
  bounded_by 10000000 x ->
  bounded_by (10000000 * 10000000 + (1 # 2)) (square x).
Proof.
  intros B. eapply bounded_by_weaken.
  - apply (square_bounded_by _ x (-6) B); [unfold emin; lia |].
    vm_compute. reflexivity.
  - assert (E : pow2 (-6) == 1 # 64) by (vm_compute; reflexivity).
    rewrite E. lra.
Qed.

(** Every term of the price is finite and of magnitude at most [10^13] on
    inputs within the bounds, and no exception is raised. *)
Lemma numeric_float_terms_bounded {lm : Libm} f :
  within_bounds f -> Forall (bounded_by term_bound) (numeric_float_terms f).
Proof.
  intros (S0 & S1 & Hb & Ha & R0 & R1 & G0 & G1 & Ht).
  assert (Bs := nonneg_bounded_by (size f) 1000000 ltac:(small) S0 S1).
  assert (Br := nonneg_bounded_by (avg_local_rent f) 10000000 ltac:(small) R0 R1).
  assert (Bg := le_bounded_by (growth_rate f) 1000 ltac:(small) G0 G1).
  unfold numeric_float_terms. repeat apply Forall_cons; [| | | | | | | | | apply Forall_nil].
  - eapply bounded_by_weaken;
      [apply (mul_bounded_by 2500 1000000);
       [apply (of_Z_bounded_by 2500 2500); [lia | small] | exact Bs | lra] | lra].
  - eapply bounded_by_weaken;
      [apply (of_Z_bounded_by _ 800000000); [lia | small] | lra].
  - eapply bounded_by_weaken;
      [apply (of_Z_bounded_by _ 400000000); [lia | small] | lra].
  - eapply bounded_by_weaken;
      [apply (mul_bounded_by 15 10000000);
       [apply (of_Z_bounded_by 15 15); [lia | small] | exact Br | lra] | lra].
  - eapply bounded_by_weaken;
      [apply (mul_bounded_by 8000000 1000);
       [apply (of_Z_bounded_by 8000000 8000000); [lia | small] | exact Bg | lra]
      | lra].
  - eapply bounded_by_weaken;
      [apply div_1000_bounded_by;
       [apply (mul_bounded_by 1 (1000000 * 1000000 + (1 # 2)));
        [split; [vm_compute; reflexivity | split; vm_compute; discriminate]
        | apply square_size_bounded, Bs | lra]
       | lra]
      | lra].
  - eapply bounded_by_weaken;
      [apply div_1000_bounded_by;
       [apply (mul_bounded_by 1 (10000000 * 10000000 + (1 # 2)));
        [split; [vm_compute; reflexivity | split; vm_compute; discriminate]
        | apply square_rent_bounded, Br | lra]
       | lra]
      | lra].
  - eapply bounded_by_weaken;
      [apply (of_Z_bounded_by _ 200000000000); [nia | small] | lra].
  - eapply bounded_by_weaken;
      [apply (mul_bounded_by 5000000 (1000 * 1000 + (1 # 2)));
       [apply (of_Z_bounded_by 5000000 5000000); [lia | small]
       | apply mul_bounded_by;
         [apply (of_Z_bounded_by _ 1000); [lia | small] | exact Bg | lra]
       | lra]
      | lra].
Qed.

Lemma categorical_float_terms_bounded f :
  Forall (bounded_by term_bound) (categorical_float_terms f).
Proof.
  unfold categorical_float_terms.
  repeat (apply Forall_app; split);
    repeat match goal with
           | |- context [if ?c then _ else _] => destruct c
           end;
    repeat first [apply Forall_nil | apply Forall_cons; [closed_bound |]].
Qed.

Lemma categorical_float_terms_length f :
  (List.length (categorical_float_terms f) <= 5)%nat.
Proof.
  unfold categorical_float_terms. rewrite !length_app.
  repeat match goal with
         | |- context [if ?c then _ else _] => destruct c
         end; cbn [List.length]; lia.
Qed.

Lemma float_terms_bounded {lm : Libm} f :
  within_bounds f -> Forall (bounded_by term_bound) (float_terms f).
Proof.
  intros W. unfold float_terms. apply Forall_app. split.
  - apply numeric_float_terms_bounded, W.
  - apply categorical_float_terms_bounded.
Qed.

Lemma float_terms_count {lm : Libm} f :
  term_count (float_terms f) == 9 + term_count (categorical_float_terms f) /\
  term_count (categorical_float_terms f) <= 5.
Proof.
  unfold term_count, float_terms. rewrite length_app.
  assert (L := categorical_float_terms_length f).
  unfold numeric_float_terms. cbn [List.length].
  rewrite Nat2Z.inj_add, inject_Z_plus. split; [reflexivity |].
  change 5 with (inject_Z 5). rewrite <- Zle_Qle. lia.
Qed.

Lemma no_exception_within_bounds {lm : Libm} f : within_bounds f -> no_exception f = true.
Proof.
  intros W. assert (N := numeric_float_terms_bounded f W).
  destruct W as (S0 & S1 & Hb & Ha & R0 & R1 & G0 & G1 & Ht).
  assert (Bs := nonneg_bounded_by (size f) 1000000 ltac:(small) S0 S1).
  assert (Br := nonneg_bounded_by (avg_local_rent f) 10000000 ltac:(small) R0 R1).
  assert (Qs : is_finite (square (size f)) = true)
    by (apply (square_size_bounded _ Bs)).
  assert (Qr : is_finite (square (avg_local_rent f)) = true)
    by (apply (square_rent_bounded _ Br)).
  assert (Ft : is_finite (of_Z (city_tier f)) = true)
    by (apply (of_Z_bounded_by _ 1000); [lia | small]).
  unfold numeric_float_terms in N.
  repeat match goal with
         | H : Forall _ (_ :: _) |- _ =>
             let H' := fresh "B" in
             pose proof (proj1 (Forall_inv H)) as H'; apply Forall_inv_tail in H
         end.
  unfold no_exception, square_overflows. rewrite Qs, Qr, Ft.
  repeat match goal with
         | H : is_finite ?t = true |- context [is_finite ?t] => rewrite H
         end.
  rewrite !andb_false_r. reflexivity.
Qed.

(** On inputs within the bounds the accumulated price is finite and at most
    seven units away from the exact sum of its terms. *)
Lemma float_accumulated_close {lm : Libm} f :
  within_bounds f ->
  is_finite (float_accumulated f) = true /\
  - 7 <= to_Q (float_accumulated f) - (3000000 + term_sum (float_terms f)) /\
  to_Q (float_accumulated f) - (3000000 + term_sum (float_terms f)) <= 7.
Proof.
  intros W. destruct (float_terms_count f) as [C1 C2].
  assert (C0 := count_nonneg (categorical_float_terms f)).
  assert (E : to_Q (of_Z 3000000) == 3000000) by (vm_compute; reflexivity).
  destruct (fold_add_small term_bound (float_terms f) (of_Z 3000000) 3000000)
    as (F & L & U).
  - apply float_terms_bounded, W.
  - vm_compute. reflexivity.
  - rewrite E. lra.
  - rewrite E. lra.
  - lra.
  - rewrite C1. lra.
  - fold (float_accumulated f) in *. rewrite E, C1 in *.
    split; [exact F | split; lra].
Qed.

End BedroomFacts.

Module BedroomEffect.
Import F64 F64Facts RoundFacts OfQFacts OrderFacts MonoFacts SmallFacts SumFacts.
Import BoundFacts ClosedForm BedroomFacts.
Local Open Scope Q_scope.

(** The exact sums of the terms of two records that differ in the bedrooms
    only differ by the bedroom term and the tier-bedroom term. *)
Lemma term_sum_bedrooms {lm : Libm} f b1 b2 :
  within_bounds (with_bedrooms b1 f) -> within_bounds (with_bedrooms b2 f) ->
  term_sum (float_terms (with_bedrooms b2 f)) -
  term_sum (float_terms (with_bedrooms b1 f)) ==
  inject_Z ((800000 - 200000 * city_tier f) * (b2 - b1)).
Proof.
  intros W1 W2.
  destruct W1 as (_ & _ & Hb1 & _ & _ & _ & _ & _ & Ht).
  destruct W2 as (_ & _ & Hb2 & _ & _ & _ & _ & _ & _).
  cbn [with_bedrooms bedrooms city_tier] in *.
  unfold float_terms. rewrite !term_sum_app.
  change (categorical_float_terms (with_bedrooms b2 f))
    with (categorical_float_terms (with_bedrooms b1 f)).
  unfold numeric_float_terms, term_sum at 1 3.
  cbn [fold_right with_bedrooms size bedrooms bathrooms avg_local_rent
         growth_rate city_tier].
  destruct (of_Z_small (800000 * b1)) as [_ E1]; [small |].
  destruct (of_Z_small (800000 * b2)) as [_ E2]; [small |].
  destruct (of_Z_small (-200000 * (city_tier f * b1))) as [_ E3];
    [unfold prec; nia |].
  destruct (of_Z_small (-200000 * (city_tier f * b2))) as [_ E4];
    [unfold prec; nia |].
  rewrite E1, E2, E3, E4.
  replace ((800000 - 200000 * city_tier f) * (b2 - b1))%Z
    with (800000 * b2 + -200000 * (city_tier f * b2)
          - (800000 * b1 + -200000 * (city_tier f * b1)))%Z by ring.
  unfold Z.sub. rewrite !inject_Z_plus, inject_Z_opp, !inject_Z_plus. ring.
Qed.

Lemma float_accumulated_bedrooms {lm : Libm} f b1 b2 :
  within_bounds (with_bedrooms b1 f) -> within_bounds (with_bedrooms b2 f) ->
  inject_Z ((800000 - 200000 * city_tier f) * (b2 - b1)) - 14 <=
  to_Q (float_accumulated (with_bedrooms b2 f)) -
  to_Q (float_accumulated (with_bedrooms b1 f)) /\
  to_Q (float_accumulated (with_bedrooms b2 f)) -
  to_Q (float_accumulated (with_bedrooms b1 f)) <=
  inject_Z ((800000 - 200000 * city_tier f) * (b2 - b1)) + 14.
Proof.
  intros W1 W2. assert (D := term_sum_bedrooms f b1 b2 W1 W2).
  destruct (float_accumulated_close _ W1) as (_ & L1 & U1).
  destruct (float_accumulated_close _ W2) as (_ & L2 & U2).
  split; lra.
Qed.

(** The accumulated price is of magnitude at most [2 * 10^14]. *)
Lemma float_accumulated_bounded {lm : Libm} f :
  within_bounds f -> bounded_by (200000000000000 # 1) (float_accumulated f).
Proof.
  intros W. destruct (float_accumulated_close f W) as (F & L & U).
  split; [exact F |].
  assert (B := float_terms_bounded f W).
  destruct (float_terms_count f) as [C1 C2].
  assert (C0 := count_nonneg (categorical_float_terms f)).
  assert (S : - (term_count (float_terms f) * term_bound) <= term_sum (float_terms f)
              /\ term_sum (float_terms f) <= term_count (float_terms f) * term_bound).
  { clear - B. induction (float_terms f) as [| t ts IH].
    - unfold term_count, term_sum. cbn [List.length fold_right].
      change (inject_Z (Z.of_nat 0)) with 0. split; lra.
    - assert (Ht := Forall_inv B). apply Forall_inv_tail in B.
      destruct Ht as (_ & Lt & Ut). destruct (IH B) as [L U].
      assert (C := count_cons t ts). unfold term_sum in *. cbn [fold_right].
      rewrite C. split; lra. }
  rewrite C1 in S. split; lra.
Qed.

Lemma scaled_lt a1 a2 c :
  bounded_by (200000000000000 # 1) a1 -> bounded_by (200000000000000 # 1) a2 ->
  is_finite c = true -> 1 # 2 <= to_Q c -> to_Q c <= 2 ->
  100 <= to_Q a2 - to_Q a1 ->
  lt (mul a1 c) (mul a2 c).
Proof.
  intros (F1 & L1 & U1) (F2 & L2 & U2) Fc Lc Uc D.
  destruct (product_bound (to_Q a1) (to_Q c) (200000000000000 # 1) 2)
    as [P1 Q1]; try lra.
  destruct (product_bound (to_Q a2) (to_Q c) (200000000000000 # 1) 2)
    as [P2 Q2]; try lra.
  destruct (mul_small a1 c F1 Fc) as (G1 & A1 & B1); try lra.
  destruct (mul_small a2 c F2 Fc) as (G2 & A2 & B2); try lra.
  apply lt_finite; try assumption.
  assert (50 <= (to_Q a2 - to_Q a1) * to_Q c) by nra.
  lra.
Qed.

Lemma gt_of_lt x y : lt x y -> Py.gt (PFloat y) (PFloat x) = true.
Proof.
  unfold lt, ltb, Py.gt. cbn [Py.compare]. rewrite (compare_antisym x y).
  destruct (compare x y) as [[| |] |]; intros H; try discriminate H;
    reflexivity.
Qed.

Lemma float_pre_clamp_bedrooms_lt {lm : Libm} f b1 b2 :
  within_bounds (with_bedrooms b1 f) -> within_bounds (with_bedrooms b2 f) ->
  100 <= to_Q (float_accumulated (with_bedrooms b2 f)) -
         to_Q (float_accumulated (with_bedrooms b1 f)) ->
  lt (float_pre_clamp (with_bedrooms b1 f)) (float_pre_clamp (with_bedrooms b2 f)).
Proof.
  intros W1 W2 D.
  assert (B1 := float_accumulated_bounded _ W1).
  assert (B2 := float_accumulated_bounded _ W2).
  unfold float_pre_clamp.
  change (city_tier (with_bedrooms b1 f)) with (city_tier f).
  change (city_tier (with_bedrooms b2 f)) with (city_tier f).
  destruct (city_tier f =? 1)%Z; [| destruct (city_tier f =? 3)%Z].
  - apply scaled_lt; try assumption;
      [vm_compute; reflexivity | vm_compute; discriminate
      | vm_compute; discriminate].
  - apply scaled_lt; try assumption;
      [vm_compute; reflexivity | vm_compute; discriminate
      | vm_compute; discriminate].
  - apply lt_finite; [apply B1 | apply B2 | lra].
Qed.

End BedroomEffect.

(** ** Accuracy of the float price *)

Module AccuracyFacts.
Import F64 F64Facts RoundFacts OfQFacts OrderFacts MonoFacts SmallFacts SumFacts.
Import BoundFacts BedroomFacts BedroomEffect ScaledFacts SquareFacts.
Local Open Scope Q_scope.

Ltac scale :=
  first [ unfold emin; lia | vm_compute; reflexivity | vm_compute; discriminate ].

(** A product with a finite constant of known value. *)
Lemma mul_const_scaled c cq x k b u :
  is_finite c = true -> to_Q c == cq -> is_finite x = true ->
  (emin <= k <= 0)%Z -> b < pow2 (prec + k) -> pow2 k * (1 # 2) <= u ->
  - b <= cq * to_Q x -> cq * to_Q x <= b ->
  is_finite (mul c x) = true /\
  - u <= to_Q (mul c x) - cq * to_Q x /\
  to_Q (mul c x) - cq * to_Q x <= u.
Proof.
  intros Fc Ec Fx Hk Hb Hu L U. rewrite <- Ec in L, U |- *.
  apply (mul_scaled c x k b u); assumption.
Qed.

Abbreviation u10 := (1 # 1024).
Abbreviation milli := (- 1152921504606847 # 1152921504606846976).

(** The nine numeric terms against the exact ones. *)
Lemma numeric_terms_accuracy {lm : Libm} f :
  within_bounds f ->
  - (7 # 1024) <=
    3000000 + term_sum (numeric_float_terms f)
    + inject_Z (exact_categorical f) - exact_accumulated f /\
  3000000 + term_sum (numeric_float_terms f)
    + inject_Z (exact_categorical f) - exact_accumulated f <= 7 # 1024.
Proof.
  intros (S0 & S1 & Hb & Ha & R0 & R1 & G0 & G1 & Ht).
  destruct (nonneg_bounded_by (size f) 1000000 ltac:(small) S0 S1)
    as (Fs & Ls & Us).
  destruct (nonneg_bounded_by (avg_local_rent f) 10000000 ltac:(small) R0 R1)
    as (Fr & Lr & Ur).
  destruct (le_bounded_by (growth_rate f) 1000 ltac:(small) G0 G1)
    as (Fg & Lg & Ug).
  (* 2500 * size *)
  destruct (mul_const_scaled (of_Z 2500) 2500 (size f) (-9) 2500000000 u10)
    as (_ & A1 & B1); [scale | scale | exact Fs | scale | scale | scale
                       | lra | lra |].
  (* 15 * rent *)
  destruct (mul_const_scaled (of_Z 15) 15 (avg_local_rent f) (-9) 150000000 u10)
    as (_ & A4 & B4); [scale | scale | exact Fr | scale | scale | scale
                       | lra | lra |].
  (* 8000000 * growth *)
  destruct (mul_const_scaled (of_Z 8000000) 8000000 (growth_rate f) (-9)
              8000000000 u10)
    as (_ & A5 & B5); [scale | scale | exact Fg | scale | scale | scale
                       | lra | lra |].
  (* 0.5 * size ** 2 / 1000 *)
  assert (Qs : - 1000000000000 <= to_Q (size f) * to_Q (size f) /\
               to_Q (size f) * to_Q (size f) <= 1000000000000) by (split; nra).
  destruct Qs as [Qs1 Qs2].
  destruct (square_small (size f) (-10) 1000000000000 u10)
    as (F6a & A6a & B6a & _); [exact Fs | scale | scale | scale | exact Qs2 |].
  destruct (mul_const_scaled f_half (1 # 2) (square (size f)) (-9)
              1000000000000 u10)
    as (F6b & A6b & B6b); [scale | scale | exact F6a | scale | scale | scale
                           | lra | lra |].
  destruct (div_1000_scaled (mul f_half (square (size f))) (-9) 1000000000 u10)
    as (_ & A6 & B6); [exact F6b | scale | scale | scale | lra | lra |].
  (* -0.001 * rent ** 2 / 1000 *)
  assert (Qr : - 100000000000000 <= to_Q (avg_local_rent f) * to_Q (avg_local_rent f)
               /\ to_Q (avg_local_rent f) * to_Q (avg_local_rent f)
                  <= 100000000000000) by (split; nra).
  destruct Qr as [Qr1 Qr2].
  destruct (square_small (avg_local_rent f) (-6) 100000000000000 (1 # 64))
    as (F7a & A7a & B7a & _); [exact Fr | scale | scale | scale | exact Qr2 |].
  destruct (mul_const_scaled f_minus_milli milli (square (avg_local_rent f))
              (-9) 1000000000000 u10)
    as (F7b & A7b & B7b); [scale | scale | exact F7a | scale | scale | scale
                           | lra | lra |].
  destruct (div_1000_scaled (mul f_minus_milli (square (avg_local_rent f)))
              (-9) 1000000000 u10)
    as (_ & A7 & B7); [exact F7b | scale | scale | scale | lra | lra |].
  (* 5000000 * (tier * growth) *)
  destruct (of_Z_small (city_tier f)) as [Ft Et]; [small |].
  assert (Tq : 0 <= inject_Z (city_tier f) /\ inject_Z (city_tier f) <= 1000).
  { change 0 with (inject_Z 0). change 1000 with (inject_Z 1000).
    rewrite <- !Zle_Qle. exact Ht. }
  destruct Tq as [Tq1 Tq2].
  destruct (product_bound (inject_Z (city_tier f)) (to_Q (growth_rate f))
              1000 1000) as [P9a P9b]; try lra.
  destruct (mul_const_scaled (of_Z (city_tier f)) (inject_Z (city_tier f))
              (growth_rate f) (-32) 1000000 (1 # 8589934592))
    as (F9a & A9a & B9a); [exact Ft | exact Et | exact Fg | scale | scale
                           | scale | lra | lra |].
  destruct (mul_const_scaled (of_Z 5000000) 5000000
              (mul (of_Z (city_tier f)) (growth_rate f)) (-9)
              5000005000000 u10)
    as (_ & A9 & B9); [scale | scale | exact F9a | scale | scale | scale
                       | lra | lra |].
  (* the int terms are exact *)
  destruct (of_Z_small (800000 * bedrooms f)) as [_ E2]; [small |].
  destruct (of_Z_small (400000 * bathrooms f)) as [_ E3]; [small |].
  destruct (of_Z_small (-200000 * (city_tier f * bedrooms f))) as [_ E8];
    [unfold prec; nia |].
  unfold numeric_float_terms, term_sum, exact_accumulated.
  cbn [fold_right]. cbv zeta. rewrite E2, E3, E8.
  unfold Qdiv. change (/ 1000) with (1 # 1000).
  split; lra.
Qed.

(** The categorical adjustments are exact. *)
Lemma categorical_terms_exact f :
  term_sum (categorical_float_terms f) == inject_Z (exact_categorical f).
Proof.
  unfold categorical_float_terms, exact_categorical.
  repeat match goal with
         | |- context [if ?c then _ else _] => destruct c
         end; vm_compute; reflexivity.
Qed.

(** Within the bounds the accumulated price is finite and within a quarter
    of a rupee of the exact formula. *)
Lemma float_accumulated_accuracy {lm : Libm} f :
  within_bounds f ->
  is_finite (float_accumulated f) = true /\
  - (1 # 4) <= to_Q (float_accumulated f) - exact_accumulated f /\
  to_Q (float_accumulated f) - exact_accumulated f <= 1 # 4.
Proof.
  intros W. destruct (float_terms_count f) as [C1 C2].
  assert (C0 := count_nonneg (categorical_float_terms f)).
  assert (E : to_Q (of_Z 3000000) == 3000000) by (vm_compute; reflexivity).
  assert (P : pow2 (prec + -5) == 281474976710656) by (vm_compute; reflexivity).
  destruct (fold_add_scaled (-5) (1 # 64) term_bound (float_terms f)
              ltac:(scale) ltac:(scale) ltac:(lra)
              (of_Z 3000000) 3000000)
    as (F & L & U).
  - apply float_terms_bounded, W.
  - vm_compute. reflexivity.
  - rewrite E. lra.
  - rewrite E. lra.
  - rewrite P, C1. lra.
  - fold (float_accumulated f) in *. split; [exact F |].
    destruct (numeric_terms_accuracy f W) as [A B].
    assert (T := term_sum_app (numeric_float_terms f) (categorical_float_terms f)).
    fold (float_terms f) in T.
    assert (X := categorical_terms_exact f).
    rewrite E, C1 in *. split; lra.
Qed.

Abbreviation c_1_2 := (5404319552844595 # 4503599627370496).
Abbreviation c_0_6 := (5404319552844595 # 9007199254740992).

(** The same for the price before the clamp, within half a rupee. *)
Lemma float_pre_clamp_accuracy {lm : Libm} f :
  within_bounds f ->
  is_finite (float_pre_clamp f) = true /\
  - (1 # 2) <= to_Q (float_pre_clamp f) - exact_pre_clamp f /\
  to_Q (float_pre_clamp f) - exact_pre_clamp f <= 1 # 2.
Proof.
  intros W. destruct (float_accumulated_accuracy f W) as (F & A & B).
  destruct (float_accumulated_bounded f W) as (_ & L & U).
  unfold float_pre_clamp, exact_pre_clamp, exact_multiplier.
  destruct (city_tier f =? 1)%Z; [| destruct (city_tier f =? 3)%Z].
  - destruct (mul_scaled (float_accumulated f) f_1_2 (-5) 250000000000000
                (1 # 64)) as (F' & A' & B');
      [exact F | scale | scale | scale | scale | | |].
    + assert (E : to_Q f_1_2 == c_1_2) by (vm_compute; reflexivity).
      rewrite E. lra.
    + assert (E : to_Q f_1_2 == c_1_2) by (vm_compute; reflexivity).
      rewrite E. lra.
    + assert (E : to_Q f_1_2 == c_1_2) by (vm_compute; reflexivity).
      split; [exact F' |]. rewrite E in A', B'. split; lra.
  - destruct (mul_scaled (float_accumulated f) f_0_6 (-5) 250000000000000
                (1 # 64)) as (F' & A' & B');
      [exact F | scale | scale | scale | scale | | |].
    + assert (E : to_Q f_0_6 == c_0_6) by (vm_compute; reflexivity).
      rewrite E. lra.
    + assert (E : to_Q f_0_6 == c_0_6) by (vm_compute; reflexivity).
      rewrite E. lra.
    + assert (E : to_Q f_0_6 == c_0_6) by (vm_compute; reflexivity).
      split; [exact F' |]. rewrite E in A', B'. split; lra.
  - split; [exact F |]. split; lra.
Qed.



(** The clamp moves two prices no further apart. *)
Lemma max_accuracy x q :
  is_finite x = true ->
  - (1 # 2) <= to_Q x - q -> to_Q x - q <= 1 # 2 ->
  num_is_finite (Py.max (PFloat x) (PInt 1000000)) = true /\
  - (1 # 2) <= num_value (Py.max (PFloat x) (PInt 1000000))
               - match Qcompare 1000000 q with Gt => 1000000 | _ => q end /\
  num_value (Py.max (PFloat x) (PInt 1000000))
    - match Qcompare 1000000 q with Gt => 1000000 | _ => q end <= 1 # 2.
Proof.
  intros F A B. unfold Py.max, Py.gt.
  replace (Py.compare (PInt 1000000) (PFloat x))
    with (Some (Qcompare (inject_Z 1000000) (to_Q x)))
    by (destruct x; try discriminate F; reflexivity).
  change (inject_Z 1000000) with 1000000.
  destruct (Qcompare_spec 1000000 (to_Q x));
    destruct (Qcompare_spec 1000000 q);
    cbn [num_value num_is_finite];
    change (inject_Z 1000000) with 1000000;
    (split; [first [exact F | reflexivity] | split; lra]).
Qed.

End AccuracyFacts.

(** ** The clamp *)

Module ClampFacts.
Import F64 OrderFacts MonoFacts.

Lemma compare_int_float n x :
  is_finite x = true ->
  Py.compare (PInt n) (PFloat x) = Some (Qcompare (inject_Z n) (to_Q x)).
Proof. destruct x; intros H; try discriminate H; reflexivity. Qed.

Lemma compare_float_int x n :
  is_finite x = true ->
  Py.compare (PFloat x) (PInt n) = Some (Qcompare (to_Q x) (inject_Z n)).
Proof. destruct x; intros H; try discriminate H; reflexivity. Qed.

Lemma max_floor x :
  is_nan x = false ->
  Py.ge (Py.max (PFloat x) (PInt 1000000)) (PInt 1000000) = true.
Proof.
  intros N. destruct (not_nan_cases x N) as [-> | [-> | F]];
    [reflexivity | reflexivity |].
  unfold Py.max, Py.gt. rewrite (compare_int_float _ x F).
  assert (A := Qcompare_antisym (inject_Z 1000000) (to_Q x)).
  destruct (Qcompare (inject_Z 1000000) (to_Q x)); cbn [CompOpp] in A;
    unfold Py.ge; rewrite ?(compare_float_int x _ F), <- ?A; reflexivity.
Qed.

Lemma max_nan : Py.max (PFloat S754_nan) (PInt 1000000) = PFloat S754_nan.
Proof. reflexivity. Qed.

End ClampFacts.

(** The floor of line 105 holds whenever the price before the clamp is not
    NaN; a NaN price passes through the clamp. *)
Lemma calculate_ols_price_floor {lm : Libm} f p :
  calculate_ols_price predictor f = Ok p ->
  (Py.is_nan p = false /\ Py.ge p (PInt 1000000) = true) \/
  (p = PFloat S754_nan /\ pre_clamp_price predictor f = Ok (PFloat S754_nan)).
Proof.
  unfold calculate_ols_price. intros H.
  destruct (pre_clamp_price predictor f) as [q |] eqn:E; [| discriminate H].
  cbn [bind] in H. inversion H; subst p; clear H.
  destruct (ClosedForm.pre_clamp_price_Ok f q E) as [_ ->].
  destruct (F64.is_nan (float_pre_clamp f)) eqn:N.
  - right. destruct (float_pre_clamp f); try discriminate N. auto.
  - left. split; [| apply ClampFacts.max_floor, N].
    unfold Py.max. destruct (Py.gt _ _); [reflexivity | exact N].
Qed.

(** C1 at its failing input: the record is within the types of the data
    model, the price overflows to [+inf] and [-inf], their sum is NaN, the
    clamp returns the NaN, and a NaN is not at least 1,000,000; the request
    handler reports it as a success. *)
Theorem calculate_ols_price_nan {lm : Libm} :
  calculate_ols_price predictor overflowing_features = Ok (PFloat S754_nan) /\
  Py.ge (PFloat S754_nan) (PInt 1000000) = false /\
  (0 <= bedrooms overflowing_features /\ 0 <= bathrooms overflowing_features /\
   F64.lt (S754_zero false) (size overflowing_features) /\
   F64.is_finite (growth_rate overflowing_features) = true).
Proof.
  split; [vm_compute; reflexivity |]. split; [reflexivity |].
  repeat split; vm_compute; try reflexivity; discriminate.
Qed.

(** ** The furnishing field *)

(** Whatever the form holds, [predict] passes the furnishing field on as a
    string, and a string is never equal to the int 4. *)
Lemma read_features_furnishing py_float py_int fm f :
  read_features py_float py_int fm = Ok f ->
  exists s, form_getitem fm "furnishing" = Ok s /\ furnishing f = VStr s /\
            Py.eq_int (furnishing f) 4 = false.
Proof.
  unfold read_features. intros H.
  repeat match type of H with
         | bind ?r _ = Ok _ =>
             let E := fresh "E" in
             destruct r eqn:E; cbn [bind] in H; [| discriminate H]
         end.
  inversion H; subst f; clear H. cbn [furnishing]. eauto.
Qed.

(** C2 at its failing input: the form value ["4"] gives the price of an
    unadjusted furnishing (["2"]); the feature record with the int 4 gives a
    price 600,000 higher (the weight 500,000 times the tier factor 1.2). *)
Theorem predict_ignores_furnishing_4 {lm : Libm} :
  fst (predict plain_float plain_int initial_state furnished_form) =
    PredictSuccess (PFloat (F64.of_Z 87960120)) "₹8.8 Cr" "₹879.6 Lakhs" /\
  fst (predict plain_float plain_int initial_state sample_form) =
    PredictSuccess (PFloat (F64.of_Z 87960120)) "₹8.8 Cr" "₹879.6 Lakhs" /\
  calculate_ols_price predictor (with_furnishing (VNum (PInt 4)) sample_features) =
    Ok (PFloat (F64.of_Z 88560120)) /\
  calculate_ols_price predictor (with_furnishing (VStr "4") sample_features) =
    Ok (PFloat (F64.of_Z 87960120)) /\
  calculate_ols_price predictor (with_furnishing (VStr "other") sample_features) =
    Ok (PFloat (F64.of_Z 88920120)).
Proof. repeat split; vm_compute; reflexivity. Qed.

(** ** The tier multiplier *)

Lemma bind_Ok {A : Type} (r : result A) : (x <- r ;; Ok x) = r.
Proof. destruct r; reflexivity. Qed.

(** C4: the multiplier is applied to the whole accumulated price, 1.2 for
    tier 1, 0.6 for tier 3 and none otherwise; the clamp comes after it; the
    additive tier_2 weight enters the accumulated price for tier 2 only. *)
Theorem tier_multiplier_exclusive {lm : Libm} f :
  (city_tier f = 1 ->
   pre_clamp_price predictor f =
     (p <- accumulated_price predictor f ;; Py.mul p (lit (12 # 10)))) /\
  (city_tier f = 3 ->
   pre_clamp_price predictor f =
     (p <- accumulated_price predictor f ;; Py.mul p (lit (6 # 10)))) /\
  (city_tier f <> 1 -> city_tier f <> 3 ->
   pre_clamp_price predictor f = accumulated_price predictor f) /\
  calculate_ols_price predictor f =
    (p <- pre_clamp_price predictor f ;; Ok (Py.max p (PInt 1000000))) /\
  (city_tier f = 2 ->
   accumulated_price predictor f =
     (p <- numeric_terms predictor f ;;
      p <- Py.add p (PInt (-800000)) ;;
      other_categorical_terms predictor f p)) /\
  (city_tier f <> 2 ->
   accumulated_price predictor f =
     (p <- numeric_terms predictor f ;; other_categorical_terms predictor f p)).
Proof.
  unfold pre_clamp_price, tier_multiplier, accumulated_price, tier_2_term.
  repeat split.
  - intros ->. reflexivity.
  - intros ->. reflexivity.
  - intros H1 H3. apply Z.eqb_neq in H1, H3. rewrite H1, H3. apply bind_Ok.
  - intros ->. reflexivity.
  - intros H2. apply Z.eqb_neq in H2. rewrite H2. reflexivity.
Qed.

Lemma tier_multiplier_exclusive_witness :
  city_tier sample_features = 1 /\
  pre_clamp_price (L := pow_below) predictor sample_features =
    (p <- accumulated_price (L := pow_below) predictor sample_features ;;
     Py.mul p (lit (12 # 10))).
Proof.
  split; [reflexivity |].
  apply (proj1 (tier_multiplier_exclusive (lm := pow_below) sample_features)).
  reflexivity.
Defined.

(** ** The formatter *)

Module FormatFacts.
Import F64 F64Facts OfQFacts OrderFacts MonoFacts PyFacts ClampFacts.

Lemma truediv_float_crore x :
  Py.truediv (PFloat x) (PInt 10000000) =
    Ok (PFloat (F64.div x (F64.of_Z 10000000))).
Proof.
  apply truediv_float_int; [vm_compute; reflexivity |].
  intros s. vm_compute. discriminate.
Qed.

Lemma truediv_float_lakh x :
  Py.truediv (PFloat x) (PInt 100000) =
    Ok (PFloat (F64.div x (F64.of_Z 100000))).
Proof.
  apply truediv_float_int; [vm_compute; reflexivity |].
  intros s. vm_compute. discriminate.
Qed.

Lemma format_float_total x : exists s, format_indian_currency (PFloat x) = Ok s.
Proof.
  unfold format_indian_currency.
  rewrite truediv_float_crore, truediv_float_lakh. cbn [bind].
  destruct (Py.ge (PFloat x) (PInt 10000000));
    [destruct (Py.ge _ (PInt 100)); eexists; reflexivity |].
  destruct (Py.ge (PFloat x) (PInt 100000));
    [destruct (Py.ge _ (PInt 100)); eexists; reflexivity |].
  eexists. reflexivity.
Qed.

Lemma ge_float_int_false x n m :
  (n <= m)%Z ->
  Py.ge (PFloat x) (PInt n) = false -> Py.ge (PFloat x) (PInt m) = false.
Proof.
  intros H. unfold Py.ge.
  destruct (is_finite x) eqn:F.
  - rewrite !(compare_float_int x _ F). rewrite Zle_Qle in H.
    destruct (Qcompare_spec (to_Q x) (inject_Z n)); intros G;
      try discriminate G.
    destruct (Qcompare_spec (to_Q x) (inject_Z m)); try reflexivity;
      exfalso; lra.
  - destruct x as [s | [|] | | s k e]; try discriminate F; cbn [Py.compare];
      intros G; assumption.
Qed.

Lemma negative_below x n :
  (0 <= n)%Z -> lt x (S754_zero false) -> Py.ge (PFloat x) (PInt n) = false.
Proof.
  intros H L.
  assert (N : is_nan x = false) by (destruct x; try discriminate L; reflexivity).
  destruct (not_nan_cases x N) as [-> | [-> | F]];
    [reflexivity | discriminate L |].
  apply lt_finite in L; [| exact F | reflexivity].
  unfold Py.ge. rewrite (compare_float_int x n F).
  rewrite Zle_Qle in H. change (inject_Z 0) with 0%Q in H.
  change (to_Q (S754_zero false)) with 0%Q in L.
  destruct (Qcompare_spec (to_Q x) (inject_Z n)); try reflexivity;
    exfalso; lra.
Qed.

Lemma append_empty s : s ++ "" = s.
Proof. induction s as [| c s IH]; cbn; [| rewrite IH]; reflexivity. Qed.

Lemma format_float_grouped x :
  is_finite x = true -> Py.format_float true 0 x = grouped_integer x.
Proof.
  intros F. unfold grouped_integer.
  assert (E : Py.format_float true 0 x =
              Py.format_finite true 0 (sign x) (to_Q x))
    by (destruct x; try discriminate F; reflexivity).
  rewrite E. unfold Py.format_finite. cbn [Z.of_nat Z.pow].
  change (10 ^ 0)%Z with 1%Z. rewrite Z.div_1_r.
  rewrite (rne_Qeq (Qabs (to_Q x) * inject_Z 1) (Qabs (to_Q x)))
    by (change (inject_Z 1) with 1%Q; ring).
  rewrite append_empty. reflexivity.
Qed.

Lemma finite_between a x b :
  le a x -> le x b -> is_finite a = true -> is_finite b = true ->
  is_finite x = true.
Proof.
  intros L U Fa Fb.
  destruct (le_cases _ _ L) as [E | [-> | (_ & F & _)]];
    [rewrite E in Fa; discriminate Fa | | exact F].
  destruct (le_cases _ _ U) as [E | [E | (F & _)]];
    [discriminate E | rewrite E in Fb; discriminate Fb | discriminate F].
Qed.

Lemma truediv_int_total n d :
  (0 < d <= n)%Z -> is_finite (of_Z n) = true ->
  exists x, Py.truediv (PInt n) (PInt d) = Ok (PFloat x).
Proof.
  intros [Hd Hn] F. unfold Py.truediv.
  destruct (Z.eqb_spec d 0) as [-> | _]; [lia |].
  set (q := (inject_Z n / inject_Z d)%Q).
  assert (Dq : (0 < inject_Z d)%Q)
    by (change 0%Q with (inject_Z 0); rewrite <- Zlt_Qlt; exact Hd).
  assert (D1 : (1 <= inject_Z d)%Q)
    by (change 1%Q with (inject_Z 1); rewrite <- Zle_Qle; lia).
  assert (Nq : (0 <= inject_Z n)%Q)
    by (change 0%Q with (inject_Z 0); rewrite <- Zle_Qle; lia).
  assert (Q0 : (0 <= q)%Q) by (apply Qle_shift_div_l; lra).
  assert (Q1 : (q <= inject_Z n)%Q) by (apply Qle_shift_div_r; [lra | nra]).
  assert (Fx : is_finite (of_Q (xorb (n <? 0) (d <? 0)) q) = true).
  { apply (finite_between (of_Q false 0) _ (of_Z n)).
    - apply of_Q_mono, Q0.
    - apply of_Q_mono, Q1.
    - reflexivity.
    - exact F. }
  rewrite Fx. eauto.
Qed.

Lemma format_int_total n :
  is_finite (of_Z n) = true -> exists s, format_indian_currency (PInt n) = Ok s.
Proof.
  intros F. unfold format_indian_currency.
  destruct (Py.ge (PInt n) (PInt 10000000)) eqn:G1.
  - assert (H : (10000000 <= n)%Z).
    { unfold Py.ge in G1. cbn [Py.compare] in G1.
      destruct (Z.compare_spec n 10000000); try discriminate G1; lia. }
    destruct (truediv_int_total n 10000000) as [x ->]; [lia | exact F |].
    cbn [bind]. destruct (Py.ge _ (PInt 100)); eexists; reflexivity.
  - destruct (Py.ge (PInt n) (PInt 100000)) eqn:G2.
    + assert (H : (100000 <= n)%Z).
      { unfold Py.ge in G2. cbn [Py.compare] in G2.
        destruct (Z.compare_spec n 100000); try discriminate G2; lia. }
      destruct (truediv_int_total n 100000) as [x ->]; [lia | exact F |].
      cbn [bind]. destruct (Py.ge _ (PInt 100)); eexists; reflexivity.
    + unfold Py.format_f, Py.to_float. rewrite (int_to_float_finite n F).
      eexists. reflexivity.
Qed.

End FormatFacts.

(** C10: the formatter returns a string for every float, also a negative,
    infinite or NaN one, and for every int in the range of the floats, which
    are the amounts the data model and the callers have; a float or int
    below 100,000, so every negative one, takes the last branch, and a finite
    one is rendered as the glyph and the grouped integer, no decimals, no
    suffix. *)
Theorem format_total_on_floats :
  (forall x, exists s, format_indian_currency (PFloat x) = Ok s) /\
  (forall n, F64.is_finite (F64.of_Z n) = true ->
     exists s, format_indian_currency (PInt n) = Ok s) /\
  (forall x, F64.lt x (S754_zero false) ->
     Py.ge (PFloat x) (PInt 100000) = false) /\
  (forall x, Py.ge (PFloat x) (PInt 100000) = false ->
     format_indian_currency (PFloat x) = Ok (rupee ++ Py.format_float true 0 x)) /\
  (forall x, Py.ge (PFloat x) (PInt 100000) = false ->
     F64.is_finite x = true ->
     format_indian_currency (PFloat x) = Ok (rupee ++ grouped_integer x)) /\
  (forall n, n < 100000 -> F64.is_finite (F64.of_Z n) = true ->
     format_indian_currency (PInt n) = Ok (rupee ++ grouped_integer (F64.of_Z n))).
Proof.
  assert (B : forall x, Py.ge (PFloat x) (PInt 100000) = false ->
     format_indian_currency (PFloat x) = Ok (rupee ++ Py.format_float true 0 x)).
  { intros x G. unfold format_indian_currency.
    rewrite (FormatFacts.ge_float_int_false x 100000 10000000) by (lia || exact G).
    rewrite G. reflexivity. }
  split; [exact FormatFacts.format_float_total |].
  split; [exact FormatFacts.format_int_total |].
  split; [intros x; apply FormatFacts.negative_below; lia |].
  split; [exact B |]. split.
  - intros x G F. rewrite (B x G), (FormatFacts.format_float_grouped x F).
    reflexivity.
  - intros n Hn F. unfold format_indian_currency.
    assert (G1 : Py.ge (PInt n) (PInt 10000000) = false).
    { unfold Py.ge. cbn [Py.compare].
      destruct (Z.compare_spec n 10000000); try reflexivity; lia. }
    assert (G2 : Py.ge (PInt n) (PInt 100000) = false).
    { unfold Py.ge. cbn [Py.compare].
      destruct (Z.compare_spec n 100000); try reflexivity; lia. }
    rewrite G1, G2. unfold Py.format_f, Py.to_float.
    rewrite (PyFacts.int_to_float_finite n F). cbn [bind].
    rewrite (FormatFacts.format_float_grouped _ F). reflexivity.
Qed.

Lemma format_total_on_floats_witness :
  F64.lt (F64.of_Z (-1234567)) (S754_zero false) /\
  F64.is_finite (F64.of_Z (-1234567)) = true /\
  format_indian_currency (PFloat (F64.of_Z (-1234567))) = Ok "₹-1,234,567".
Proof.
  assert (L : F64.lt (F64.of_Z (-1234567)) (S754_zero false))
    by (vm_compute; reflexivity).
  assert (F : F64.is_finite (F64.of_Z (-1234567)) = true)
    by (vm_compute; reflexivity).
  split; [exact L |]. split; [exact F |].
  destruct format_total_on_floats as (_ & _ & N & _ & G & _).
  rewrite (G _ (N _ L) F). vm_compute. reflexivity.
Defined.

(** Outside the range of the floats an int is converted by the format
    spec or by the true division, whichever branch it takes: [-2^1024]
    takes the last branch and raises, [2^1024] takes the crore branch,
    where its quotient by 10,000,000 is a float, and is formatted. *)
Lemma format_int_beyond_floats :
  format_indian_currency (PInt (- 2 ^ 1024)) =
    Raise (OverflowError "int too large to convert to float") /\
  exists s, format_indian_currency (PInt (2 ^ 1024)) = Ok s.
Proof. split; [| eexists]; vm_compute; reflexivity. Qed.

(** C3, as the code has it: 999,999,999 is in the crores branch, its
    quotient 99.9999999 is below 100, so it is rendered with one decimal,
    which rounds to 100.0. *)
Theorem format_999999999 :
  forall amount, amount = PInt 999999999 \/ amount = PFloat (F64.of_Z 999999999) ->
  exists crores,
    Py.ge amount (PInt 10000000) = true /\
    Py.truediv amount (PInt 10000000) = Ok crores /\
    Py.ge crores (PInt 100) = false /\
    Py.format_f false 1 crores = Ok "100.0" /\
    format_indian_currency amount = Ok "₹100.0 Cr".
Proof.
  intros amount [-> | ->];
    (eexists; split; [vm_compute; reflexivity |];
     split; [vm_compute; reflexivity |];
     repeat split; vm_compute; reflexivity).
Qed.

Lemma format_999999999_witness :
  exists crores,
    Py.ge (PInt 999999999) (PInt 10000000) = true /\
    Py.truediv (PInt 999999999) (PInt 10000000) = Ok crores /\
    Py.ge crores (PInt 100) = false /\
    Py.format_f false 1 crores = Ok "100.0" /\
    format_indian_currency (PInt 999999999) = Ok "₹100.0 Cr".
Proof.
  apply (format_999999999 (PInt 999999999)). left. reflexivity.
Defined.

(** C3 as stated fails: the rendering of 999,999,999 is not the string
    [₹100 Cr], and its crores value is not at least 100. *)
Lemma format_999999999_not_100_Cr :
  format_indian_currency (PInt 999999999) <> Ok "₹100 Cr" /\
  (crores <- Py.truediv (PInt 999999999) (PInt 10000000) ;;
   Ok (Py.ge crores (PInt 100))) = Ok false.
Proof.
  split; [intros H; vm_compute in H; discriminate H | vm_compute; reflexivity].
Qed.

(** C6: the rules are tried in order and split the amounts into the crore,
    lakh and plain renderings; the three boundary amounts render as the
    specification lists them. *)
Theorem format_three_tiers :
  (forall amount,
     format_indian_currency amount =
       if Py.ge amount (PInt 10000000) then crore_rendering amount
       else if Py.ge amount (PInt 100000) then lakh_rendering amount
       else grouped_rendering amount) /\
  format_indian_currency (PInt 10000000) = Ok "₹1.0 Cr" /\
  format_indian_currency (PFloat (F64.of_Z 10000000)) = Ok "₹1.0 Cr" /\
  format_indian_currency (PInt 50000) = Ok "₹50,000" /\
  format_indian_currency (PFloat (F64.of_Z 50000)) = Ok "₹50,000" /\
  (Py.ge (PInt 9999999) (PInt 10000000) = false /\
   Py.ge (PInt 9999999) (PInt 100000) = true /\
   format_indian_currency (PInt 9999999) = Ok "₹100.0 L") /\
  format_indian_currency (PFloat (F64.of_Z 9999999)) = Ok "₹100.0 L".
Proof.
  split.
  - intros amount. unfold format_indian_currency, crore_rendering,
      lakh_rendering, grouped_rendering.
    destruct (Py.ge amount (PInt 10000000)).
    + destruct (Py.truediv amount (PInt 10000000)) as [crores |]; cbn [bind];
        [destruct (Py.ge crores (PInt 100)) |]; reflexivity.
    + destruct (Py.ge amount (PInt 100000)); [| reflexivity].
      destruct (Py.truediv amount (PInt 100000)) as [lakhs |]; cbn [bind];
        [destruct (Py.ge lakhs (PInt 100)) |]; reflexivity.
  - repeat split; vm_compute; reflexivity.
Qed.

(** ** What [calculate_ols_price] returns and raises *)

Module EstimateFacts.
Import PyFacts ClosedForm.

(** The exceptions of the numeric terms are all [OverflowError]. *)
Lemma numeric_terms_overflow {lm : Libm} f :
  no_exception f = false ->
  exists msg, numeric_terms predictor f = Raise (OverflowError msg).
Proof.
  intros E. unfold no_exception in E.
  unfold numeric_terms, add_term, add_term_per_1000, coef.
  cbn [predictor init coefficients Py.getitem String.eqb Ascii.eqb Bool.eqb bind].
  unfold lit.
  destruct (F64.is_finite (F64.of_Z (800000 * bedrooms f))) eqn:E1;
    [| repeat price_step; raises_now add_float_int_raises].
  destruct (F64.is_finite (F64.of_Z (400000 * bathrooms f))) eqn:E2;
    [| repeat price_step; raises_now add_float_int_raises].
  destruct (square_overflows (size f)) eqn:E3;
    [repeat price_step; raises_now pow2_float_raises |].
  destruct (square_overflows (avg_local_rent f)) eqn:E4;
    [repeat price_step; raises_now pow2_float_raises |].
  destruct (F64.is_finite (F64.of_Z (-200000 * (city_tier f * bedrooms f))))
    eqn:E5;
    [| repeat price_step; raises_now add_float_int_raises].
  destruct (F64.is_finite (F64.of_Z (city_tier f))) eqn:E6;
    [discriminate E |].
  repeat price_step. raises_now mul_int_float_raises.
Qed.

Lemma calculate_ols_price_closed {lm : Libm} f :
  no_exception f = true ->
  calculate_ols_price predictor f =
    Ok (Py.max (PFloat (float_pre_clamp f)) (PInt 1000000)).
Proof.
  intros E. unfold calculate_ols_price.
  rewrite (pre_clamp_price_closed f E). reflexivity.
Qed.

Lemma calculate_ols_price_Ok {lm : Libm} f p :
  calculate_ols_price predictor f = Ok p ->
  no_exception f = true /\
  p = Py.max (PFloat (float_pre_clamp f)) (PInt 1000000).
Proof.
  intros H. unfold calculate_ols_price in H.
  destruct (pre_clamp_price predictor f) as [q |] eqn:E; [| discriminate H].
  destruct (pre_clamp_price_Ok f q E) as [N ->]. cbn [bind] in H.
  inversion H. split; [exact N | reflexivity].
Qed.

Lemma max_cases x :
  Py.max (PFloat x) (PInt 1000000) = PFloat x \/
  Py.max (PFloat x) (PInt 1000000) = PInt 1000000.
Proof. unfold Py.max. destruct (Py.gt _ _); auto. Qed.

(** Both strings of the response are produced for a clamped float. *)
Lemma format_clamped_total x :
  (exists s,
     format_indian_currency (Py.max (PFloat x) (PInt 1000000)) = Ok s) /\
  (exists l,
     price_in_lakhs_string (Py.max (PFloat x) (PInt 1000000)) = Ok l).
Proof.
  destruct (max_cases x) as [-> | ->].
  - split; [apply FormatFacts.format_float_total |].
    unfold price_in_lakhs_string. rewrite FormatFacts.truediv_float_lakh.
    eexists. reflexivity.
  - split; eexists; vm_compute; reflexivity.
Qed.

End EstimateFacts.

(** ** The request handlers *)

Section HandlerFacts.

Context {lm : Libm}.
Variable py_float : string -> result F64.float.
Variable py_int : string -> result Z.






(** No request changes the state: every reachable state is the initial one. *)
Lemma handle_state st rq : handle py_float py_int st rq = st.
Proof.
  destruct rq as [fm |]; cbn [handle].
  - unfold predict. destruct (predict_try py_float py_int st fm); reflexivity.
  - reflexivity.
Qed.

Lemma run_state rqs : run py_float py_int rqs = initial_state.
Proof.
  unfold run. generalize initial_state.
  induction rqs as [| rq rqs IH]; intros st; cbn [fold_left].
  - reflexivity.
  - rewrite handle_state. apply IH.
Qed.

(** C8: after any sequence of requests, [retrain_model] answers with
    success, the table of [__init__] with its 17 distinct names, and the
    state it was given. *)
Theorem retrain_model_succeeds rqs :
  exists message info,
    retrain_model (run py_float py_int rqs) =
      (RetrainSuccess message info, run py_float py_int rqs) /\
    info_coefficients info = coefficients init /\
    List.length (info_coefficients info) = 17%nat /\
    NoDup (map fst (info_coefficients info)) /\
    info_features info = feature_columns init.
Proof.
  rewrite run_state. eexists. eexists. split; [reflexivity |].
  cbn [info_coefficients info_features initial_state the_predictor predictor].
  split; [reflexivity |]. split; [reflexivity |]. split; [| reflexivity].
  change predictor with init.
  replace (map fst (coefficients init))
    with (nodup string_dec (map fst (coefficients init)))
    by (vm_compute; reflexivity).
  apply NoDup_nodup.
Qed.

End HandlerFacts.


(** The response to the scenario of the specification, whatever the
    library. *)
Lemma predict_sample_form {lm : Libm} :
  predict plain_float plain_int initial_state sample_form =
    (PredictSuccess (PFloat (F64.of_Z 87960120)) "₹8.8 Cr" "₹879.6 Lakhs",
     initial_state).
Proof. vm_compute. reflexivity. Qed.

(** ** The effect of the size *)

Module SizeFacts.
Import F64 F64Facts RoundFacts OfQFacts OrderFacts MonoFacts SmallFacts SumFacts.
Import BoundFacts ClosedForm BedroomFacts BedroomEffect ScaledFacts SquareFacts.
Import AccuracyFacts.
Local Open Scope Q_scope.

(** A factor between 1/2 and 5/4 keeps two accumulated prices that are at
    least one unit apart in their order. *)
Lemma scaled_lt_unit a1 a2 c :
  bounded_by (200000000000000 # 1) a1 -> bounded_by (200000000000000 # 1) a2 ->
  is_finite c = true -> 1 # 2 <= to_Q c -> to_Q c <= 5 # 4 ->
  1 <= to_Q a2 - to_Q a1 ->
  lt (mul a1 c) (mul a2 c).
Proof.
  intros (F1 & L1 & U1) (F2 & L2 & U2) Fc Lc Uc D.
  destruct (mul_scaled a1 c (-5) 250000000000000 (1 # 64) F1 Fc)
    as (G1 & A1 & B1); [scale | scale | scale | nra | nra |].
  destruct (mul_scaled a2 c (-5) 250000000000000 (1 # 64) F2 Fc)
    as (G2 & A2 & B2); [scale | scale | scale | nra | nra |].
  apply lt_finite; try assumption.
  assert (1 # 2 <= (to_Q a2 - to_Q a1) * to_Q c) by nra.
  lra.
Qed.

Lemma float_pre_clamp_lt {lm : Libm} f1 f2 :
  within_bounds f1 -> within_bounds f2 -> city_tier f1 = city_tier f2 ->
  1 <= to_Q (float_accumulated f2) - to_Q (float_accumulated f1) ->
  lt (float_pre_clamp f1) (float_pre_clamp f2).
Proof.
  intros W1 W2 T D.
  assert (B1 := float_accumulated_bounded _ W1).
  assert (B2 := float_accumulated_bounded _ W2).
  unfold float_pre_clamp. rewrite <- T.
  destruct (city_tier f1 =? 1)%Z; [| destruct (city_tier f1 =? 3)%Z].
  - apply scaled_lt_unit; try assumption;
      [vm_compute; reflexivity | vm_compute; discriminate
      | vm_compute; discriminate].
  - apply scaled_lt_unit; try assumption;
      [vm_compute; reflexivity | vm_compute; discriminate
      | vm_compute; discriminate].
  - apply lt_finite; [apply B1 | apply B2 | lra].
Qed.

(** The exact price moves by at least 2500 for each unit of size. *)
Lemma exact_accumulated_size f s1 s2 :
  0 <= to_Q s1 -> to_Q s1 <= to_Q s2 ->
  2500 * (to_Q s2 - to_Q s1) <=
  exact_accumulated (with_size s2 f) - exact_accumulated (with_size s1 f).
Proof.
  intros Z H. unfold exact_accumulated. cbv zeta.
  change (exact_categorical (with_size s2 f)) with (exact_categorical f).
  change (exact_categorical (with_size s1 f)) with (exact_categorical f).
  cbn [with_size size bedrooms bathrooms avg_local_rent growth_rate city_tier].
  assert (Q : to_Q s1 * to_Q s1 <= to_Q s2 * to_Q s2) by nra.
  unfold Qdiv. change (/ 1000) with (1 # 1000). lra.
Qed.

Lemma within_bounds_size {lm : Libm} f :
  within_bounds f -> 0 <= to_Q (size f).
Proof.
  intros (S0 & S1 & _).
  destruct (nonneg_bounded_by (size f) 1000000 ltac:(small) S0 S1)
    as (F & _ & _).
  destruct (le_zero_cases _ S0) as [E | [_ P]]; [| exact P].
  rewrite E in F. discriminate F.
Qed.

End SizeFacts.

(** C5, as the code has it: on inputs of ordinary magnitude, with all other
    fields fixed, a size larger by at least 0.001 gives a strictly larger
    price before the clamp, whichever of its two possible results the
    library's [pow] returns. *)
Theorem size_effect_within_bounds {lm : Libm} f s1 s2 :
  within_bounds (with_size s1 f) -> within_bounds (with_size s2 f) ->
  (F64.to_Q s1 + (1 # 1000) <= F64.to_Q s2)%Q ->
  exists x1 x2,
    pre_clamp_price predictor (with_size s1 f) = Ok (PFloat x1) /\
    pre_clamp_price predictor (with_size s2 f) = Ok (PFloat x2) /\
    Py.gt (PFloat x2) (PFloat x1) = true.
Proof.
  intros W1 W2 G.
  exists (float_pre_clamp (with_size s1 f)), (float_pre_clamp (with_size s2 f)).
  split; [apply ClosedForm.pre_clamp_price_closed,
            BedroomFacts.no_exception_within_bounds, W1 |].
  split; [apply ClosedForm.pre_clamp_price_closed,
            BedroomFacts.no_exception_within_bounds, W2 |].
  apply BedroomEffect.gt_of_lt.
  apply SizeFacts.float_pre_clamp_lt; [exact W1 | exact W2 | reflexivity |].
  assert (Z := SizeFacts.within_bounds_size _ W1). cbn [with_size size] in Z.
  assert (E := SizeFacts.exact_accumulated_size f s1 s2 Z ltac:(lra)).
  destruct (AccuracyFacts.float_accumulated_accuracy _ W1) as (_ & A1 & B1).
  destruct (AccuracyFacts.float_accumulated_accuracy _ W2) as (_ & A2 & B2).
  lra.
Qed.

Lemma size_effect_within_bounds_witness :
  within_bounds (with_size (F64.of_Z 1000) sample_features) /\
  within_bounds (with_size (F64.of_Z 1001) sample_features) /\
  (F64.to_Q (F64.of_Z 1000) + (1 # 1000) <= F64.to_Q (F64.of_Z 1001))%Q /\
  exists x1 x2,
    pre_clamp_price (L := pow_below) predictor
      (with_size (F64.of_Z 1000) sample_features) = Ok (PFloat x1) /\
    pre_clamp_price (L := pow_below) predictor
      (with_size (F64.of_Z 1001) sample_features) = Ok (PFloat x2) /\
    Py.gt (PFloat x2) (PFloat x1) = true.
Proof.
  assert (W : forall s,
             F64.le (S754_zero false) s -> F64.le s (F64.of_Z 1000000) ->
             within_bounds (with_size s sample_features)).
  { intros s S0 S1. unfold within_bounds.
    cbn [with_size sample_features size bedrooms bathrooms avg_local_rent
           growth_rate city_tier].
    split; [exact S0 |]. split; [exact S1 |].
    repeat split; try lia; vm_compute; reflexivity. }
  assert (W1 : within_bounds (with_size (F64.of_Z 1000) sample_features))
    by (apply W; vm_compute; reflexivity).
  assert (W2 : within_bounds (with_size (F64.of_Z 1001) sample_features))
    by (apply W; vm_compute; reflexivity).
  assert (G : (F64.to_Q (F64.of_Z 1000) + (1 # 1000)
               <= F64.to_Q (F64.of_Z 1001))%Q) by (vm_compute; discriminate).
  split; [exact W1 |]. split; [exact W2 |]. split; [exact G |].
  exact (size_effect_within_bounds (lm := pow_below) sample_features
           (F64.of_Z 1000) (F64.of_Z 1001) W1 W2 G).
Defined.

(** C5 as stated fails.  1000.0 and the next float above it are two
    positive sizes, the second strictly larger, and the two prices before
    the clamp are the same float.  And beyond the ordinary magnitudes a
    large step of the size is absorbed as well: with a growth rate of 2^1000
    the sizes 1000 and 2000 give the same price.  Both hold whichever result
    the library's [pow] returns. *)
Lemma strictly_larger_size_same_price :
  F64.lt (S754_zero false) (F64.of_Z 1000) /\
  F64.lt (F64.of_Z 1000) size_above_1000 /\
  (forall lm : Libm,
     pre_clamp_price (L := lm) predictor
       (with_size size_above_1000 sample_features) =
       Ok (PFloat (F64.of_Z 87960120)) /\
     pre_clamp_price (L := lm) predictor
       (with_size (F64.of_Z 1000) sample_features) =
       Ok (PFloat (F64.of_Z 87960120))) /\
  F64.lt (F64.of_Z 1000) (F64.of_Z 2000) /\
  (forall lm : Libm,
     exists p,
       pre_clamp_price (L := lm) predictor
         (with_size (F64.of_Z 1000)
            (with_growth_rate vast_growth sample_features)) = Ok p /\
       pre_clamp_price (L := lm) predictor
         (with_size (F64.of_Z 2000)
            (with_growth_rate vast_growth sample_features)) = Ok p /\
       Py.is_nan p = false /\ Py.gt p p = false).
Proof.
  split; [vm_compute; reflexivity |]. split; [vm_compute; reflexivity |].
  split; [| split; [vm_compute; reflexivity |]].
  - intros lm. split; [| vm_compute; reflexivity].
    assert (W : within_bounds (with_size size_above_1000 sample_features)).
    { unfold within_bounds.
      cbn [with_size sample_features size bedrooms bathrooms avg_local_rent
             growth_rate city_tier].
      repeat split; try lia; vm_compute; reflexivity. }
    rewrite (ClosedForm.pre_clamp_price_closed _
               (BedroomFacts.no_exception_within_bounds _ W)).
    do 2 f_equal.
    unfold float_pre_clamp, float_accumulated, float_terms, numeric_float_terms.
    cbn [with_size sample_features size bedrooms bathrooms avg_local_rent
           growth_rate city_tier].
    pose (b := pow_rounds_up (Libm := lm) (F64.abs size_above_1000)).
    rewrite (SquareFacts.square_choice (L := lm) (fun _ => b) size_above_1000
               (eq_refl b)).
    destruct b; vm_compute; reflexivity.
  - intros lm. eexists. split; [vm_compute; reflexivity |].
    split; [vm_compute; reflexivity |]. split; vm_compute; reflexivity.
Qed.

(** ** The effect of the bedrooms *)

Module BedroomExact.
Import F64.
Local Open Scope Q_scope.

(** In exact arithmetic a bedroom moves the accumulated price by
    [800000 - 200000 * city_tier]. *)
Lemma exact_accumulated_bedrooms f b1 b2 :
  exact_accumulated (with_bedrooms b2 f) - exact_accumulated (with_bedrooms b1 f)
  == inject_Z ((800000 - 200000 * city_tier f) * (b2 - b1)).
Proof.
  unfold exact_accumulated. cbv zeta.
  change (exact_categorical (with_bedrooms b2 f)) with (exact_categorical f).
  change (exact_categorical (with_bedrooms b1 f)) with (exact_categorical f).
  cbn [with_bedrooms size bedrooms bathrooms avg_local_rent growth_rate
         city_tier].
  replace ((800000 - 200000 * city_tier f) * (b2 - b1))%Z
    with (800000 * b2 + -200000 * (city_tier f * b2)
          + - (800000 * b1 + -200000 * (city_tier f * b1)))%Z by ring.
  rewrite !inject_Z_plus, inject_Z_opp, !inject_Z_plus.
  unfold Qdiv. ring.
Qed.

End BedroomExact.

(** C9, as the code has it: on inputs of ordinary magnitude, with all other
    fields fixed, more bedrooms give a strictly larger price before the clamp
    for the tiers 1, 2 and 3, and a strictly smaller one from tier 5 on; at
    tier 4 the two weights cancel and the two prices are at most half a unit
    apart, in either direction. *)
Theorem bedrooms_effect_within_bounds {lm : Libm} f b1 b2 :
  within_bounds (with_bedrooms b1 f) -> within_bounds (with_bedrooms b2 f) ->
  (b1 < b2)%Z ->
  exists x1 x2,
    pre_clamp_price predictor (with_bedrooms b1 f) = Ok (PFloat x1) /\
    pre_clamp_price predictor (with_bedrooms b2 f) = Ok (PFloat x2) /\
    ((1 <= city_tier f <= 3)%Z -> Py.gt (PFloat x2) (PFloat x1) = true) /\
    ((5 <= city_tier f)%Z -> Py.gt (PFloat x1) (PFloat x2) = true) /\
    (city_tier f = 4 ->
     F64.is_finite x1 = true /\ F64.is_finite x2 = true /\
     (- (1 # 2) <= F64.to_Q x2 - F64.to_Q x1)%Q /\
     (F64.to_Q x2 - F64.to_Q x1 <= 1 # 2)%Q).
Proof.
  intros W1 W2 Hb.
  exists (float_pre_clamp (with_bedrooms b1 f)),
         (float_pre_clamp (with_bedrooms b2 f)).
  split; [apply ClosedForm.pre_clamp_price_closed,
            BedroomFacts.no_exception_within_bounds, W1 |].
  split; [apply ClosedForm.pre_clamp_price_closed,
            BedroomFacts.no_exception_within_bounds, W2 |].
  destruct (BedroomEffect.float_accumulated_bedrooms f b1 b2 W1 W2) as [L U].
  destruct (BedroomEffect.float_accumulated_bedrooms f b2 b1 W2 W1) as [L' U'].
  split; [| split]; intros Ht.
  - apply BedroomEffect.gt_of_lt.
    apply BedroomEffect.float_pre_clamp_bedrooms_lt; try assumption.
    assert (D : (200000 <= (800000 - 200000 * city_tier f) * (b2 - b1))%Z) by nia.
    rewrite Zle_Qle in D. change (inject_Z 200000) with (200000 # 1)%Q in D.
    lra.
  - apply BedroomEffect.gt_of_lt.
    apply BedroomEffect.float_pre_clamp_bedrooms_lt; try assumption.
    assert (D : (200000 <= (800000 - 200000 * city_tier f) * (b1 - b2))%Z) by nia.
    rewrite Zle_Qle in D. change (inject_Z 200000) with (200000 # 1)%Q in D.
    lra.
  - destruct (AccuracyFacts.float_accumulated_accuracy _ W1) as (F1 & A1 & B1).
    destruct (AccuracyFacts.float_accumulated_accuracy _ W2) as (F2 & A2 & B2).
    assert (E := BedroomExact.exact_accumulated_bedrooms f b1 b2).
    rewrite Ht in E. change (800000 - 200000 * 4)%Z with 0%Z in E.
    rewrite Z.mul_0_l in E. change (inject_Z 0) with 0%Q in E.
    unfold float_pre_clamp.
    change (city_tier (with_bedrooms b1 f)) with (city_tier f).
    change (city_tier (with_bedrooms b2 f)) with (city_tier f).
    rewrite Ht. change (4 =? 1) with false. change (4 =? 3) with false.
    cbv iota. split; [exact F1 |]. split; [exact F2 |]. split; lra.
Qed.

Lemma bedrooms_effect_within_bounds_witness :
  within_bounds (with_bedrooms 2 sample_features) /\
  within_bounds (with_bedrooms 3 sample_features) /\
  exists x1 x2,
    pre_clamp_price (L := pow_below) predictor
      (with_bedrooms 2 sample_features) = Ok (PFloat x1) /\
    pre_clamp_price (L := pow_below) predictor
      (with_bedrooms 3 sample_features) = Ok (PFloat x2) /\
    ((1 <= city_tier sample_features <= 3)%Z ->
     Py.gt (PFloat x2) (PFloat x1) = true) /\
    ((5 <= city_tier sample_features)%Z ->
     Py.gt (PFloat x1) (PFloat x2) = true) /\
    (city_tier sample_features = 4 ->
     F64.is_finite x1 = true /\ F64.is_finite x2 = true /\
     (- (1 # 2) <= F64.to_Q x2 - F64.to_Q x1)%Q /\
     (F64.to_Q x2 - F64.to_Q x1 <= 1 # 2)%Q).
Proof.
  assert (W : forall b, (0 <= b <= 1000)%Z ->
                within_bounds (with_bedrooms b sample_features)).
  { intros b Hb. unfold within_bounds.
    cbn [with_bedrooms sample_features size bedrooms bathrooms avg_local_rent
           growth_rate city_tier].
    repeat split; try lia; vm_compute; reflexivity. }
  split; [apply W; lia |]. split; [apply W; lia |].
  apply (bedrooms_effect_within_bounds (lm := pow_below) sample_features 2 3);
    [apply W; lia | apply W; lia | lia].
Defined.

(** C9 as stated fails twice.  At tier 4 one more bedroom leaves the price
    before the clamp of the scenario unchanged, so it does not strictly
    decrease.  And beyond the ordinary magnitudes the bedroom is absorbed by
    the float sum: at tier 1 with a size of 2^500 one more bedroom leaves
    the price unchanged, so it does not strictly increase.  Both hold
    whichever result the library's [pow] returns. *)
Lemma bedroom_without_effect :
  (forall lm : Libm,
     exists p,
       pre_clamp_price (L := lm) predictor
         (with_city_tier 4 (with_bedrooms 2 sample_features)) = Ok p /\
       pre_clamp_price (L := lm) predictor
         (with_city_tier 4 (with_bedrooms 3 sample_features)) = Ok p /\
       Py.gt p p = false) /\
  city_tier (with_size vast_size sample_features) = 1 /\
  (forall lm : Libm,
     exists p,
       pre_clamp_price (L := lm) predictor
         (with_bedrooms 2 (with_size vast_size sample_features)) = Ok p /\
       pre_clamp_price (L := lm) predictor
         (with_bedrooms 3 (with_size vast_size sample_features)) = Ok p /\
       Py.gt p p = false).
Proof.
  split; [| split; [reflexivity |]]; intros lm; eexists;
    (split; [vm_compute; reflexivity |]); split; vm_compute; reflexivity.
Qed.

(** * Further properties of the estimator and the handlers *)

(** X1: whenever [calculate_ols_price] returns, its result is at least
    1,000,000 unless the price before the clamp is NaN, and then the result
    is that NaN. *)
Theorem clamp_floor_unless_nan {lm : Libm} f p :
  calculate_ols_price predictor f = Ok p ->
  (Py.is_nan p = false /\ Py.ge p (PInt 1000000) = true) \/
  (Py.is_nan p = true /\ pre_clamp_price predictor f = Ok p).
Proof.
  intros H. destruct (calculate_ols_price_floor f p H) as [A | [-> B]].
  - left. exact A.
  - right. split; [reflexivity | exact B].
Qed.

Lemma clamp_floor_unless_nan_witness :
  calculate_ols_price (L := pow_below) predictor sample_features =
    Ok (PFloat (F64.of_Z 87960120)) /\
  ((Py.is_nan (PFloat (F64.of_Z 87960120)) = false /\
    Py.ge (PFloat (F64.of_Z 87960120)) (PInt 1000000) = true) \/
   (Py.is_nan (PFloat (F64.of_Z 87960120)) = true /\
    pre_clamp_price (L := pow_below) predictor sample_features =
      Ok (PFloat (F64.of_Z 87960120)))).
Proof.
  assert (H : calculate_ols_price (L := pow_below) predictor sample_features =
              Ok (PFloat (F64.of_Z 87960120))) by (vm_compute; reflexivity).
  split; [exact H |].
  exact (clamp_floor_unless_nan (lm := pow_below) sample_features _ H).
Defined.

(** X2: [calculate_ols_price] raises exactly when one of the ints it adds to
    the float price (800000 * bedrooms, 400000 * bathrooms,
    -200000 * (city_tier * bedrooms), city_tier) is too large for a float or
    the square of a finite size or rent overflows; what it raises is an
    [OverflowError], and otherwise it returns the clamped float price. *)
Theorem calculate_ols_price_raises_iff {lm : Libm} f :
  (no_exception f = true ->
   calculate_ols_price predictor f =
     Ok (Py.max (PFloat (float_pre_clamp f)) (PInt 1000000))) /\
  (no_exception f = false ->
   exists msg, calculate_ols_price predictor f = Raise (OverflowError msg)) /\
  (forall p, calculate_ols_price predictor f = Ok p -> no_exception f = true).
Proof.
  split; [apply EstimateFacts.calculate_ols_price_closed |]. split.
  - intros E. destruct (EstimateFacts.numeric_terms_overflow f E) as [msg H].
    exists msg. unfold calculate_ols_price, pre_clamp_price, accumulated_price.
    rewrite H. reflexivity.
  - intros p H. apply (EstimateFacts.calculate_ols_price_Ok f p H).
Qed.

Lemma calculate_ols_price_raises_iff_witness :
  no_exception (L := pow_below) huge_size_features = false /\
  exists msg,
    calculate_ols_price (L := pow_below) predictor huge_size_features =
      Raise (OverflowError msg).
Proof.
  assert (E : no_exception (L := pow_below) huge_size_features = false)
    by (vm_compute; reflexivity).
  split; [exact E |].
  exact (proj1 (proj2 (calculate_ols_price_raises_iff (lm := pow_below)
                         huge_size_features)) E).
Defined.

(** X3: the formatter never fails on a result of [calculate_ols_price]: the
    result is a float or the int 1,000,000, and both strings of the response
    are produced. *)
Theorem format_after_estimate {lm : Libm} f p :
  calculate_ols_price predictor f = Ok p ->
  (exists s, format_indian_currency p = Ok s) /\
  (exists l, price_in_lakhs_string p = Ok l).
Proof.
  intros H.
  destruct (EstimateFacts.calculate_ols_price_Ok f p H) as [_ ->].
  apply EstimateFacts.format_clamped_total.
Qed.

Lemma format_after_estimate_witness :
  calculate_ols_price (L := pow_below) predictor sample_features =
    Ok (PFloat (F64.of_Z 87960120)) /\
  (exists s, format_indian_currency (PFloat (F64.of_Z 87960120)) = Ok s) /\
  (exists l, price_in_lakhs_string (PFloat (F64.of_Z 87960120)) = Ok l).
Proof.
  assert (H : calculate_ols_price (L := pow_below) predictor sample_features =
              Ok (PFloat (F64.of_Z 87960120))) by (vm_compute; reflexivity).
  split; [exact H |].
  exact (format_after_estimate (lm := pow_below) sample_features _ H).
Defined.

(** X4: with a string furnishing, which is all [predict] ever passes, only
    the value ["other"] changes the price: any two other strings give the
    same result. *)
Theorem string_furnishing_only_other_matters {lm : Libm} f s1 s2 :
  s1 <> "other" -> s2 <> "other" ->
  calculate_ols_price predictor (with_furnishing (VStr s1) f) =
  calculate_ols_price predictor (with_furnishing (VStr s2) f).
Proof.
  intros H1 H2. apply String.eqb_neq in H1, H2.
  unfold calculate_ols_price, pre_clamp_price, accumulated_price,
    numeric_terms, tier_2_term, tier_multiplier, other_categorical_terms.
  cbn [with_furnishing size bedrooms bathrooms avg_local_rent growth_rate
         city_tier property_type furnishing rera_registered move_in_ready
         Py.eq_int Py.eq_str].
  rewrite H1, H2. reflexivity.
Qed.

Lemma string_furnishing_only_other_matters_witness :
  "4" <> "other" /\ "2" <> "other" /\
  calculate_ols_price (L := pow_below) predictor
    (with_furnishing (VStr "4") sample_features) =
  calculate_ols_price (L := pow_below) predictor
    (with_furnishing (VStr "2") sample_features).
Proof.
  assert (A : "4" <> "other") by discriminate.
  assert (B : "2" <> "other") by discriminate.
  split; [exact A |]. split; [exact B |].
  exact (string_furnishing_only_other_matters (lm := pow_below)
           sample_features "4" "2" A B).
Defined.

Section ResponseFacts.

Variable py_float : string -> result F64.float.
Variable py_int : string -> result Z.

(** X5: when the price before the clamp is below 1,000,000 the response
    carries the int 1000000 and the strings of ten lakhs, whatever the
    features are. *)
Theorem low_price_response {lm : Libm} fm f p :
  read_features py_float py_int fm = Ok f ->
  pre_clamp_price predictor f = Ok p ->
  Py.gt (PInt 1000000) p = true ->
  predict py_float py_int initial_state fm =
    (PredictSuccess (PInt 1000000) "₹10.0 L" "₹10.0 Lakhs", initial_state).
Proof.
  intros R P G. unfold predict, predict_try, predict_price, calculate_ols_price.
  rewrite R. cbn [bind the_predictor initial_state]. rewrite P. cbn [bind].
  unfold Py.max. rewrite G. reflexivity.
Qed.

End ResponseFacts.

Lemma low_price_response_witness :
  exists f p,
    read_features plain_float plain_int cheap_form = Ok f /\
    pre_clamp_price (L := pow_below) predictor f = Ok p /\
    Py.gt (PInt 1000000) p = true /\
    predict (L := pow_below) plain_float plain_int initial_state cheap_form =
      (PredictSuccess (PInt 1000000) "₹10.0 L" "₹10.0 Lakhs", initial_state).
Proof.
  eexists. eexists.
  assert (R : read_features plain_float plain_int cheap_form =
              Ok (with_growth_rate (F64.of_Z (-1)) sample_features))
    by (vm_compute; reflexivity).
  assert (P : pre_clamp_price (L := pow_below) predictor
                (with_growth_rate (F64.of_Z (-1)) sample_features) =
              Ok (PFloat (F64.of_Z (-5639880)))) by (vm_compute; reflexivity).
  assert (G : Py.gt (PInt 1000000) (PFloat (F64.of_Z (-5639880))) = true)
    by (vm_compute; reflexivity).
  split; [exact R |]. split; [exact P |]. split; [exact G |].
  exact (low_price_response (lm := pow_below) plain_float plain_int
           cheap_form _ _ R P G).
Defined.

(** * Monotonicity in the bathrooms and in the growth rate *)

Module FieldMono.
Import F64 F64Facts RoundFacts OfQFacts OrderFacts MonoFacts PyFacts ClosedForm.
Import ClampFacts.
Local Open Scope Q_scope.

Abbreviation not_nan := (fun t : float => is_nan t = false).

Ltac split_Forall :=
  repeat match goal with
         | H : Forall _ (_ :: _) |- _ =>
             let H' := fresh "N" in
             pose proof (Forall_inv H) as H'; cbv beta in H';
             apply Forall_inv_tail in H
         | H : Forall _ [] |- _ => clear H
         end.

Lemma ge_of_le x y : le x y -> Py.ge (PFloat y) (PFloat x) = true.
Proof.
  unfold le, leb, Py.ge. cbn [Py.compare]. rewrite (compare_antisym x y).
  destruct (compare x y) as [[| |] |]; intros H; try discriminate H;
    reflexivity.
Qed.

(** Multiplication by a finite non-negative constant on the left is
    monotone, whatever the sign of the other operand. *)
Lemma mul_nonneg_const_mono_l c x x' :
  is_finite c = true -> 0 <= to_Q c -> le x x' ->
  is_nan (mul c x) = false -> is_nan (mul c x') = false ->
  le (mul c x) (mul c x').
Proof.
  intros F P H N N'.
  destruct (le_cases _ _ H) as [-> | [-> | (Fx & Fx' & Lx)]].
  - destruct c as [s | | | s m e]; try discriminate F; try discriminate N.
    assert (E := finite_nonneg_sign _ _ _ P). subst s.
    change (mul (S754_finite false m e) ninf) with ninf.
    apply le_ninf. exact N'.
  - destruct c as [s | | | s m e]; try discriminate F; try discriminate N'.
    assert (E := finite_nonneg_sign _ _ _ P). subst s.
    change (mul (S754_finite false m e) pinf) with pinf.
    apply le_pinf. exact N.
  - rewrite (mul_finite c x F Fx), (mul_finite c x' F Fx').
    apply of_Q_mono. nra.
Qed.

(** The clamp of line 105 is monotone. *)
Lemma max_mono x y :
  le x y ->
  Py.ge (Py.max (PFloat y) (PInt 1000000)) (Py.max (PFloat x) (PInt 1000000))
    = true.
Proof.
  intros H. destruct (le_not_nan _ _ H) as [Nx Ny].
  destruct (le_cases _ _ H) as [-> | [-> | (Fx & Fy & L)]].
  - change (Py.max (PFloat ninf) (PInt 1000000)) with (PInt 1000000).
    apply max_floor, Ny.
  - change (Py.max (PFloat pinf) (PInt 1000000)) with (PFloat pinf).
    destruct (not_nan_cases x Nx) as [-> | [-> | F]];
      [reflexivity | reflexivity |].
    unfold Py.max, Py.gt. rewrite (compare_int_float _ x F).
    destruct (Qcompare _ _); try reflexivity;
      apply ge_of_le, le_pinf, Nx.
  - unfold Py.max, Py.gt.
    rewrite (compare_int_float _ x Fx), (compare_int_float _ y Fy).
    change (inject_Z 1000000) with (1000000 # 1).
    destruct (Qcompare_spec (1000000 # 1) (to_Q y)) as [Ey | Ly | Gy];
      destruct (Qcompare_spec (1000000 # 1) (to_Q x)) as [Ex | Lx | Gx];
      try (apply ge_of_le, H); try reflexivity; try lra;
      unfold Py.ge; rewrite (compare_float_int y _ Fy);
      change (inject_Z 1000000) with (1000000 # 1);
      destruct (Qcompare_spec (to_Q y) (1000000 # 1)); try reflexivity; lra.
Qed.

(** The price before the clamp is monotone in the list of its terms. *)
Lemma float_pre_clamp_mono {lm : Libm} f f' :
  city_tier f = city_tier f' ->
  (Forall not_nan (float_terms f) -> Forall not_nan (float_terms f') ->
   Forall2 le (float_terms f) (float_terms f')) ->
  is_nan (float_pre_clamp f) = false ->
  is_nan (float_pre_clamp f') = false ->
  le (float_pre_clamp f) (float_pre_clamp f').
Proof.
  intros T M.
  assert (A : is_nan (float_accumulated f) = false ->
              is_nan (float_accumulated f') = false ->
              le (float_accumulated f) (float_accumulated f')).
  { intros N1 N2. unfold float_accumulated in *.
    destruct (fold_add_not_nan _ _ N1) as [P1 T1].
    destruct (fold_add_not_nan _ _ N2) as [_ T2].
    apply fold_add_mono; try assumption; [apply M; assumption |].
    apply le_refl, P1. }
  unfold float_pre_clamp. rewrite <- T.
  destruct (city_tier f =? 1)%Z; [| destruct (city_tier f =? 3)%Z]; intros N1 N2.
  - apply mul_pos_const_mono; [vm_compute; reflexivity | vm_compute; reflexivity |].
    apply A; [apply (mul_not_nan _ _ N1) | apply (mul_not_nan _ _ N2)].
  - apply mul_pos_const_mono; [vm_compute; reflexivity | vm_compute; reflexivity |].
    apply A; [apply (mul_not_nan _ _ N1) | apply (mul_not_nan _ _ N2)].
  - apply A; assumption.
Qed.

Ltac same_terms :=
  repeat match goal with
         | |- Forall2 _ [] [] => constructor
         | |- Forall2 _ (?t :: _) (?t :: _) =>
             constructor; [apply le_refl; assumption |]
         | |- Forall2 _ (_ :: _) (_ :: _) => constructor
         end.

Lemma float_terms_bathrooms_mono {lm : Libm} f b1 b2 :
  (b1 <= b2)%Z ->
  Forall not_nan (float_terms (with_bathrooms b1 f)) ->
  Forall not_nan (float_terms (with_bathrooms b2 f)) ->
  Forall2 le (float_terms (with_bathrooms b1 f))
             (float_terms (with_bathrooms b2 f)).
Proof.
  intros L N1 N2. unfold float_terms in *.
  change (categorical_float_terms (with_bathrooms b1 f))
    with (categorical_float_terms f) in *.
  change (categorical_float_terms (with_bathrooms b2 f))
    with (categorical_float_terms f) in *.
  apply Forall_app in N1. destruct N1 as [N1 C1].
  apply Forall_app in N2. destruct N2 as [N2 _].
  apply Forall2_app; [| apply Forall2_le_refl, C1].
  unfold numeric_float_terms in *.
  cbn [with_bathrooms size bedrooms bathrooms avg_local_rent growth_rate
         city_tier] in *.
  split_Forall. same_terms.
  unfold of_Z. apply of_Q_mono. rewrite <- Zle_Qle. lia.
Qed.

Lemma of_Z_nonneg n : (0 <= n)%Z -> le zero (of_Z n).
Proof.
  intros H. replace zero with (of_Q false 0) by (vm_compute; reflexivity).
  unfold of_Z. apply of_Q_mono. change 0 with (inject_Z 0).
  rewrite <- Zle_Qle. exact H.
Qed.

Lemma float_terms_growth_mono {lm : Libm} f g1 g2 :
  (0 <= city_tier f)%Z -> is_finite (of_Z (city_tier f)) = true ->
  le g1 g2 ->
  Forall not_nan (float_terms (with_growth_rate g1 f)) ->
  Forall not_nan (float_terms (with_growth_rate g2 f)) ->
  Forall2 le (float_terms (with_growth_rate g1 f))
             (float_terms (with_growth_rate g2 f)).
Proof.
  intros T FT L N1 N2. unfold float_terms in *.
  change (categorical_float_terms (with_growth_rate g1 f))
    with (categorical_float_terms f) in *.
  change (categorical_float_terms (with_growth_rate g2 f))
    with (categorical_float_terms f) in *.
  apply Forall_app in N1. destruct N1 as [N1 C1].
  apply Forall_app in N2. destruct N2 as [N2 _].
  apply Forall2_app; [| apply Forall2_le_refl, C1].
  unfold numeric_float_terms in *.
  cbn [with_growth_rate size bedrooms bathrooms avg_local_rent growth_rate
         city_tier] in *.
  split_Forall. same_terms.
  - apply mul_nonneg_const_mono_l;
      [vm_compute; reflexivity | vm_compute; discriminate | assumption
      | assumption | assumption].
  - repeat match goal with
           | H : is_nan (mul (of_Z 5000000) ?a) = false |- _ =>
               pose proof (proj2 (mul_not_nan _ _ H)); revert H
           end.
    intros.
    apply mul_nonneg_const_mono_l;
      [vm_compute; reflexivity | vm_compute; discriminate | | assumption
      | assumption].
    destruct (le_zero_cases _ (of_Z_nonneg _ T)) as [E | [_ P]];
      [rewrite E in FT; discriminate FT |].
    apply mul_nonneg_const_mono_l; assumption.
Qed.

End FieldMono.

(** X6: with all other fields fixed, more bathrooms never give a lower
    price: for any ints [b1 <= b2], of either sign, the result of
    [calculate_ols_price] for [b2] is at least the one for [b1], whenever
    both are computed and neither price before the clamp is NaN. *)
Theorem price_monotone_in_bathrooms {lm : Libm} f b1 b2 p1 p2 :
  b1 <= b2 ->
  calculate_ols_price predictor (with_bathrooms b1 f) = Ok p1 ->
  calculate_ols_price predictor (with_bathrooms b2 f) = Ok p2 ->
  Py.is_nan p1 = false -> Py.is_nan p2 = false ->
  Py.ge p2 p1 = true.
Proof.
  intros L H1 H2 N1 N2.
  destruct (EstimateFacts.calculate_ols_price_Ok _ _ H1) as [_ ->].
  destruct (EstimateFacts.calculate_ols_price_Ok _ _ H2) as [_ ->].
  apply FieldMono.max_mono.
  apply FieldMono.float_pre_clamp_mono.
  - reflexivity.
  - apply FieldMono.float_terms_bathrooms_mono, L.
  - destruct (F64.is_nan (float_pre_clamp (with_bathrooms b1 f))) eqn:E;
      [| reflexivity].
    destruct (float_pre_clamp (with_bathrooms b1 f)); try discriminate E.
    discriminate N1.
  - destruct (F64.is_nan (float_pre_clamp (with_bathrooms b2 f))) eqn:E;
      [| reflexivity].
    destruct (float_pre_clamp (with_bathrooms b2 f)); try discriminate E.
    discriminate N2.
Qed.

Lemma price_monotone_in_bathrooms_witness :
  1 <= 3 /\
  calculate_ols_price (L := pow_below) predictor
                 (with_bathrooms 1 sample_features) =
    Ok (PFloat (F64.of_Z 87480120)) /\
  calculate_ols_price (L := pow_below) predictor
                 (with_bathrooms 3 sample_features) =
    Ok (PFloat (F64.of_Z 88440120)) /\
  Py.ge (PFloat (F64.of_Z 88440120)) (PFloat (F64.of_Z 87480120)) = true.
Proof.
  assert (L : 1 <= 3) by lia.
  assert (H1 : calculate_ols_price (L := pow_below) predictor
                 (with_bathrooms 1 sample_features)
               = Ok (PFloat (F64.of_Z 87480120))) by (vm_compute; reflexivity).
  assert (H2 : calculate_ols_price (L := pow_below) predictor
                 (with_bathrooms 3 sample_features)
               = Ok (PFloat (F64.of_Z 88440120))) by (vm_compute; reflexivity).
  split; [exact L | split; [exact H1 | split; [exact H2 |]]].
  apply (price_monotone_in_bathrooms (lm := pow_below) sample_features 1 3
           _ _ L H1 H2);
    reflexivity.
Defined.

(** X7: with all other fields fixed and a city tier that is not negative, a
    higher growth rate, of either sign, never gives a lower price, whenever
    both prices are computed and neither price before the clamp is NaN. *)
Theorem price_monotone_in_growth_rate {lm : Libm} f g1 g2 p1 p2 :
  0 <= city_tier f -> F64.le g1 g2 ->
  calculate_ols_price predictor (with_growth_rate g1 f) = Ok p1 ->
  calculate_ols_price predictor (with_growth_rate g2 f) = Ok p2 ->
  Py.is_nan p1 = false -> Py.is_nan p2 = false ->
  Py.ge p2 p1 = true.
Proof.
  intros T L H1 H2 N1 N2.
  destruct (EstimateFacts.calculate_ols_price_Ok _ _ H1) as [X ->].
  destruct (EstimateFacts.calculate_ols_price_Ok _ _ H2) as [_ ->].
  apply FieldMono.max_mono.
  apply FieldMono.float_pre_clamp_mono.
  - reflexivity.
  - apply FieldMono.float_terms_growth_mono; [exact T | | exact L].
    unfold no_exception in X.
    repeat (apply andb_prop in X; destruct X as [X ?]). assumption.
  - destruct (F64.is_nan (float_pre_clamp (with_growth_rate g1 f))) eqn:E;
      [| reflexivity].
    destruct (float_pre_clamp (with_growth_rate g1 f)); try discriminate E.
    discriminate N1.
  - destruct (F64.is_nan (float_pre_clamp (with_growth_rate g2 f))) eqn:E;
      [| reflexivity].
    destruct (float_pre_clamp (with_growth_rate g2 f)); try discriminate E.
    discriminate N2.
Qed.

Lemma price_monotone_in_growth_rate_witness :
  0 <= city_tier sample_features /\
  F64.le (F64.of_Z 0) (F64.of_Z 1) /\
  calculate_ols_price (L := pow_below) predictor
                 (with_growth_rate (F64.of_Z 0) sample_features) =
    Ok (PFloat (F64.of_Z 9960120)) /\
  calculate_ols_price (L := pow_below) predictor
                 (with_growth_rate (F64.of_Z 1) sample_features) =
    Ok (PFloat (F64.of_Z 25560120)) /\
  Py.ge (PFloat (F64.of_Z 25560120)) (PFloat (F64.of_Z 9960120)) = true.
Proof.
  assert (T : 0 <= city_tier sample_features) by (vm_compute; discriminate).
  assert (L : F64.le (F64.of_Z 0) (F64.of_Z 1)) by (vm_compute; reflexivity).
  assert (H1 : calculate_ols_price (L := pow_below) predictor
                 (with_growth_rate (F64.of_Z 0) sample_features)
               = Ok (PFloat (F64.of_Z 9960120))) by (vm_compute; reflexivity).
  assert (H2 : calculate_ols_price (L := pow_below) predictor
                 (with_growth_rate (F64.of_Z 1) sample_features)
               = Ok (PFloat (F64.of_Z 25560120))) by (vm_compute; reflexivity).
  split; [exact T | split; [exact L | split; [exact H1 | split; [exact H2 |]]]].
  apply (price_monotone_in_growth_rate (lm := pow_below) sample_features
           (F64.of_Z 0) (F64.of_Z 1) _ _ T L H1 H2); reflexivity.
Defined.

(** X8: on inputs of ordinary magnitude (the bounds of [within_bounds])
    [calculate_ols_price] raises nothing and returns a finite number within
    half a unit of the formula evaluated in exact arithmetic, whichever
    result the library's [pow] returns: the roundings of the products, of
    the two squares and of the additions never add up to more. *)
Theorem price_accuracy_within_bounds {lm : Libm} f :
  within_bounds f ->
  exists p,
    calculate_ols_price predictor f = Ok p /\
    num_is_finite p = true /\
    (- (1 # 2) <= num_value p - exact_price f)%Q /\
    (num_value p - exact_price f <= 1 # 2)%Q.
Proof.
  intros W. exists (Py.max (PFloat (float_pre_clamp f)) (PInt 1000000)).
  split.
  - apply EstimateFacts.calculate_ols_price_closed.
    apply BedroomFacts.no_exception_within_bounds, W.
  - destruct (AccuracyFacts.float_pre_clamp_accuracy f W) as (F & A & B).
    apply (AccuracyFacts.max_accuracy _ _ F A B).
Qed.

Lemma price_accuracy_within_bounds_witness :
  within_bounds sample_features /\
  exists p,
    calculate_ols_price (L := pow_below) predictor sample_features = Ok p /\
    num_is_finite p = true /\
    (- (1 # 2) <= num_value p - exact_price sample_features)%Q /\
    (num_value p - exact_price sample_features <= 1 # 2)%Q.
Proof.
  assert (W : within_bounds sample_features).
  { unfold within_bounds.
    cbn [sample_features size bedrooms bathrooms avg_local_rent growth_rate
           city_tier].
    repeat split; try lia; vm_compute; reflexivity. }
  split; [exact W |].
  exact (price_accuracy_within_bounds (lm := pow_below) sample_features W).
Defined.
